(** * ContentGeneration_LL: scoring, ranking and templated generation

    A shallow embedding of the scoring and ranking pipeline of
    [influencer_finder.py] and of the idea and script generators of
    [content_generator.py], with the properties of the written
    specification stated and proved over it.

    Conventions of the embedding:
    - Python [int] is [Z]; the value of a Python [float] is read as an
      exact rational ([Q]) where a statement bounds or equates it, and
      is computed in IEEE binary64 ([spec_float], round to nearest even)
      where the code compares floats, that is in the keys of the two
      sorts; an integer too large for binary64 makes Python raise
      [OverflowError] on conversion, which the model follows inside
      [try] blocks only;
    - Python [str] is [string], restricted to ASCII: [lower] acts on the
      letters A-Z and [\w] on ASCII letters, digits and the underscore;
      a text with other characters is outside the model;
    - a [dict] whose iteration order is observable is an association list;
    - [try]/[except] blocks are written in a small exception monad, the
      handler being an explicit [match];
    - the module-level [random] generator is an explicit oracle threaded
      through the generators, so every statement holds for every sequence
      of draws;
    - [datetime.now()] and [datetime.fromisoformat] belong to the Python
      library: the clock is a parameter [now] and the parser a parameter
      [fromisoformat], both counted in microseconds of wall-clock time. *)

From Stdlib Require Import ZArith QArith Qminmax Qround List String Ascii Bool.
From Stdlib Require Import Lia Lqa Permutation Sorted DecimalString SpecFloat.
Import ListNotations.

Open Scope string_scope.
Open Scope Z_scope.

(** ** Python strings *)

Module PyStr.

Definition is_upper (c : ascii) : bool :=
  let n := nat_of_ascii c in (65 <=? n)%nat && (n <=? 90)%nat.

Definition is_lower (c : ascii) : bool :=
  let n := nat_of_ascii c in (97 <=? n)%nat && (n <=? 122)%nat.

Definition lower_ascii (c : ascii) : ascii :=
  if is_upper c then ascii_of_nat (nat_of_ascii c + 32) else c.

Definition upper_ascii (c : ascii) : ascii :=
  if is_lower c then ascii_of_nat (nat_of_ascii c - 32) else c.

(** [s.lower()] *)
Fixpoint lower (s : string) : string :=
  match s with
  | EmptyString => EmptyString
  | String c s' => String (lower_ascii c) (lower s')
  end.

(** [s[n:]] for a non-negative [n] *)
Fixpoint drop (n : nat) (s : string) : string :=
  match n, s with
  | O, _ => s
  | S _, EmptyString => EmptyString
  | S n', String _ s' => drop n' s'
  end.

(** [sub in s] *)
Fixpoint contains (sub s : string) : bool :=
  if prefix sub s then true
  else match s with
       | EmptyString => false
       | String _ s' => contains sub s'
       end.

(** [s.count(sub)] is only used as [template.count('{}')]: the number of
    non-overlapping occurrences of a two-character pattern whose
    characters differ, which is the number of positions where it starts. *)
Fixpoint count (sub s : string) : nat :=
  match s with
  | EmptyString => O
  | String _ s' => ((if prefix sub s then 1 else 0) + count sub s')%nat
  end.

(** [s.replace(old, new, 1)]: the leftmost occurrence only *)
Fixpoint replace_first (old new s : string) : string :=
  if prefix old s then new ++ drop (String.length old) s
  else match s with
       | EmptyString => EmptyString
       | String c s' => String c (replace_first old new s')
       end.

(** [s.replace(c, new)] for a one-character pattern [c] *)
Fixpoint replace_char (c : ascii) (new s : string) : string :=
  match s with
  | EmptyString => EmptyString
  | String d s' =>
      if Ascii.eqb c d then new ++ replace_char c new s'
      else String d (replace_char c new s')
  end.

(** the ASCII characters for which [str.isspace] holds *)
Definition is_space (c : ascii) : bool :=
  let n := nat_of_ascii c in
  ((9 <=? n)%nat && (n <=? 13)%nat) || ((28 <=? n)%nat && (n <=? 32)%nat).

(** [s.split()]: maximal runs of non-space characters; [cur] is the run
    being read, in reverse *)
Fixpoint rev_string (acc s : string) : string :=
  match s with
  | EmptyString => acc
  | String c s' => rev_string (String c acc) s'
  end.

Definition flush (cur : string) : list string :=
  match cur with
  | EmptyString => []
  | _ => [rev_string EmptyString cur]
  end.

Fixpoint split_from (cur s : string) : list string :=
  match s with
  | EmptyString => flush cur
  | String c s' =>
      if is_space c then flush cur ++ split_from EmptyString s'
      else split_from (String c cur) s'
  end.

Definition split (s : string) : list string := split_from EmptyString s.

(** [sep.join(words)] *)
Fixpoint join (sep : string) (words : list string) : string :=
  match words with
  | [] => EmptyString
  | [w] => w
  | w :: ws => w ++ sep ++ join sep ws
  end.

(** [s.capitalize()] *)
Definition capitalize (s : string) : string :=
  match s with
  | EmptyString => EmptyString
  | String c s' => String (upper_ascii c) (lower s')
  end.

Definition is_alpha (c : ascii) : bool := is_upper c || is_lower c.

(** [s.title()]: a letter is upper-cased when it follows a non-letter and
    lower-cased otherwise; [prev] tells whether the previous character was
    a letter *)
Fixpoint title_from (prev : bool) (s : string) : string :=
  match s with
  | EmptyString => EmptyString
  | String c s' =>
      String (if prev then lower_ascii c else upper_ascii c)
             (title_from (is_alpha c) s')
  end.

Definition title (s : string) : string := title_from false s.

(** [str(n)] *)
Definition str (n : Z) : string := NilZero.string_of_int (Z.to_int n).

(** [any(k in s for k in keywords)] *)
Definition any_in (keywords : list string) (s : string) : bool :=
  existsb (fun k => contains k s) keywords.

(** the loop [for k in keywords: if k in text: score += points] *)
Definition add_matches (points : Z) (keywords : list string) (text : string)
           (score : Z) : Z :=
  fold_left (fun score keyword =>
               if contains keyword text then score + points else score)
            keywords score.

(** [x in xs] for a list of strings *)
Definition mem (x : string) (xs : list string) : bool :=
  existsb (String.eqb x) xs.

(** [s.startswith(p)] *)
Definition startswith (s p : string) : bool := prefix p s.

(** [s.lstrip()], [s.rstrip()] and [s.strip()] *)
Fixpoint lstrip (s : string) : string :=
  match s with
  | EmptyString => EmptyString
  | String c s' => if is_space c then lstrip s' else s
  end.

Definition rstrip (s : string) : string :=
  rev_string EmptyString (lstrip (rev_string EmptyString s)).

Definition strip (s : string) : string := rstrip (lstrip s).

(** [s.split(sep)] for a one-character separator; [cur] is the piece being
    read, in reverse *)
Fixpoint split_on_from (sep : ascii) (cur s : string) : list string :=
  match s with
  | EmptyString => [rev_string EmptyString cur]
  | String c s' =>
      if Ascii.eqb c sep
      then rev_string EmptyString cur :: split_on_from sep EmptyString s'
      else split_on_from sep (String c cur) s'
  end.

Definition split_on (sep : ascii) (s : string) : list string :=
  split_on_from sep EmptyString s.

(** the ASCII characters that the pattern [\w] matches.  On a [str] the
    pattern also matches the letters and digits of other scripts, which a
    string of the model does not hold: the scan below is the pattern's on
    ASCII text *)
Definition is_digit (c : ascii) : bool :=
  let n := nat_of_ascii c in (48 <=? n)%nat && (n <=? 57)%nat.

Definition is_word (c : ascii) : bool :=
  is_upper c || is_lower c || is_digit c || Ascii.eqb c "_".

(** [re.findall(r'#(\w+)', s)]: a scan that remembers the word read since
    the last hash sign ([None] when no hash sign is pending); [cur] is that
    word, in reverse *)
Definition emit (cur : option string) : list string :=
  match cur with
  | Some (String c w) => [rev_string EmptyString (String c w)]
  | _ => []
  end.

Fixpoint findall_hashtags_from (cur : option string) (s : string) : list string :=
  match s with
  | EmptyString => emit cur
  | String c s' =>
      match cur with
      | Some w =>
          if is_word c then findall_hashtags_from (Some (String c w)) s'
          else (emit cur ++
                findall_hashtags_from (if Ascii.eqb c "#" then Some EmptyString else None) s')%list
      | None =>
          findall_hashtags_from (if Ascii.eqb c "#" then Some EmptyString else None) s'
      end
  end.

Definition findall_hashtags (s : string) : list string :=
  findall_hashtags_from None s.

End PyStr.

(** ** Python lists, dicts, exceptions and the random generator *)

Module Py.

(** [l[:stop]]: a negative [stop] counts from the end of the list *)
Definition slice_to {A : Type} (l : list A) (stop : Z) : list A :=
  if stop <? 0
  then firstn (Z.to_nat (Z.of_nat (List.length l) + stop)) l
  else firstn (Z.to_nat stop) l.

(** [min(a, b)] returns [b] only when [b < a] *)
Definition min_Z (a b : Z) : Z := if b <? a then b else a.
Definition max_Z (a b : Z) : Z := if a <? b then b else a.
Definition Qltb (a b : Q) : bool := negb (Qle_bool b a).
Definition min_Q (a b : Q) : Q := if Qltb b a then b else a.

(** [int(x)] on a float: truncation toward zero *)
Definition int_of_Q (x : Q) : Z := Z.quot (Qnum x) (Z.pos (Qden x)).

(** [l.sort(key=key, reverse=True)] and [sorted(l, key=key, reverse=True)]:
    a stable sort into descending order of the keys, which only ever
    compares keys with [<].  It is written as the insertion sort that
    puts an element in front of the first element whose key is not
    greater than its own, which gives the list that Python's sort gives
    whenever [<] orders the keys in ranks, as it does on integers and on
    floats none of which is NaN. *)
Section Sort.
Context {A K : Type} (ltb : K -> K -> bool) (key : A -> K).

Fixpoint insert_desc (x : A) (l : list A) : list A :=
  match l with
  | [] => [x]
  | y :: l' =>
      if ltb (key x) (key y) then y :: insert_desc x l' else x :: l
  end.

Definition sort_desc (l : list A) : list A := fold_right insert_desc [] l.

(** two keys the order does not separate *)
Definition tied (a b : K) : bool := negb (ltb a b) && negb (ltb b a).

(** [y] does not rank above [x] *)
Definition not_above (x y : A) : Prop := ltb (key x) (key y) = false.
End Sort.

(** Exceptions that the modelled code can meet.  [RoundsUsedUp] is not a
    Python exception: it marks a [while] loop of the model that was cut
    after the rounds it was given. *)
Inductive exn : Type :=
| KeyError | ValueError | IndexError | ZeroDivisionError | OverflowError
| RoundsUsedUp.

Inductive result (A : Type) : Type :=
| Ok (a : A)
| Raise (e : exn).
Arguments Ok {A} a.
Arguments Raise {A} e.

Definition bind {A B : Type} (m : result A) (f : A -> result B) : result B :=
  match m with
  | Ok a => f a
  | Raise e => Raise e
  end.

(** [d[k]] on a record field that may be absent *)
Definition getitem {A : Type} (field : option A) : result A :=
  match field with
  | Some a => Ok a
  | None => Raise KeyError
  end.

(** A dict with string keys, in insertion order. *)
Section Dict.
Context {V : Type}.

Definition dict := list (string * V).

(** [d.get(k, default)] *)
Fixpoint get (d : dict) (k : string) (default : V) : V :=
  match d with
  | [] => default
  | (k', v) :: d' => if String.eqb k k' then v else get d' k default
  end.

(** [d[k] = v]: an existing key keeps its place *)
Fixpoint set (d : dict) (k : string) (v : V) : dict :=
  match d with
  | [] => [(k, v)]
  | (k', v') :: d' =>
      if String.eqb k k' then (k', v) :: d' else (k', v') :: set d' k v
  end.

Definition keys (d : dict) : list string := map fst d.

(** [d[k]] *)
Fixpoint subscript (d : dict) (k : string) : result V :=
  match d with
  | [] => Raise KeyError
  | (k', v) :: d' => if String.eqb k k' then Ok v else subscript d' k
  end.
End Dict.
Arguments dict : clear implicits.

(** The random generator: the draws still to come.  An exhausted oracle
    answers 0. *)
Definition rng := list N.

Definition next (r : rng) : N * rng :=
  match r with
  | [] => (0%N, [])
  | n :: r' => (n, r')
  end.

(** the position that a draw [n] selects in a list of [len] elements *)
Definition pick (n : N) (len : nat) : nat := N.to_nat (n mod N.of_nat len).

(** [random.choice(l)] *)
Definition choice {A : Type} (l : list A) (r : rng) : result (A * rng) :=
  match l with
  | [] => Raise IndexError
  | d :: _ => let (n, r') := next r in Ok (nth (pick n (List.length l)) l d, r')
  end.

Fixpoint remove_nth {A : Type} (n : nat) (l : list A) : list A :=
  match n, l with
  | _, [] => []
  | O, _ :: l' => l'
  | S n', x :: l' => x :: remove_nth n' l'
  end.

(** [random.sample(l, k)] for [k <= len(l)]: [k] draws without
    replacement *)
Fixpoint sample {A : Type} (l : list A) (k : nat) (r : rng) : list A * rng :=
  match k, l with
  | O, _ => ([], r)
  | _, [] => ([], r)
  | S k', d :: _ =>
      let (n, r1) := next r in
      let i := pick n (List.length l) in
      let (rest, r2) := sample (remove_nth i l) k' r1 in
      (nth i l d :: rest, r2)
  end.

(** [random.uniform(a, b)]: [a + (b - a) * random()], where [random()] is
    a multiple of 2^-53 in [0, 1) *)
Definition random (r : rng) : Q * rng :=
  let (n, r') := next r in
  (Z.of_N n mod 2 ^ 53 # 2 ^ 53, r').

Definition uniform (a b : Q) (r : rng) : Q * rng :=
  let (u, r') := random r in ((a + (b - a) * u)%Q, r').

End Py.

Notation "x <- m ;; f" := (Py.bind m (fun x => f))
  (at level 61, m at next level, right associativity).

(** ** Python floats: IEEE binary64, rounded to nearest even *)

Module Binary64.
Import Py.

(** [float(n)]; Python raises [OverflowError] where this is an infinity *)
Definition of_int (n : Z) : spec_float := binary_normalize 53 1024 n 0 false.
Definition div (x y : spec_float) : spec_float := SFdiv 53 1024 x y.
Definition mul (x y : spec_float) : spec_float := SFmul 53 1024 x y.
Definition add (x y : spec_float) : spec_float := SFadd 53 1024 x y.
(** [x < y] and [x == y] *)
Definition ltb (x y : spec_float) : bool := SFltb x y.
Definition eqb (x y : spec_float) : bool := SFeqb x y.

(** a decimal literal [num / den], such as [0.4]: the float nearest to it *)
Definition literal (num den : Z) : spec_float := div (of_int num) (of_int den).

(** an integer as it is, before any rounding *)
Definition exact (n : Z) : spec_float :=
  match n with
  | Z0 => S754_zero false
  | Zpos p => S754_finite false p 0
  | Zneg p => S754_finite true p 0
  end.

(** the float nearest to the quotient of two integers, which [a / b] on
    two [int]s returns: the integers are not rounded first *)
Definition quotient (a b : Z) : spec_float := div (exact a) (exact b).

Definition is_infinite (x : spec_float) : bool :=
  match x with
  | S754_infinity _ => true
  | _ => false
  end.

Definition is_nan (x : spec_float) : bool :=
  match x with
  | S754_nan => true
  | _ => false
  end.

(** [a / b] on two [int]s, with its two exceptions *)
Definition truediv (a b : Z) : result spec_float :=
  if b =? 0 then Raise ZeroDivisionError
  else if is_infinite (quotient a b) then Raise OverflowError
  else Ok (quotient a b).

(** [min(a, b)] returns [b] only when [b < a] *)
Definition min (a b : spec_float) : spec_float := if ltb b a then b else a.
End Binary64.

(** ** config.py *)

Module config.
Definition MIN_VIEW_COUNT : Z := 100000.
Definition MIN_SUBSCRIBER_COUNT : Z := 50000.
Definition MAX_VIDEOS_PER_CHANNEL : Z := 20.
Definition MAX_RESULTS_PER_REQUEST : Z := 50.
Definition AI_KEYWORDS : list string :=
  [ "artificial intelligence"; "machine learning"; "deep learning";
    "AI tutorial"; "neural networks"; "ChatGPT"; "generative AI";
    "AI tools"; "automation"; "AI news" ].
End config.

(** ** influencer_finder.py *)

(** A channel as [get_channel_statistics] delivers it.  The text fields are
    read with [.get(..., '')], and [published_at] inside a [try] block, so
    these three may be absent. *)
Module Channel.
Record t : Type := mk {
  channel_id : string;
  channel_title : option string;
  description : option string;
  published_at : option string;
  subscriber_count : Z;
  video_count : Z;
  view_count : Z
}.
End Channel.

(** A video after [analyze_influencer_videos] has stored its
    [engagement_rate]. *)
Module Video.
Record t : Type := mk {
  video_id : string;
  title : string;
  published_at : option string;
  view_count : Z;
  like_count : Z;
  comment_count : Z;
  engagement_rate : Q
}.
End Video.

(** A channel once [find_ai_influencers] has added its two scores. *)
Module Influencer.
Record t : Type := mk {
  stats : Channel.t;
  growth_score : Q;
  ai_relevance_score : Z
}.
End Influencer.

(** A channel as [search_channels] delivers it. *)
Module ChannelHit.
Record t : Type := mk {
  channel_id : string;
  channel_title : string;
  description : string;
  published_at : string;
  thumbnail_url : string
}.
End ChannelHit.

(** A video as [get_channel_videos] delivers it, with the fields that the
    analysis reads.  [description] is read with [.get(..., '')]; absent
    [tags] are the empty list. *)
Module VideoInfo.
Record t : Type := mk {
  video_id : string;
  title : string;
  description : option string;
  tags : list string;
  published_at : option string;
  view_count : Z;
  like_count : Z;
  comment_count : Z
}.
End VideoInfo.

(** A video once [analyze_influencer_videos] has added its four fields. *)
Module AnalyzedVideo.
Record t : Type := mk {
  info : VideoInfo.t;
  influencer_subscriber_count : Z;
  influencer_total_views : Z;
  engagement_rate : Q;
  performance_score : Q
}.
End AnalyzedVideo.

(** The statistics that [get_successful_hashtags] keeps for a hashtag. *)
Module HashtagStat.
Record t : Type := mk {
  count : Z;
  total_views : Z;
  videos : list string
}.
End HashtagStat.

Module AIInfluencerFinder.
Import PyStr Py.

Definition text_or_empty (field : option string) : string :=
  match field with
  | Some s => s
  | None => EmptyString
  end.

Definition text_to_check (channel_stats : Channel.t) : string :=
  lower (text_or_empty (Channel.channel_title channel_stats)) ++ " " ++
  lower (text_or_empty (Channel.description channel_stats)).

Definition ai_indicators : list string :=
  [ "artificial intelligence"; "machine learning"; "deep learning";
    "neural network"; "ai"; "ml"; "data science"; "computer vision";
    "natural language processing"; "nlp"; "robotics"; "automation";
    "chatgpt"; "openai"; "tensorflow"; "pytorch"; "kaggle";
    "algorithm"; "programming"; "coding"; "tech"; "technology" ].

Definition _is_ai_related_channel (channel_stats : Channel.t) : bool :=
  let score := add_matches 1 ai_indicators (text_to_check channel_stats) 0 in
  2 <=? score.

Definition high_value_keywords : list string :=
  [ "artificial intelligence"; "machine learning"; "deep learning"; "ai"; "ml" ].
Definition medium_value_keywords : list string :=
  [ "data science"; "programming"; "tech"; "computer science"; "automation" ].
Definition low_value_keywords : list string :=
  [ "tutorial"; "coding"; "software"; "algorithm"; "python" ].

Definition _calculate_ai_relevance_score (channel_stats : Channel.t) : Z :=
  let text := text_to_check channel_stats in
  let score := add_matches 20 high_value_keywords text 0 in
  let score := add_matches 10 medium_value_keywords text score in
  let score := add_matches 5 low_value_keywords text score in
  min_Z score 100.

Definition _calculate_engagement_rate (video : Video.t) : Q :=
  let view_count := max_Z (Video.view_count video) 1 in
  let like_count := Video.like_count video in
  let comment_count := Video.comment_count video in
  let engagement_rate :=
    (inject_Z (like_count + comment_count * 2) / inject_Z view_count * 100)%Q in
  min_Q engagement_rate 100.

Section Clock.
(** [datetime.now()], and [datetime.fromisoformat], which answers [None]
    where Python raises [ValueError] *)
Variable now : Z.
Variable fromisoformat : string -> option Z.

Definition microseconds_per_day : Z := 86400000000.

(** [(datetime.now().replace(tzinfo=d.tzinfo) - d).days] for
    [d = datetime.fromisoformat(record['published_at'].replace('Z', '+00:00'))]:
    the two datetimes share their [tzinfo], so wall-clock times are
    subtracted, and [.days] rounds toward minus infinity *)
Definition days_since (published_at : option string) : result Z :=
  s <- getitem published_at ;;
  match fromisoformat (replace_char "Z" "+00:00" s) with
  | None => Raise ValueError
  | Some published_date => Ok ((now - published_date) / microseconds_per_day)
  end.

(** the body of the [try] block of [_calculate_growth_score]: [Ok None]
    when it reaches its end without returning *)
Definition growth_score_try (channel_stats : Channel.t) : result (option Q) :=
  channel_age_days <- days_since (Channel.published_at channel_stats) ;;
  if 0 <? channel_age_days then
    let videos_per_day :=
      (inject_Z (Channel.video_count channel_stats) / inject_Z channel_age_days)%Q in
    let views_per_video :=
      (inject_Z (Channel.view_count channel_stats) /
       inject_Z (max_Z (Channel.video_count channel_stats) 1))%Q in
    let growth_score :=
      (videos_per_day * 365 * 10 + views_per_video / 10000)%Q in
    Ok (Some (min_Q growth_score 1000))
  else Ok None.

Definition _calculate_growth_score (channel_stats : Channel.t) : Q :=
  match growth_score_try channel_stats with
  | Ok (Some growth_score) => growth_score
  | Ok None => 0
  | Raise _ => 0
  end.

(** the [try]/[except] statement of [_calculate_performance_score] that
    sets [recency_score] *)
Definition recency_score_try (video : Video.t) : result Q :=
  days_old <- days_since (Video.published_at video) ;;
  Ok (inject_Z (max_Z 0 (365 - days_old)) / 365)%Q.

Definition recency_score (video : Video.t) : Q :=
  match recency_score_try video with
  | Ok r => r
  | Raise _ => 0
  end.

Definition _calculate_performance_score (video : Video.t) (influencer : Influencer.t) : Q :=
  let view_ratio :=
    (inject_Z (Video.view_count video) /
     inject_Z (max_Z (Channel.subscriber_count (Influencer.stats influencer)) 1))%Q in
  let engagement_score := Video.engagement_rate video in
  let recency_score := recency_score video in
  (view_ratio * 1000 + engagement_score * 10 + recency_score * 100)%Q.

(** The scores as the code computes them, in binary64.  The functions
    above give the exact values; the two sorts compare the floats. *)

(** the body of the [try] block of [_calculate_growth_score]; the two
    divisions are divisions of [int]s *)
Definition growth_score_try_binary64 (channel_stats : Channel.t)
  : result (option spec_float) :=
  channel_age_days <- days_since (Channel.published_at channel_stats) ;;
  if 0 <? channel_age_days then
    videos_per_day <-
      Binary64.truediv (Channel.video_count channel_stats) channel_age_days ;;
    views_per_video <-
      Binary64.truediv (Channel.view_count channel_stats)
                       (max_Z (Channel.video_count channel_stats) 1) ;;
    let growth_score :=
      Binary64.add
        (Binary64.mul (Binary64.mul videos_per_day (Binary64.of_int 365))
                      (Binary64.of_int 10))
        (Binary64.div views_per_video (Binary64.of_int 10000)) in
    Ok (Some (Binary64.min growth_score (Binary64.of_int 1000)))
  else Ok None.

Definition _calculate_growth_score_binary64 (channel_stats : Channel.t) : spec_float :=
  match growth_score_try_binary64 channel_stats with
  | Ok (Some growth_score) => growth_score
  | Ok None => S754_zero false
  | Raise _ => S754_zero false
  end.

(** [_calculate_engagement_rate] and [_calculate_performance_score] on the
    counts and the date of a video and the subscriber count of its
    influencer.  Their divisions of [int]s stand outside any [try] block:
    where a quotient is beyond binary64 (a count of 2^1024 or more) Python
    raises [OverflowError] and the analysis ends, which is not followed
    here. *)
Definition _calculate_engagement_rate_binary64 (video : Video.t) : spec_float :=
  let view_count := max_Z (Video.view_count video) 1 in
  let like_count := Video.like_count video in
  let comment_count := Video.comment_count video in
  let engagement_rate :=
    Binary64.mul (Binary64.quotient (like_count + comment_count * 2) view_count)
                 (Binary64.of_int 100) in
  Binary64.min engagement_rate (Binary64.of_int 100).

Definition recency_score_binary64 (video : Video.t) : spec_float :=
  match days_since (Video.published_at video) with
  | Ok days_old => Binary64.quotient (max_Z 0 (365 - days_old)) 365
  | Raise _ => S754_zero false
  end.

Definition _calculate_performance_score_binary64 (video : Video.t)
           (subscriber_count : Z) : spec_float :=
  let view_ratio :=
    Binary64.quotient (Video.view_count video) (max_Z subscriber_count 1) in
  let engagement_score := _calculate_engagement_rate_binary64 video in
  let recency_score := recency_score_binary64 video in
  Binary64.add
    (Binary64.add (Binary64.mul view_ratio (Binary64.of_int 1000))
                  (Binary64.mul engagement_score (Binary64.of_int 10)))
    (Binary64.mul recency_score (Binary64.of_int 100)).

(** the filter loop of [find_ai_influencers] *)
Fixpoint filter_influencers (channel_stats : list Channel.t) : list Influencer.t :=
  match channel_stats with
  | [] => []
  | stats :: rest =>
      if (config.MIN_SUBSCRIBER_COUNT <=? Channel.subscriber_count stats)
         && _is_ai_related_channel stats
      then Influencer.mk stats (_calculate_growth_score stats)
                         (_calculate_ai_relevance_score stats)
           :: filter_influencers rest
      else filter_influencers rest
  end.

(** the sort key of [find_ai_influencers], a float: [x['growth_score']]
    is the float that [_calculate_growth_score] returned for the
    statistics of [x], and the two [int]s are converted before they are
    multiplied *)
Definition combined_score (x : Influencer.t) : spec_float :=
  Binary64.add
    (Binary64.add
       (Binary64.mul (Binary64.of_int (Channel.subscriber_count (Influencer.stats x)))
                     (Binary64.literal 4 10))
       (Binary64.mul (_calculate_growth_score_binary64 (Influencer.stats x))
                     (Binary64.literal 3 10)))
    (Binary64.mul (Binary64.of_int (Influencer.ai_relevance_score x))
                  (Binary64.literal 3 10)).

(** [find_ai_influencers] from the statistics of the deduplicated
    channels on: filter, sort, truncate *)
Definition find_ai_influencers (channel_stats : list Channel.t) (limit : Z)
  : list Influencer.t :=
  let ai_influencers := filter_influencers channel_stats in
  let ai_influencers := sort_desc Binary64.ltb combined_score ai_influencers in
  slice_to ai_influencers limit.

End Clock.

(** the deduplication loop of [find_ai_influencers]: the first channel
    seen under an id is the one kept *)
Definition unique_channels (all_channels : list ChannelHit.t) : dict ChannelHit.t :=
  fold_left (fun unique_channels channel =>
               let channel_id := ChannelHit.channel_id channel in
               if mem channel_id (keys unique_channels) then unique_channels
               else set unique_channels channel_id channel)
            all_channels [].

(** the ids that [find_ai_influencers] asks statistics for, given the
    answers of [search_channels] *)
Definition channel_ids (search_channels : string -> Z -> list ChannelHit.t)
  : list string :=
  let all_channels :=
    flat_map (fun keyword => search_channels keyword 20) config.AI_KEYWORDS in
  keys (unique_channels all_channels).

(** [video] as the two scoring functions read it, with the engagement
    rate that is stored in it at that moment *)
Definition scored_view (video : VideoInfo.t) (engagement_rate : Q) : Video.t :=
  Video.mk (VideoInfo.video_id video) (VideoInfo.title video)
           (VideoInfo.published_at video) (VideoInfo.view_count video)
           (VideoInfo.like_count video) (VideoInfo.comment_count video)
           engagement_rate.

Section Analysis.
Variable now : Z.
Variable fromisoformat : string -> option Z.
(** [self.youtube_client.get_channel_videos] *)
Variable get_channel_videos : string -> Z -> list VideoInfo.t.

(** the body of the inner loop of [analyze_influencer_videos] *)
Definition analyze_video (influencer : Influencer.t) (video : VideoInfo.t)
  : AnalyzedVideo.t :=
  let engagement_rate := _calculate_engagement_rate (scored_view video 0) in
  let performance_score :=
    _calculate_performance_score now fromisoformat
                                 (scored_view video engagement_rate) influencer in
  AnalyzedVideo.mk video
                   (Channel.subscriber_count (Influencer.stats influencer))
                   (Channel.view_count (Influencer.stats influencer))
                   engagement_rate performance_score.

(** the sort key of [analyze_influencer_videos]: [x['performance_score']]
    is the float that [_calculate_performance_score] returned for the
    video and the subscriber count of its influencer *)
Definition performance_key (x : AnalyzedVideo.t) : spec_float :=
  _calculate_performance_score_binary64
    now fromisoformat (scored_view (AnalyzedVideo.info x) 0)
    (AnalyzedVideo.influencer_subscriber_count x).

(** [self_influencers] is [self.influencers]; [influencers] is [None] when
    the caller leaves the argument out *)
Definition analyze_influencer_videos (self_influencers : list Influencer.t)
           (influencers : option (list Influencer.t)) : list AnalyzedVideo.t :=
  let influencers :=
    match influencers with
    | None => self_influencers
    | Some l => l
    end in
  match influencers with
  | [] => []
  | _ =>
      let all_videos :=
        flat_map (fun influencer =>
                    map (analyze_video influencer)
                        (get_channel_videos
                           (Channel.channel_id (Influencer.stats influencer))
                           config.MAX_VIDEOS_PER_CHANNEL))
                 influencers in
      let high_performing_videos :=
        filter (fun video =>
                  config.MIN_VIEW_COUNT <=?
                  VideoInfo.view_count (AnalyzedVideo.info video))
               all_videos in
      sort_desc Binary64.ltb performance_key high_performing_videos
  end.
End Analysis.

(** the text of a video in which [extract_trending_topics] looks for
    topics *)
Definition topic_text (video : VideoInfo.t) : string :=
  let text :=
    lower (VideoInfo.title video ++ " " ++
           text_or_empty (VideoInfo.description video)) in
  match VideoInfo.tags video with
  | [] => text
  | tags => text ++ " " ++ lower (join " " tags)
  end.

Definition ai_topics : list string :=
  [ "chatgpt"; "gpt"; "openai"; "claude"; "gemini"; "bard";
    "machine learning"; "deep learning"; "neural network";
    "computer vision"; "nlp"; "natural language processing";
    "tensorflow"; "pytorch"; "transformers"; "llm"; "large language model";
    "artificial intelligence"; "automation"; "robotics";
    "data science"; "python"; "coding"; "programming";
    "tutorial"; "explained"; "guide"; "how to"; "beginner";
    "ai tools"; "ai news"; "future"; "prediction"; "breakthrough" ].

(** the inner loop [for topic in ai_topics] over one text *)
Definition count_topics_in (text : string) (topics : dict Z) : dict Z :=
  fold_left (fun topics topic =>
               if contains topic text
               then set topics topic (get topics topic 0 + 1)
               else topics)
            ai_topics topics.

(** the loop [for text in all_text] *)
Definition count_topics (all_text : list string) : dict Z :=
  fold_left (fun topics text => count_topics_in text topics) all_text [].

(** [self_analyzed_videos] is [self.analyzed_videos] *)
Definition extract_trending_topics (self_analyzed_videos : list VideoInfo.t)
           (videos : option (list VideoInfo.t)) : dict Z :=
  let videos :=
    match videos with
    | None => self_analyzed_videos
    | Some l => l
    end in
  match videos with
  | [] => []
  | _ =>
      let all_text := map topic_text videos in
      let topics := count_topics all_text in
      sort_desc Z.ltb snd topics
  end.

Definition no_stat : HashtagStat.t := HashtagStat.mk 0 0 [].

(** the body of the loop [for hashtag in found_hashtags] *)
Definition record_hashtag (video : VideoInfo.t) (hashtags : dict HashtagStat.t)
           (hashtag : string) : dict HashtagStat.t :=
  let hashtag := lower hashtag in
  let hashtags :=
    if mem hashtag (keys hashtags) then hashtags
    else set hashtags hashtag no_stat in
  let stat := get hashtags hashtag no_stat in
  set hashtags hashtag
      (HashtagStat.mk (HashtagStat.count stat + 1)
                      (HashtagStat.total_views stat + VideoInfo.view_count video)
                      (HashtagStat.videos stat ++ [VideoInfo.video_id video])).

(** the loop [for video in videos] *)
Definition collect_hashtags (min_views : Z) (videos : list VideoInfo.t)
  : dict HashtagStat.t :=
  fold_left (fun hashtags video =>
               if min_views <=? VideoInfo.view_count video then
                 let text :=
                   VideoInfo.title video ++ " " ++
                   text_or_empty (VideoInfo.description video) in
                 fold_left (record_hashtag video) (findall_hashtags text) hashtags
               else hashtags)
            videos [].

Definition avg_views (stat : HashtagStat.t) : Q :=
  (inject_Z (HashtagStat.total_views stat) / inject_Z (HashtagStat.count stat))%Q.

(** the sort key of [get_successful_hashtags] *)
Definition hashtag_rank (item : string * HashtagStat.t) : Q :=
  (avg_views (snd item) * inject_Z (HashtagStat.count (snd item)))%Q.

Definition get_successful_hashtags (self_analyzed_videos : list VideoInfo.t)
           (videos : option (list VideoInfo.t)) (min_views : option Z)
  : list string :=
  let videos :=
    match videos with
    | None => self_analyzed_videos
    | Some l => l
    end in
  let min_views :=
    match min_views with
    | None => config.MIN_VIEW_COUNT
    | Some m => m
    end in
  match videos with
  | [] => []
  | _ =>
      let hashtags := collect_hashtags min_views videos in
      let sorted_hashtags := sort_desc Qltb hashtag_rank hashtags in
      map (fun item => "#" ++ fst item) (slice_to sorted_hashtags 50)
  end.

End AIInfluencerFinder.

(** ** content_generator.py *)

Module ContentIdea.
Record t : Type := mk {
  id : Z;
  title : string;
  category : string;
  hashtags : list string;
  thumbnail_concept : string;
  trend_score : Z;
  estimated_views : Z;
  difficulty : string;
  target_audience : string;
  key_topics : list string;
  created_at : string
}.
End ContentIdea.

Module VideoScript.
Record t : Type := mk {
  id : Z;
  title : string;
  category : string;
  script : string;
  hashtags : list string;
  thumbnail_concept : string;
  estimated_duration : string;
  word_count : Z;
  key_points : list string;
  call_to_action : string;
  created_at : string
}.
End VideoScript.

Module AIContentGenerator.
Import PyStr Py.

Definition content_templates : dict (list string) :=
  [ ("tutorial",
     [ "How to Build {} in {} Minutes";
       "Complete {} Tutorial for Beginners";
       "Master {} in {} Steps";
       "{} Explained Simply";
       "Build Your First {} Project" ]);
    ("news",
     [ "Breaking: {} Changes Everything";
       "Latest {} Updates You Need to Know";
       "{} News This Week";
       "Why {} is Trending Now";
       "The Future of {} is Here" ]);
    ("comparison",
     [ "{} vs {}: Which is Better?";
       "Comparing {} and {} in {}";
       "{} or {}? The Ultimate Guide";
       "Why {} Beats {} Every Time";
       "The Truth About {} vs {}" ]);
    ("explanation",
     [ "{} Explained in {} Minutes";
       "What is {}? Everything You Need to Know";
       "Understanding {} Once and For All";
       "The Science Behind {}";
       "How {} Actually Works" ]);
    ("prediction",
     [ "Why {} Will Dominate {}";
       "The Future of {} in {}";
       "{} Predictions for {}";
       "What's Next for {}?";
       "How {} Will Change {}" ]);
    ("review",
     [ "I Tested {} for {} Days";
       "{} Review: Is It Worth It?";
       "Honest {} Review After {} Months";
       "The Truth About {}";
       "{} Deep Dive Review" ]) ].

Definition abbreviations : dict string :=
  [ ("ai", "AI"); ("ml", "Machine Learning"); ("nlp", "NLP");
    ("gpt", "GPT"); ("llm", "Large Language Models") ].

Definition _format_topic (topic : string) : string :=
  if mem (lower topic) (keys abbreviations)
  then get abbreviations (lower topic) EmptyString
  else join " " (map capitalize (split topic)).

(** the loop [for i, topic in enumerate(selected_topics)] *)
Definition fill_topics (selected_topics : list string) (title : string) : string :=
  fold_left (fun title topic =>
               if contains "{}" title
               then replace_first "{}" (_format_topic topic) title
               else title)
            selected_topics title.

(** one round of the loop [while '{}' in title] *)
Definition fill_one (title : string) (r : rng) : result (string * rng) :=
  if contains "minutes" (lower title) || contains "steps" (lower title) then
    c <- choice [5; 10; 15; 20; 30] r ;;
    Ok (replace_first "{}" (str (fst c)) title, snd c)
  else if contains "days" (lower title) then
    c <- choice [7; 14; 30; 60; 90] r ;;
    Ok (replace_first "{}" (str (fst c)) title, snd c)
  else if contains "months" (lower title) then
    c <- choice [1; 3; 6; 12] r ;;
    Ok (replace_first "{}" (str (fst c)) title, snd c)
  else
    c <- choice ["2024"; "2025"; "Today"; "Now"] r ;;
    Ok (replace_first "{}" (fst c) title, snd c).

(** the loop [while '{}' in title], run for at most [rounds] rounds *)
Fixpoint fill_remaining (rounds : nat) (title : string) (r : rng)
  : result (string * rng) :=
  if contains "{}" title then
    match rounds with
    | O => Raise RoundsUsedUp
    | S rounds' => c <- fill_one title r ;;
                   fill_remaining rounds' (fst c) (snd c)
    end
  else Ok (title, r).

(** The [while] loop is given as many rounds as the title it starts from
    has characters. *)
Definition _generate_title_from_template (template : string) (topics : list string)
           (r : rng) : result (string * rng) :=
  let placeholder_count := count "{}" template in
  if (placeholder_count =? 0)%nat then Ok (template, r)
  else
    let (selected_topics, r1) :=
      sample topics (Nat.min placeholder_count (List.length topics)) r in
    let title := fill_topics selected_topics template in
    fill_remaining (String.length title) title r1.

Definition hashtag_score (title_lower hashtag : string) : Z :=
  let hashtag_clean := lower (replace_char "#" EmptyString hashtag) in
  let score := 0 in
  let score := if contains hashtag_clean title_lower then score + 10 else score in
  let score := add_matches 5 (split hashtag_clean) title_lower score in
  if any_in ["ai"; "ml"; "tech"; "coding"; "tutorial"] hashtag_clean
  then score + 3 else score.

Definition popular_ai_hashtags : list string :=
  [ "#AI"; "#MachineLearning"; "#Tech"; "#Programming"; "#Tutorial"; "#Coding" ].

(** the loop that fills [hashtag_scores] *)
Definition score_hashtags (title_lower : string) (hashtags : list string) : dict Z :=
  fold_left (fun hashtag_scores hashtag =>
               let score := hashtag_score title_lower hashtag in
               if 0 <? score then set hashtag_scores hashtag score
               else hashtag_scores)
            hashtags [].

(** the loop [while len(relevant_hashtags) < 8 and popular_ai_hashtags],
    which pops the head of [popular] at each round *)
Fixpoint pad_hashtags (relevant_hashtags popular : list string) : list string :=
  match popular with
  | [] => relevant_hashtags
  | hashtag :: popular' =>
      if (List.length relevant_hashtags <? 8)%nat then
        pad_hashtags (if mem hashtag relevant_hashtags then relevant_hashtags
                      else relevant_hashtags ++ [hashtag])
                     popular'
      else relevant_hashtags
  end.

Definition _select_hashtags_for_topic (title : string) (hashtags : list string)
           (max_hashtags : Z) : list string :=
  let title_lower := lower title in
  let hashtag_scores := score_hashtags title_lower hashtags in
  let sorted_hashtags := sort_desc Z.ltb snd hashtag_scores in
  let relevant_hashtags := map fst (slice_to sorted_hashtags max_hashtags) in
  pad_hashtags relevant_hashtags popular_ai_hashtags.

Definition thumbnail_concepts : dict (list string) :=
  [ ("tutorial",
     [ "Split-screen showing before/after code results";
       "Person pointing at code on a large screen";
       "Step-by-step visual progress bars";
       "Hand typing on keyboard with code overlay" ]);
    ("news",
     [ "Breaking news style with bold red background";
       "Tech headlines with shocked expression";
       "Trending arrows and news ticker style";
       "Professional news anchor setup" ]);
    ("comparison",
     [ "Split-screen VS layout with logos";
       "Two products side by side with checkmarks";
       "Battle-style confrontation design";
       "Pros and cons visual comparison" ]);
    ("explanation",
     [ "Complex diagram simplified with arrows";
       "Teacher-style whiteboard explanation";
       "Lightbulb moment with clear graphics";
       "Step-by-step visual breakdown" ]);
    ("prediction",
     [ "Futuristic crystal ball or fortune teller";
       "Timeline with future milestones";
       "Rocket ship or upward trending charts";
       "Calendar with highlighted future dates" ]);
    ("review",
     [ "Product with star ratings overlay";
       "Thumbs up/down with product image";
       "Before and after user experience";
       "Honest review with serious expression" ]) ].

Definition default_concepts : list string :=
  [ "Clean, professional design with clear text" ].

(** the title-specific ending of a thumbnail concept *)
Definition concept_suffix (title : string) : string :=
  if contains "chatgpt" (lower title) then " with ChatGPT logo"
  else if contains "ai" (lower title) then " with AI/robot elements"
  else if contains "python" (lower title) then " with Python logo"
  else EmptyString.

Definition _generate_thumbnail_concept (title category : string) (r : rng)
  : result (string * rng) :=
  let concepts := get thumbnail_concepts category default_concepts in
  c <- choice concepts r ;;
  Ok (fst c ++ concept_suffix title, snd c).

Definition trending_keywords : list string :=
  [ "2024"; "2025"; "new"; "latest"; "breakthrough"; "future" ].

Definition _calculate_trend_score (title : string) (trending_topics : dict Z) : Z :=
  let title_lower := lower title in
  let score := 0 in
  let score :=
    fold_left (fun score item =>
                 let '(topic, frequency) := item in
                 if contains topic title_lower then score + frequency * 2
                 else score)
              trending_topics score in
  let score := add_matches 5 trending_keywords title_lower score in
  min_Z score 100.

Definition base_views : dict Z :=
  [ ("tutorial", 150000); ("news", 200000); ("comparison", 180000);
    ("explanation", 120000); ("prediction", 250000); ("review", 100000) ].

Definition _estimate_views (trend_score : Q) (category : string) (r : rng)
  : Z * rng :=
  let base := get base_views category 150000 in
  let multiplier := (1 + trend_score / 100)%Q in
  let (u, r') := uniform (1 # 2) (3 # 2) r in
  (int_of_Q (inject_Z base * multiplier * u), r').

Definition difficulty_map : dict string :=
  [ ("tutorial", "Medium"); ("news", "Easy"); ("comparison", "Medium");
    ("explanation", "Hard"); ("prediction", "Medium"); ("review", "Easy") ].

Definition complexity_words : list string :=
  [ "deep"; "advanced"; "complex"; "science" ].

Definition _estimate_difficulty (category title : string) : string :=
  let base_difficulty := get difficulty_map category "Medium" in
  if existsb (fun word => contains word (lower title)) complexity_words then
    if String.eqb base_difficulty "Easy" then "Medium"
    else if String.eqb base_difficulty "Medium" then "Hard"
    else base_difficulty
  else base_difficulty.

Definition _identify_target_audience (title : string) : string :=
  let title_lower := lower title in
  if contains "beginner" title_lower || contains "first" title_lower then "Beginners"
  else if contains "advanced" title_lower || contains "expert" title_lower then "Advanced users"
  else if contains "tutorial" title_lower || contains "how to" title_lower then "Learners/Students"
  else if contains "news" title_lower || contains "update" title_lower then "AI enthusiasts"
  else if contains "review" title_lower then "Potential buyers"
  else "General tech audience".

Definition ai_keywords : list string :=
  [ "ai"; "artificial intelligence"; "machine learning"; "deep learning";
    "chatgpt"; "gpt"; "openai"; "neural network"; "automation";
    "python"; "coding"; "programming"; "data science"; "tensorflow";
    "pytorch"; "computer vision"; "nlp"; "robotics" ].

Definition _extract_key_topics (title : string) : list string :=
  let title_lower := lower title in
  let found_topics :=
    map PyStr.title (filter (fun keyword => contains keyword title_lower) ai_keywords) in
  slice_to found_topics 5.

(** the lines of a script, joined by newlines *)
Definition nl : string := String (ascii_of_nat 10) EmptyString.
Definition lines (ls : list string) : string := join nl ls.

Definition _generate_tutorial_script (title : string) : string :=
  lines
    [ EmptyString;
      "Welcome back to the channel! Today we're going to " ++ lower title ++ ".";
      EmptyString;
      "If you're new here, I'm your host and I help people master AI and technology. Make sure to subscribe and hit the notification bell for more content like this.";
      EmptyString;
      "Let's dive right in. In this tutorial, I'll walk you through everything step by step.";
      EmptyString;
      "First, let me show you what we're building today. [SHOW DEMO]";
      EmptyString;
      "Now, let's break this down into manageable steps:";
      EmptyString;
      "Step 1: Setting Up Your Environment";
      "Before we begin, you'll need to have the following installed...";
      EmptyString;
      "Step 2: Understanding the Basics";
      "Let me explain the core concepts we'll be using...";
      EmptyString;
      "Step 3: Implementation";
      "Now let's start coding. I'll explain each line as we go...";
      EmptyString;
      "Step 4: Testing and Debugging";
      "Let's run our code and see what happens...";
      EmptyString;
      "Step 5: Optimization and Best Practices";
      "Here are some ways to improve and optimize what we've built...";
      EmptyString;
      "And that's it! You've successfully completed this tutorial. ";
      EmptyString;
      "If you found this helpful, please give it a thumbs up and subscribe for more AI tutorials. Drop a comment below if you have any questions or if there's something specific you'd like me to cover next.";
      EmptyString;
      "Thanks for watching, and I'll see you in the next video!";
      EmptyString ].

Definition _generate_news_script (title : string) : string :=
  lines
    [ EmptyString;
      "What's up everyone! Today I have some incredible news to share with you about " ++ lower title ++ ".";
      EmptyString;
      "Before we jump in, make sure you're subscribed because AI news moves fast and you don't want to miss anything important.";
      EmptyString;
      "So here's what happened...";
      EmptyString;
      "This is huge for several reasons. First, it means...";
      EmptyString;
      "Second, this could completely change how we...";
      EmptyString;
      "But here's what really caught my attention...";
      EmptyString;
      "Now, you might be wondering what this means for you. Well...";
      EmptyString;
      "Looking at the broader implications, this could lead to...";
      EmptyString;
      "Industry experts are saying...";
      EmptyString;
      "My take on this is...";
      EmptyString;
      "What do you think about this development? Let me know in the comments below. Are you excited about this? Concerned? I want to hear your thoughts.";
      EmptyString;
      "If you enjoyed this breakdown, hit that like button and subscribe for more AI news and analysis. I'll be covering more developments as they happen.";
      EmptyString;
      "Thanks for watching, and I'll catch you in the next one!";
      EmptyString ].

Definition _generate_comparison_script (title : string) : string :=
  lines
    [ EmptyString;
      "Hey everyone! Today we're settling the debate once and for all: " ++ title;
      EmptyString;
      "This is one of the most requested comparisons I've gotten, so let's break it down systematically.";
      EmptyString;
      "First, let me give you a quick overview of both options...";
      EmptyString;
      "Now, let's compare them across several key criteria:";
      EmptyString;
      "Performance:";
      "Let me show you some real-world tests...";
      EmptyString;
      "Ease of Use:";
      "From a user experience perspective...";
      EmptyString;
      "Cost:";
      "Here's the pricing breakdown...";
      EmptyString;
      "Features:";
      "Let's look at what each one offers...";
      EmptyString;
      "Use Cases:";
      "When would you choose one over the other?";
      EmptyString;
      "Based on all of this testing and analysis, here's my verdict...";
      EmptyString;
      "The winner depends on your specific needs. If you're looking for X, go with option A. If you need Y, option B is your best bet.";
      EmptyString;
      "What's your experience been with these tools? Drop a comment and let me know which one you prefer and why.";
      EmptyString;
      "Don't forget to like this video if it helped you make a decision, and subscribe for more tech comparisons and reviews.";
      EmptyString;
      "See you next time!";
      EmptyString ].

Definition _generate_explanation_script (title : string) : string :=
  lines
    [ EmptyString;
      "Have you ever wondered about " ++ lower title ++ "? Today we're going to break it down in simple terms that anyone can understand.";
      EmptyString;
      "Welcome back to the channel where we make complex technology accessible to everyone. If you're new here, subscribe for more explanations like this.";
      EmptyString;
      "Let's start with the basics. What exactly is...?";
      EmptyString;
      "To understand this better, let's use an analogy...";
      EmptyString;
      "Now, here's where it gets interesting...";
      EmptyString;
      "The key components are...";
      EmptyString;
      "Here's how it all works together...";
      EmptyString;
      "But why does this matter? Well...";
      EmptyString;
      "The real-world applications are incredible...";
      EmptyString;
      "Some common misconceptions people have are...";
      EmptyString;
      "Looking toward the future...";
      EmptyString;
      "I hope this explanation helped clarify things for you. If you have any questions, drop them in the comments and I'll do my best to answer them.";
      EmptyString;
      "Like this video if you learned something new, and subscribe for more deep dives into technology and AI.";
      EmptyString;
      "Thanks for watching!";
      EmptyString ].

Definition _generate_prediction_script (title : string) : string :=
  lines
    [ EmptyString;
      "What if I told you that " ++ lower title ++ "? ";
      EmptyString;
      "Today we're looking into the future and I'm going to share some predictions that might surprise you.";
      EmptyString;
      "Make sure you're subscribed because predicting the future of AI is what we do here, and you don't want to miss what's coming next.";
      EmptyString;
      "Based on current trends and developments, here's what I see happening...";
      EmptyString;
      "The evidence for this prediction comes from several sources...";
      EmptyString;
      "Major companies are already positioning themselves for this shift...";
      EmptyString;
      "The timeline I'm predicting is...";
      EmptyString;
      "Here are the key indicators to watch for...";
      EmptyString;
      "Now, this could go a few different ways...";
      EmptyString;
      "Scenario 1: If everything goes as expected...";
      EmptyString;
      "Scenario 2: If there are major breakthroughs...";
      EmptyString;
      "Scenario 3: If we hit unexpected obstacles...";
      EmptyString;
      "What does this mean for you? How should you prepare?";
      EmptyString;
      "My advice is...";
      EmptyString;
      "Remember, these are predictions based on current data and trends. The future is never certain, but being prepared gives you an advantage.";
      EmptyString;
      "What do you think? Do you agree with my predictions? Share your thoughts in the comments.";
      EmptyString;
      "Hit like if you enjoy these future-focused videos, and subscribe for more AI predictions and analysis.";
      EmptyString;
      "Until next time, keep looking forward!";
      EmptyString ].

Definition _generate_review_script (title : string) : string :=
  lines
    [ EmptyString;
      "I've been using this for weeks now, and today I'm giving you my honest review of " ++ lower title ++ ".";
      EmptyString;
      "Before we start, quick reminder to subscribe if you want more honest tech reviews without the hype.";
      EmptyString;
      "First impressions when I started using this...";
      EmptyString;
      "Here's what I love about it...";
      EmptyString;
      "But here's what frustrated me...";
      EmptyString;
      "Let me show you how it performs in real-world scenarios...";
      EmptyString;
      "[DEMO/SCREEN RECORDING]";
      EmptyString;
      "Pricing and value for money...";
      EmptyString;
      "How does it compare to alternatives?";
      EmptyString;
      "Who is this really for?";
      EmptyString;
      "My final verdict...";
      EmptyString;
      "Pros:";
      "- [List key advantages]";
      EmptyString;
      "Cons:";
      "- [List main drawbacks]";
      EmptyString;
      "Overall rating: X out of 10";
      EmptyString;
      "Would I recommend it? Here's my take...";
      EmptyString;
      "That's my honest review. What questions do you have? Drop them in the comments and I'll answer them.";
      EmptyString;
      "If this review helped you make a decision, please like and subscribe for more honest tech reviews.";
      EmptyString;
      "Thanks for watching!";
      EmptyString ].

Definition _generate_general_script (title : string) : string :=
  lines
    [ EmptyString;
      "Today we're talking about " ++ title ++ ", and I think you're going to find this really interesting.";
      EmptyString;
      "Welcome back to the channel! If you're new here, I create content about AI and technology. Make sure to subscribe for more videos like this.";
      EmptyString;
      "Let me start by explaining why this topic matters...";
      EmptyString;
      "Here's what most people don't realize...";
      EmptyString;
      "Let me break this down for you...";
      EmptyString;
      "The implications of this are huge because...";
      EmptyString;
      "Here's a real example to illustrate this point...";
      EmptyString;
      "Now, you might be thinking...";
      EmptyString;
      "What does this mean for the future?";
      EmptyString;
      "My take on all of this is...";
      EmptyString;
      "I'd love to hear your thoughts on this topic. Let me know in the comments what you think.";
      EmptyString;
      "If you found this video valuable, please give it a like and subscribe for more content about AI and technology.";
      EmptyString;
      "Thanks for watching, and I'll see you in the next video!";
      EmptyString ].

Definition _generate_script_for_idea (idea : ContentIdea.t) : string :=
  let category := ContentIdea.category idea in
  let title := ContentIdea.title idea in
  if String.eqb category "tutorial" then _generate_tutorial_script title
  else if String.eqb category "news" then _generate_news_script title
  else if String.eqb category "comparison" then _generate_comparison_script title
  else if String.eqb category "explanation" then _generate_explanation_script title
  else if String.eqb category "prediction" then _generate_prediction_script title
  else if String.eqb category "review" then _generate_review_script title
  else _generate_general_script title.

Definition cta_templates : dict string :=
  [ ("tutorial", "Try building this yourself and share your results in the comments!");
    ("news", "What do you think about this development? Share your thoughts below!");
    ("comparison", "Which option do you prefer? Let me know in the comments!");
    ("explanation", "Did this help clarify the concept for you? Ask any questions below!");
    ("prediction", "Do you agree with my predictions? Share your thoughts!");
    ("review", "Are you planning to try this? Let me know what you think!") ].

Definition _generate_call_to_action (category : string) : string :=
  get cta_templates category "What are your thoughts? Share them in the comments!".

Section Ideas.
(** [datetime.now().isoformat()] as read while the idea of a given
    index is built *)
Variable created_at : Z -> string.

(** the body of the loop of [generate_content_ideas] *)
Definition make_idea (trending_topics : dict Z) (successful_hashtags top_topics : list string)
           (i : Z) (r : rng) : result (ContentIdea.t * rng) :=
  c <- choice (keys content_templates) r ;;
  let category := fst c in
  templates <- subscript content_templates category ;;
  t <- choice templates (snd c) ;;
  g <- _generate_title_from_template (fst t) top_topics (snd t) ;;
  let title := fst g in
  let hashtags := _select_hashtags_for_topic title successful_hashtags 15 in
  th <- _generate_thumbnail_concept title category (snd g) ;;
  let trend_score := _calculate_trend_score title trending_topics in
  let (estimated_views, r') :=
    _estimate_views (inject_Z trend_score) category (snd th) in
  Ok (ContentIdea.mk (i + 1) title category hashtags (fst th) trend_score
                     estimated_views
                     (_estimate_difficulty category title)
                     (_identify_target_audience title)
                     (_extract_key_topics title)
                     (created_at i),
      r').

(** [for i in range(num_ideas)], from index [i] on for [n] rounds *)
Fixpoint ideas_loop (trending_topics : dict Z) (successful_hashtags top_topics : list string)
         (n : nat) (i : Z) (r : rng) : result (list ContentIdea.t * rng) :=
  match n with
  | O => Ok ([], r)
  | S n' =>
      c <- make_idea trending_topics successful_hashtags top_topics i r ;;
      rest <- ideas_loop trending_topics successful_hashtags top_topics n' (i + 1) (snd c) ;;
      Ok (fst c :: fst rest, snd rest)
  end.

Definition generate_content_ideas (trending_topics : dict Z)
           (successful_hashtags : list string) (num_ideas : Z) (r : rng)
  : result (list ContentIdea.t * rng) :=
  let top_topics := slice_to (keys trending_topics) 20 in
  c <- ideas_loop trending_topics successful_hashtags top_topics
                  (Z.to_nat num_ideas) 0 r ;;
  Ok (sort_desc Z.ltb ContentIdea.trend_score (fst c), snd c).
End Ideas.

(** [len(script.split())] *)
Definition word_count (script : string) : Z :=
  Z.of_nat (List.length (split script)).

Definition _estimate_script_duration (script : string) : string :=
  let word_count := word_count script in
  let minutes := (inject_Z word_count / 155)%Q in
  if Qltb minutes 1 then "< 1 minute"
  else if Qltb minutes 5 then
    str (int_of_Q minutes) ++ "-" ++ str (int_of_Q minutes + 1) ++ " minutes"
  else if Qltb minutes 10 then
    str (int_of_Q minutes) ++ "-" ++ str (int_of_Q minutes + 2) ++ " minutes"
  else
    str (int_of_Q minutes) ++ "-" ++ str (int_of_Q minutes + 3) ++ " minutes".

(** the test of the first loop of [_extract_script_key_points] *)
Definition is_structured_point (line : string) : bool :=
  startswith line "Step " || startswith line "1." || startswith line "First,"
  || startswith line "Second," || startswith line "Finally,".

Definition key_phrases : list string :=
  [ "important"; "key"; "main"; "crucial"; "essential" ].

Definition _extract_script_key_points (script : string) : list string :=
  let lines := split_on (ascii_of_nat 10) script in
  let key_points := filter is_structured_point (map strip lines) in
  let key_points :=
    match key_points with
    | [] =>
        let sentences := split_on "." script in
        map strip
            (filter (fun sentence => any_in key_phrases (lower sentence)) sentences)
    | _ => key_points
    end in
  slice_to key_points 5.

Section Scripts.
(** [datetime.now().isoformat()] as read while the script of a given
    number is built *)
Variable created_at : Z -> string.

(** the loop [for i, idea in enumerate(top_ideas, 1)], from number [i] on *)
Fixpoint scripts_loop (i : Z) (top_ideas : list ContentIdea.t) : list VideoScript.t :=
  match top_ideas with
  | [] => []
  | idea :: rest =>
      let script := _generate_script_for_idea idea in
      VideoScript.mk i (ContentIdea.title idea) (ContentIdea.category idea) script
                     (ContentIdea.hashtags idea) (ContentIdea.thumbnail_concept idea)
                     (_estimate_script_duration script)
                     (word_count script)
                     (_extract_script_key_points script)
                     (_generate_call_to_action (ContentIdea.category idea))
                     (created_at i)
      :: scripts_loop (i + 1) rest
  end.

Definition generate_video_scripts (content_ideas : list ContentIdea.t)
           (num_scripts : Z) : list VideoScript.t :=
  let top_ideas := slice_to content_ideas num_scripts in
  scripts_loop 1 top_ideas.
End Scripts.

End AIContentGenerator.

(** ** youtube_api_client.py *)

Module YouTubeAPIClient.
Import Py.

Definition max_requests_per_minute : Z := 100.

(** [_handle_rate_limit] on the counter [self.request_count]: the new
    counter, and whether the call slept for 60 seconds *)
Definition _handle_rate_limit (request_count : Z) : Z * bool :=
  let request_count := request_count + 1 in
  if max_requests_per_minute <=? request_count then (0, true)
  else (request_count, false).

(** [range(0, n, 50)] *)
Definition batch_starts (n : nat) : list nat :=
  map (fun k => (50 * k)%nat) (seq 0 ((n + 49) / 50)).

(** the batches [ids[i:i+50]] of the loop [for i in range(0, len(ids), 50)] *)
Definition id_batches (ids : list string) : list (list string) :=
  map (fun i => firstn 50 (skipn i ids)) (batch_starts (List.length ids)).

(** the outcome of one request: its items as the code reads them, or an
    [HttpError] *)
Inductive response (A : Type) : Type :=
| Answer (items : A)
| HttpError.
Arguments Answer {A} items.
Arguments HttpError {A}.

Section Batches.
Context {A : Type}.
(** one [list(...).execute()] request for a batch of ids, with the
    reading of the items of its response *)
Variable request : list string -> response (list A).

(** the loop over the batches inside the [try] block *)
Fixpoint request_batches (batches : list (list string)) : response (list A) :=
  match batches with
  | [] => Answer []
  | batch_ids :: rest =>
      match request batch_ids with
      | HttpError => HttpError
      | Answer items =>
          match request_batches rest with
          | HttpError => HttpError
          | Answer more => Answer (items ++ more)%list
          end
      end
  end.

(** the common shape of [get_channel_statistics] and [get_video_details]:
    the result and the new request counter *)
Definition get_in_batches (request_count : Z) (ids : list string) : list A * Z :=
  let (request_count, _) := _handle_rate_limit request_count in
  match request_batches (id_batches ids) with
  | Answer items => (items, request_count)
  | HttpError => ([], request_count)
  end.
End Batches.

Definition get_channel_statistics
           (channels_list : list string -> response (list Channel.t))
           (request_count : Z) (channel_ids : list string) : list Channel.t * Z :=
  get_in_batches channels_list request_count channel_ids.

Definition get_video_details
           (videos_list : list string -> response (list VideoInfo.t))
           (request_count : Z) (video_ids : list string) : list VideoInfo.t * Z :=
  get_in_batches videos_list request_count video_ids.

(** [if published_after:] holds for a string that is not empty *)
Definition given (published_after : option string) : option string :=
  match published_after with
  | Some EmptyString => None
  | other => other
  end.

Section Trending.
(** the search request for a query, a number of results and, when given,
    a date: the video ids of its items, or an [HttpError] *)
Variable search_list : string -> Z -> option string -> response (list string).
(** the details request for a batch of video ids *)
Variable videos_list : list string -> response (list VideoInfo.t).

(** [search_videos]: the details of the videos found come from
    [get_video_details], which counts its request and catches its errors
    on its own *)
Definition search_videos (request_count : Z) (query : string) (max_results : Z)
           (published_after : option string) : list VideoInfo.t * Z :=
  let (request_count, _) := _handle_rate_limit request_count in
  match search_list query (min_Z max_results config.MAX_RESULTS_PER_REQUEST)
                    (given published_after) with
  | Answer video_ids => get_video_details videos_list request_count video_ids
  | HttpError => ([], request_count)
  end.

(** the loop [for keyword in config.AI_KEYWORDS] of
    [get_trending_ai_videos] *)
Fixpoint search_keywords (keywords : list string) (per_keyword : Z)
         (request_count : Z) : list VideoInfo.t * Z :=
  match keywords with
  | [] => ([], request_count)
  | keyword :: rest =>
      let (videos, request_count) :=
        search_videos request_count keyword per_keyword None in
      let (more, request_count) := search_keywords rest per_keyword request_count in
      ((videos ++ more)%list, request_count)
  end.

(** the filter loop of [get_trending_ai_videos]; the set [seen_video_ids]
    is kept as a list *)
Fixpoint filter_seen (seen_video_ids : list string) (all_videos : list VideoInfo.t)
  : list VideoInfo.t :=
  match all_videos with
  | [] => []
  | video :: rest =>
      if negb (PyStr.mem (VideoInfo.video_id video) seen_video_ids)
         && (config.MIN_VIEW_COUNT <=? VideoInfo.view_count video)
      then video :: filter_seen (VideoInfo.video_id video :: seen_video_ids) rest
      else filter_seen seen_video_ids rest
  end.

Definition get_trending_ai_videos (request_count : Z) (max_results : Z)
  : list VideoInfo.t * Z :=
  let (all_videos, request_count) :=
    search_keywords config.AI_KEYWORDS
                    (max_results / Z.of_nat (List.length config.AI_KEYWORDS))
                    request_count in
  let filtered_videos := filter_seen [] all_videos in
  let filtered_videos := sort_desc Z.ltb VideoInfo.view_count filtered_videos in
  (slice_to filtered_videos max_results, request_count).
End Trending.

End YouTubeAPIClient.

(** * Vocabulary of the statements *)

Import PyStr Py.

(** the keywords of a list that occur in a text *)
Definition matches (keywords : list string) (text : string) : list string :=
  filter (fun k => contains k text) keywords.

(** the sum of [2 * table[t]] over the topics [t] of the table found in
    the text *)
Definition topic_points (text : string) (table : dict Z) : Z :=
  fold_right Z.add 0
    (map (fun item => 2 * snd item)
         (filter (fun item => contains (fst item) text) table)).

(** the lowercased title holds one of the complexity words *)
Definition is_complex (title : string) : bool :=
  any_in ["deep"; "advanced"; "complex"; "science"] (lower title).

(** the difficulty of a category before any escalation *)
Definition base_difficulty (category : string) : string :=
  get AIContentGenerator.difficulty_map category "Medium".

(** the six categories that every per-category table lists *)
Definition known_categories : list string :=
  [ "tutorial"; "news"; "comparison"; "explanation"; "prediction"; "review" ].

(** [published_at] is absent from the record, or the parser rejects it *)
Definition date_unusable (fromisoformat : string -> option Z)
           (published_at : option string) : Prop :=
  published_at = None \/
  exists s, published_at = Some s /\
            fromisoformat (replace_char "Z" "+00:00" s) = None.

(** the hashtags of the input that receive a positive score *)
Definition scored (title_lower : string) (hashtags : list string) : list string :=
  filter (fun h => 0 <? AIContentGenerator.hashtag_score title_lower h) hashtags.

(** the entries of [popular] that [relevant] lacks *)
Definition fresh (relevant popular : list string) : list string :=
  filter (fun h => negb (mem h relevant)) popular.

(** the number of opening braces of a string: the measure that the
    [while] loop of title generation decreases *)
Fixpoint opens (s : string) : nat :=
  match s with
  | EmptyString => O
  | String c s' => ((if Ascii.eqb c "{" then 1 else 0) + opens s')%nat
  end.

(** the title of an idea holds no placeholder *)
Definition filled (idea : ContentIdea.t) : Prop :=
  contains "{}" (ContentIdea.title idea) = false.

(** the pool that fills a placeholder left in [title] once the topics are
    used up: numbers for a title that speaks of minutes or steps, of days
    or of months, years and the like for any other *)
Definition pool_for (title : string) : list string :=
  if contains "minutes" (lower title) || contains "steps" (lower title)
  then map str [5; 10; 15; 20; 30]
  else if contains "days" (lower title) then map str [7; 14; 30; 60; 90]
  else if contains "months" (lower title) then map str [1; 3; 6; 12]
  else ["2024"; "2025"; "Today"; "Now"].

(** [pool_filled title title']: [title'] holds no placeholder and comes
    from [title] by filling its placeholders one at a time, the leftmost
    first, each with an entry of the pool of the title it is put into *)
Inductive pool_filled : string -> string -> Prop :=
| pool_filled_done (title : string) :
    contains "{}" title = false -> pool_filled title title
| pool_filled_step (title x title' : string) :
    contains "{}" title = true ->
    In x (pool_for title) ->
    pool_filled (replace_first "{}" x title) title' ->
    pool_filled title title'.

(** the template with its leftmost placeholders filled by the formatted
    topics, one after the other *)
Definition topic_filled (selected_topics : list string) (template : string) : string :=
  fold_left (fun title topic =>
               replace_first "{}" (AIContentGenerator._format_topic topic) title)
            selected_topics template.

(** [selected] holds entries of [topics] taken from different places *)
Definition drawn_from (selected topics : list string) : Prop :=
  exists rest, Permutation (selected ++ rest)%list topics.

(** the title of an idea is made from a template of its category: topics
    drawn from [top_topics] fill the first placeholders and the pools the
    others *)
Definition generated (top_topics : list string) (idea : ContentIdea.t) : Prop :=
  exists templates template selected,
    subscript AIContentGenerator.content_templates (ContentIdea.category idea) =
      Ok templates /\
    In template templates /\
    List.length selected =
      Nat.min (count "{}" template) (List.length top_topics) /\
    drawn_from selected top_topics /\
    pool_filled (topic_filled selected template) (ContentIdea.title idea).

(** a float that is zero, positive or plus infinity *)
Definition nonneg (x : spec_float) : bool :=
  match x with
  | S754_nan => false
  | S754_zero _ => true
  | S754_infinity s => negb s
  | S754_finite s _ _ => negb s
  end.

(** a float that is positive and finite *)
Definition positive_finite (x : spec_float) : bool :=
  match x with
  | S754_finite false _ _ => true
  | _ => false
  end.

(** the place of a float in the order of the floats: first its class and
    sign, then its exponent, then its mantissa, the last two reversed for
    a negative float; the two zeros share a place, NaN is put last *)
Definition place (x : spec_float) : Z * Z * Z :=
  match x with
  | S754_infinity true => (-2, 0, 0)
  | S754_finite true m e => (-1, - e, - Z.pos m)
  | S754_zero _ => (0, 0, 0)
  | S754_finite false m e => (1, e, Z.pos m)
  | S754_infinity false => (2, 0, 0)
  | S754_nan => (3, 0, 0)
  end.

Definition below (a b : Z * Z * Z) : bool :=
  let '(a1, a2, a3) := a in
  let '(b1, b2, b3) := b in
  (a1 <? b1) || ((a1 =? b1) && ((a2 <? b2) || ((a2 =? b2) && (a3 <? b3)))).

Definition same_place (a b : Z * Z * Z) : bool :=
  let '(a1, a2, a3) := a in
  let '(b1, b2, b3) := b in
  (a1 =? b1) && (a2 =? b2) && (a3 =? b3).

(** the counts of a channel that the ranking takes as it finds them: no
    count of videos or views is negative, and [float()] can convert the
    subscriber count, where Python raises [OverflowError] beyond the
    range of binary64 *)
Definition receivable (c : Channel.t) : Prop :=
  0 <= Channel.video_count c /\ 0 <= Channel.view_count c /\
  Channel.subscriber_count c < 2 ^ 1023.

Section RankingVocabulary.
Variable now : Z.
Variable fromisoformat : string -> option Z.

(** the admission test of the filter loop *)
Definition admitted (c : Channel.t) : bool :=
  (config.MIN_SUBSCRIBER_COUNT <=? Channel.subscriber_count c)
  && AIInfluencerFinder._is_ai_related_channel c.

(** a channel with its two scores *)
Definition enrich (c : Channel.t) : Influencer.t :=
  Influencer.mk c (AIInfluencerFinder._calculate_growth_score now fromisoformat c)
                (AIInfluencerFinder._calculate_ai_relevance_score c).

(** the ranking before truncation *)
Definition ranking (channel_stats : list Channel.t) : list Influencer.t :=
  sort_desc Binary64.ltb (AIInfluencerFinder.combined_score now fromisoformat)
            (AIInfluencerFinder.filter_influencers now fromisoformat channel_stats).

(** the composite score of a channel in exact arithmetic *)
Definition exact_combined_score (c : Channel.t) : Q :=
  (inject_Z (Channel.subscriber_count c) * (4 # 10) +
   AIInfluencerFinder._calculate_growth_score now fromisoformat c * (3 # 10) +
   inject_Z (AIInfluencerFinder._calculate_ai_relevance_score c) * (3 # 10))%Q.

End RankingVocabulary.

(** the channel ids of a list of influencers, in order *)
Definition ids (l : list Influencer.t) : list string :=
  map (fun x => Channel.channel_id (Influencer.stats x)) l.

(** ** Inputs of the scenarios and examples *)

Module Scenario.
(** the channel of the specification's gate scenario; the fields the
    scenario leaves open are arguments *)
Definition ai_explained (channel_id : string) (published_at : option string)
           (video_count view_count : Z) : Channel.t :=
  Channel.mk channel_id (Some "AI Explained") (Some "machine learning tutorials")
             published_at 60000 video_count view_count.

(** the video of the specification's engagement scenario *)
Definition video (video_id title : string) (published_at : option string)
           (engagement_rate : Q) : Video.t :=
  Video.mk video_id title published_at 100000 5000 500 engagement_rate.
End Scenario.

Module Example.
(** a clock and a date parser for the examples: the clock reads day 400,
    and the parser knows one date, day 0 *)
Definition now : Z := 400 * AIInfluencerFinder.microseconds_per_day.
Definition fromisoformat (s : string) : option Z :=
  if String.eqb s "2020-01-01T00:00:00+00:00" then Some 0 else None.

Definition channel : Channel.t :=
  Channel.mk "UC1" (Some "AI Explained") (Some "machine learning tutorials")
             (Some "2020-01-01T00:00:00Z") 60000 800 90000000.

Definition undated_channel : Channel.t :=
  Channel.mk "UC2" (Some "Tech and coding") None None 70000 10 1000.

Definition misdated_channel : Channel.t :=
  Channel.mk "UC3" (Some "Deep learning tech") (Some "python") (Some "yesterday")
             50000 10 1000.

Definition undated_video : Video.t :=
  Video.mk "v1" "GPT news" None 200000 5000 500 6.
End Example.

(** three channels that pass the admission test *)
Definition example_channels : list Channel.t :=
  [ Example.misdated_channel; Example.channel; Example.undated_channel ].

(** two channels of day 0 whose composite scores are the same rational
    number and two different floats *)
Module Tie.
Definition first_channel : Channel.t :=
  Channel.mk "UC1" (Some "AI Explained") (Some "machine learning tutorials")
             (Some "2020-01-01T00:00:00Z") 176748 46 5772707.
Definition second_channel : Channel.t :=
  Channel.mk "UC2" (Some "AI Explained") (Some "machine learning tutorials")
             (Some "2020-01-01T00:00:00Z") 176754 46 2092707.
End Tie.

(** ** Vocabulary of the further properties *)

(** the counter and the number of sleeps after [n] calls of
    [_handle_rate_limit] *)
Fixpoint after_calls (n : nat) (request_count : Z) : Z * Z :=
  match n with
  | O => (request_count, 0)
  | S n' =>
      let (request_count, slept) :=
        YouTubeAPIClient._handle_rate_limit request_count in
      let (final, sleeps) := after_calls n' request_count in
      (final, (if slept then 1 else 0) + sleeps)
  end.

(** the items of a response, none for an error *)
Definition items_of {A : Type} (r : YouTubeAPIClient.response (list A)) : list A :=
  match r with
  | YouTubeAPIClient.Answer items => items
  | YouTubeAPIClient.HttpError => []
  end.

(** the first channel of a list that carries a given id *)
Definition first_with_id (channel_id : string) (all_channels : list ChannelHit.t)
  : option ChannelHit.t :=
  find (fun channel => String.eqb (ChannelHit.channel_id channel) channel_id)
       all_channels.

(** the videos whose text mentions a topic *)
Definition mentioning (topic : string) (videos : list VideoInfo.t)
  : list VideoInfo.t :=
  filter (fun video => contains topic (AIInfluencerFinder.topic_text video)) videos.

(** the text in which [get_successful_hashtags] looks for hashtags *)
Definition hashtag_text (video : VideoInfo.t) : string :=
  VideoInfo.title video ++ " " ++
  AIInfluencerFinder.text_or_empty (VideoInfo.description video).

(** a text of ASCII characters *)
Fixpoint ascii_text (s : string) : bool :=
  match s with
  | EmptyString => true
  | String c s' => (nat_of_ascii c <? 128)%nat && ascii_text s'
  end.

(** every character of a string is a word character *)
Fixpoint all_word (s : string) : bool :=
  match s with
  | EmptyString => true
  | String c s' => is_word c && all_word s'
  end.

(** a string does not start with a word character *)
Definition word_stops (s : string) : Prop :=
  match s with
  | EmptyString => True
  | String c _ => is_word c = false
  end.

(** the word read so far, when a hash sign is pending, lies right before
    the rest of the text and behind a hash sign *)
Definition pending (cur : option string) (before : string) : Prop :=
  match cur with
  | None => True
  | Some w =>
      all_word (rev_string EmptyString w) = true /\
      exists a, before = a ++ "#" ++ rev_string EmptyString w
  end.

(** what [get_successful_hashtags] keeps for a hashtag is consistent: it
    was seen at least once, once per recorded video id, and every recorded
    video had at least [min_views] views *)
Definition sound_stat (min_views : Z) (stat : HashtagStat.t) : Prop :=
  1 <= HashtagStat.count stat /\
  Z.of_nat (List.length (HashtagStat.videos stat)) = HashtagStat.count stat /\
  min_views * HashtagStat.count stat <= HashtagStat.total_views stat.

(** [h] is the lowercased form of a hashtag word of a video with at least
    [min_views] views *)
Definition tagged_by (min_views : Z) (videos : list VideoInfo.t) (h : string) : Prop :=
  exists video w,
    In video videos /\
    min_views <= VideoInfo.view_count video /\
    In w (findall_hashtags (hashtag_text video)) /\
    h = lower w.

(** the statistics of a hashtag after one more sighting in [video] *)
Definition seen_in (video : VideoInfo.t) (stat : HashtagStat.t) : HashtagStat.t :=
  HashtagStat.mk (HashtagStat.count stat + 1)
                 (HashtagStat.total_views stat + VideoInfo.view_count video)
                 (HashtagStat.videos stat ++ [VideoInfo.video_id video]).

(** the integers [first, first + 1, ...], [n] of them *)
Definition count_from (first : Z) (n : nat) : list Z :=
  map (fun k => first + Z.of_nat k) (seq 0 n).

(** the videos that [analyze_influencer_videos] fetches and scores, before
    it filters and sorts them *)
Definition fetched_videos (now : Z) (fromisoformat : string -> option Z)
           (get_channel_videos : string -> Z -> list VideoInfo.t)
           (influencers : list Influencer.t) : list AnalyzedVideo.t :=
  flat_map (fun influencer =>
              map (AIInfluencerFinder.analyze_video now fromisoformat influencer)
                  (get_channel_videos
                     (Channel.channel_id (Influencer.stats influencer))
                     config.MAX_VIDEOS_PER_CHANNEL))
           influencers.

(** the counts of a video that the analysis takes as it finds them: none
    is negative, and none so large that a quotient leaves the range of
    binary64, where Python raises [OverflowError] *)
Definition receivable_video (video : VideoInfo.t) : Prop :=
  0 <= VideoInfo.like_count video /\ 0 <= VideoInfo.comment_count video /\
  0 <= VideoInfo.view_count video < 2 ^ 1023 /\
  VideoInfo.like_count video + VideoInfo.comment_count video * 2 < 2 ^ 1023.

(** a request that fails for any batch holding the id "bad" *)
Definition fragile_request (batch : list string)
  : YouTubeAPIClient.response (list string) :=
  if mem "bad" batch then YouTubeAPIClient.HttpError
  else YouTubeAPIClient.Answer batch.

(** a video that some details request has delivered *)
Definition delivered (videos_list : list string -> YouTubeAPIClient.response (list VideoInfo.t))
           (video : VideoInfo.t) : Prop :=
  exists batch items,
    videos_list batch = YouTubeAPIClient.Answer items /\ In video items.

(** the videos that the keyword searches of [get_trending_ai_videos] bring
    in, before its filter *)
Definition searched_videos
           (search_list : string -> Z -> option string ->
                          YouTubeAPIClient.response (list string))
           (videos_list : list string -> YouTubeAPIClient.response (list VideoInfo.t))
           (request_count max_results : Z) : list VideoInfo.t :=
  fst (YouTubeAPIClient.search_keywords
         search_list videos_list config.AI_KEYWORDS
         (max_results / Z.of_nat (List.length config.AI_KEYWORDS)) request_count).

(** inputs for the examples of the further properties: a video dated day
    0, and a parser that reads every date as day 410, ten days after the
    clock of the examples *)
Module FurtherExample.
Definition dated_video : Video.t :=
  Video.mk "v2" "GPT news" (Some "2020-01-01T00:00:00Z") 200000 5000 500 6.
Definition future_date (s : string) : option Z :=
  Some (410 * AIInfluencerFinder.microseconds_per_day).
Definition video_info : VideoInfo.t :=
  VideoInfo.mk "v3" "ChatGPT Tutorial #AI #ml" (Some "learn #AI and python")
               ["gpt"; "LLM"] None 200000 5000 500.
Definition small_video_info : VideoInfo.t :=
  VideoInfo.mk "v4" "Python guide #python" None [] None 50000 10 1.
(** two influencers with one undated video each, whose performance
    scores are the same rational number and two different floats *)
Definition tie_influencers : list Influencer.t :=
  [ Influencer.mk (Channel.mk "UCa" None None None 300000 0 0) 0 0;
    Influencer.mk (Channel.mk "UCb" None None None 600000 0 0) 0 0 ].
Definition tie_videos (channel_id : string) (max_results : Z) : list VideoInfo.t :=
  if String.eqb channel_id "UCa"
  then [ VideoInfo.mk "p" "First" None [] None 100000 1000 0 ]
  else if String.eqb channel_id "UCb"
  then [ VideoInfo.mk "q" "Second" None [] None 150000 14000 0 ]
  else [].
(** a search that always finds the two videos, and their details *)
Definition search_list (query : string) (max_results : Z)
           (published_after : option string)
  : YouTubeAPIClient.response (list string) :=
  YouTubeAPIClient.Answer ["v3"; "v4"].
Definition videos_list (batch : list string)
  : YouTubeAPIClient.response (list VideoInfo.t) :=
  YouTubeAPIClient.Answer [video_info; small_video_info].
End FurtherExample.

(** the fields of a content idea that are computed from its title and
    category agree with them, and the category is one of the six *)
Definition derived (trending_topics : dict Z) (successful_hashtags : list string)
           (idea : ContentIdea.t) : Prop :=
  In (ContentIdea.category idea) known_categories /\
  ContentIdea.trend_score idea =
    AIContentGenerator._calculate_trend_score (ContentIdea.title idea) trending_topics /\
  ContentIdea.hashtags idea =
    AIContentGenerator._select_hashtags_for_topic (ContentIdea.title idea)
                                                  successful_hashtags 15 /\
  ContentIdea.difficulty idea =
    AIContentGenerator._estimate_difficulty (ContentIdea.category idea)
                                            (ContentIdea.title idea) /\
  ContentIdea.target_audience idea =
    AIContentGenerator._identify_target_audience (ContentIdea.title idea) /\
  ContentIdea.key_topics idea =
    AIContentGenerator._extract_key_topics (ContentIdea.title idea).

(** the trend score and the view estimate of an idea are in their usual
    ranges *)
Definition plausible (idea : ContentIdea.t) : Prop :=
  0 <= ContentIdea.trend_score idea <= 100 /\
  50000 <= ContentIdea.estimated_views idea <= 750000.

(** the derived fields of a video script agree with its script text and
    its category *)
Definition scripted (s : VideoScript.t) : Prop :=
  VideoScript.estimated_duration s =
    AIContentGenerator._estimate_script_duration (VideoScript.script s) /\
  VideoScript.word_count s = AIContentGenerator.word_count (VideoScript.script s) /\
  VideoScript.key_points s =
    AIContentGenerator._extract_script_key_points (VideoScript.script s) /\
  VideoScript.call_to_action s =
    AIContentGenerator._generate_call_to_action (VideoScript.category s).

(** a string does not start with white space *)
Definition starts_clean (s : string) : Prop :=
  match s with
  | EmptyString => True
  | String c _ => is_space c = false
  end.

(** a string neither starts nor ends with white space *)
Definition trimmed (s : string) : Prop :=
  starts_clean s /\ starts_clean (rev_string EmptyString s).

(** the lines of a script, stripped, that open like a numbered step *)
Definition structured_lines (script : string) : list string :=
  filter AIContentGenerator.is_structured_point
         (map strip (split_on (ascii_of_nat 10) script)).

(** * Properties of the embedding *)

(** ** Keyword counting loops *)

Lemma add_matches_count (points : Z) (keywords : list string) (text : string) (score : Z) :
  add_matches points keywords text score =
  score + points * Z.of_nat (List.length (matches keywords text)).
Proof.
  unfold add_matches, matches. revert score.
  induction keywords as [|k ks IH]; intros score; simpl.
  - lia.
  - rewrite IH. destruct (contains k text); simpl List.length; lia.
Qed.

Lemma nodup_fixpoint_NoDup (l : list string) :
  nodup string_dec l = l -> NoDup l.
Proof. intros E. rewrite <- E. apply NoDup_nodup. Qed.

Lemma two_distinct_members {A : Type} (l : list A) :
  NoDup l ->
  ((2 <= List.length l)%nat <-> exists x y, x <> y /\ In x l /\ In y l).
Proof.
  intros ND. split.
  - destruct l as [|x [|y l']]; simpl; try lia. intros _.
    exists x, y. repeat split; simpl; auto.
    inversion ND as [|? ? Hx _]; subst. intros ->. apply Hx. now left.
  - intros (x & y & Hxy & Hx & Hy).
    destruct l as [|a [|b l']].
    + destruct Hx.
    + destruct Hx as [<-|[]], Hy as [<-|[]]. now elim Hxy.
    + simpl. lia.
Qed.

(** ** The AI-relevance gate (C2) *)

Lemma ai_indicators_NoDup : NoDup AIInfluencerFinder.ai_indicators.
Proof. apply nodup_fixpoint_NoDup. vm_compute. reflexivity. Qed.

Lemma gate_counts_matches (c : Channel.t) :
  AIInfluencerFinder._is_ai_related_channel c =
  (2 <=? List.length (matches AIInfluencerFinder.ai_indicators
                              (AIInfluencerFinder.text_to_check c)))%nat.
Proof.
  unfold AIInfluencerFinder._is_ai_related_channel.
  rewrite add_matches_count.
  destruct (Nat.leb_spec 2 (List.length (matches AIInfluencerFinder.ai_indicators
                                               (AIInfluencerFinder.text_to_check c))));
    [apply Z.leb_le | apply Z.leb_gt]; lia.
Qed.

(** C2. A channel passes the AI-relevance gate exactly when two distinct
    keywords of the indicator list occur in its lowercased title and
    description (joined by one space, as the code joins them).  The channel
    "AI Explained" / "machine learning tutorials" with 60000 subscribers
    passes the gate and the 50000-subscriber threshold, so
    [find_ai_influencers] keeps it. *)
Theorem ai_gate_two_distinct_indicators :
  (forall c : Channel.t,
      AIInfluencerFinder._is_ai_related_channel c = true <->
      exists k1 k2 : string,
        k1 <> k2 /\
        In k1 AIInfluencerFinder.ai_indicators /\
        In k2 AIInfluencerFinder.ai_indicators /\
        contains k1 (AIInfluencerFinder.text_to_check c) = true /\
        contains k2 (AIInfluencerFinder.text_to_check c) = true) /\
  (forall id published_at videos views now fromisoformat,
      let c := Scenario.ai_explained id published_at videos views in
      AIInfluencerFinder._is_ai_related_channel c = true /\
      (config.MIN_SUBSCRIBER_COUNT <=? Channel.subscriber_count c) = true /\
      map Influencer.stats
          (AIInfluencerFinder.filter_influencers now fromisoformat [c]) = [c]).
Proof.
  split.
  - intros c. rewrite gate_counts_matches, Nat.leb_le.
    rewrite two_distinct_members
      by (apply NoDup_filter, ai_indicators_NoDup).
    unfold matches.
    split; intros (k1 & k2 & H); exists k1, k2.
    + destruct H as (Hne & H1 & H2).
      apply filter_In in H1, H2. tauto.
    + rewrite !filter_In. tauto.
  - intros id published_at videos views now fromisoformat c.
    repeat split.
Qed.

(** ** Rational arithmetic of the scores *)

Lemma Qltb_lt (a b : Q) : Qltb a b = true <-> (a < b)%Q.
Proof.
  unfold Qltb. rewrite negb_true_iff, <- not_true_iff_false, Qle_bool_iff.
  split; [apply Qnot_le_lt | apply Qlt_not_le].
Qed.

Lemma Qltb_ge (a b : Q) : Qltb a b = false <-> (b <= a)%Q.
Proof.
  unfold Qltb. rewrite negb_false_iff. apply Qle_bool_iff.
Qed.

Lemma min_Q_Qmin (a b : Q) : (min_Q a b == Qmin a b)%Q.
Proof.
  unfold min_Q. destruct (Qltb b a) eqn:E.
  - apply Qltb_lt in E. symmetry. apply Q.min_r. now apply Qlt_le_weak.
  - apply Qltb_ge in E. symmetry. now apply Q.min_l.
Qed.

Lemma min_Q_bounds (a cap : Q) :
  (0 <= a)%Q -> (0 <= cap)%Q -> (0 <= min_Q a cap)%Q /\ (min_Q a cap <= cap)%Q.
Proof.
  intros Ha Hc. unfold min_Q. destruct (Qltb cap a) eqn:E.
  - split; [assumption | apply Qle_refl].
  - apply Qltb_ge in E. now split.
Qed.

Lemma max_Z_max (a b : Z) : max_Z a b = Z.max a b.
Proof. unfold max_Z. destruct (Z.ltb_spec a b); lia. Qed.

Lemma min_Z_min (a b : Z) : min_Z a b = Z.min a b.
Proof. unfold min_Z. destruct (Z.ltb_spec b a); lia. Qed.

Lemma ratio_nonneg (a b : Z) :
  0 <= a -> 0 < b -> (0 <= inject_Z a / inject_Z b)%Q.
Proof.
  intros Ha Hb. apply Qle_shift_div_l.
  - change 0%Q with (inject_Z 0). now rewrite <- Zlt_Qlt.
  - rewrite Qmult_0_l. change 0%Q with (inject_Z 0). now rewrite <- Zle_Qle.
Qed.

(** ** Engagement rate (C3) *)

(** C3. For non-negative counts the engagement rate is
    min((likes + 2 * comments) / max(views, 1) * 100, 100), hence between 0
    and 100; with 100000 views, 5000 likes and 500 comments it is 6. *)
Theorem engagement_rate_formula :
  (forall video : Video.t,
      0 <= Video.like_count video ->
      0 <= Video.comment_count video ->
      0 <= Video.view_count video ->
      (AIInfluencerFinder._calculate_engagement_rate video ==
       Qmin (inject_Z (Video.like_count video + 2 * Video.comment_count video) /
             inject_Z (Z.max (Video.view_count video) 1) * 100) 100)%Q /\
      (0 <= AIInfluencerFinder._calculate_engagement_rate video)%Q /\
      (AIInfluencerFinder._calculate_engagement_rate video <= 100)%Q) /\
  (forall id title published_at rate,
      (AIInfluencerFinder._calculate_engagement_rate
         (Scenario.video id title published_at rate) == 6)%Q).
Proof.
  split.
  - intros video Hl Hc Hv.
    unfold AIInfluencerFinder._calculate_engagement_rate.
    rewrite max_Z_max.
    replace (Video.like_count video + Video.comment_count video * 2)
      with (Video.like_count video + 2 * Video.comment_count video) by lia.
    split; [apply min_Q_Qmin |].
    apply min_Q_bounds; [| discriminate].
    apply Qmult_le_0_compat; [| discriminate].
    apply ratio_nonneg; lia.
  - intros. reflexivity.
Qed.

(** The rate of the scenario, obtained from the general statement. *)
Lemma engagement_rate_formula_witness :
  0 <= 5000 /\ 0 <= 500 /\ 0 <= 100000 /\
  (0 <= AIInfluencerFinder._calculate_engagement_rate
          (Scenario.video "v1" "t" None 0))%Q /\
  (AIInfluencerFinder._calculate_engagement_rate
     (Scenario.video "v1" "t" None 0) <= 100)%Q.
Proof.
  assert (Hl : 0 <= 5000) by lia.
  assert (Hc : 0 <= 500) by lia.
  assert (Hv : 0 <= 100000) by lia.
  split; [exact Hl | split; [exact Hc | split; [exact Hv |]]].
  exact (proj2 (proj1 engagement_rate_formula (Scenario.video "v1" "t" None 0) Hl Hc Hv)).
Defined.

(** The expression of the scenario evaluated in binary64 is the float 6.0,
    which the cap at 100 leaves as it is. *)
Lemma engagement_scenario_binary64 :
  let rate := Binary64.mul
                (Binary64.div (Binary64.of_int (5000 + 500 * 2))
                              (Binary64.of_int (Z.max 100000 1)))
                (Binary64.of_int 100) in
  rate = Binary64.of_int 6 /\ SFltb (Binary64.of_int 100) rate = false.
Proof. vm_compute. split; reflexivity. Qed.

(** ** Bounds of the channel scores (C4) *)

Lemma ai_relevance_score_range (c : Channel.t) :
  0 <= AIInfluencerFinder._calculate_ai_relevance_score c <= 100.
Proof.
  unfold AIInfluencerFinder._calculate_ai_relevance_score.
  rewrite !add_matches_count, min_Z_min. lia.
Qed.

Section GrowthBounds.
Variable now : Z.
Variable fromisoformat : string -> option Z.

Lemma growth_score_range (c : Channel.t) :
  0 <= Channel.video_count c ->
  0 <= Channel.view_count c ->
  (0 <= AIInfluencerFinder._calculate_growth_score now fromisoformat c)%Q /\
  (AIInfluencerFinder._calculate_growth_score now fromisoformat c <= 1000)%Q.
Proof.
  intros Hvideos Hviews.
  unfold AIInfluencerFinder._calculate_growth_score,
    AIInfluencerFinder.growth_score_try.
  destruct (AIInfluencerFinder.days_since now fromisoformat (Channel.published_at c))
    as [age|e]; simpl; [| split; discriminate].
  destruct (Z.ltb_spec 0 age) as [Hage|Hage]; [| split; discriminate].
  apply min_Q_bounds; [| discriminate].
  rewrite max_Z_max.
  pose proof (ratio_nonneg (Channel.video_count c) age Hvideos Hage) as Hper_day.
  assert (Hper_video :
            (0 <= inject_Z (Channel.view_count c) /
                  inject_Z (Z.max (Channel.video_count c) 1))%Q)
    by (apply ratio_nonneg; lia).
  assert (Hscaled :
            (0 <= inject_Z (Channel.view_count c) /
                  inject_Z (Z.max (Channel.video_count c) 1) / 10000)%Q).
  { apply Qle_shift_div_l; [reflexivity |].
    rewrite Qmult_0_l. exact Hper_video. }
  assert (H0 : (0 <= inject_Z (Channel.video_count c) / inject_Z age * 365 * 10)%Q).
  { repeat (apply Qmult_le_0_compat; [| discriminate]). exact Hper_day. }
  set (a := (inject_Z (Channel.video_count c) / inject_Z age * 365 * 10)%Q) in *.
  set (b := (inject_Z (Channel.view_count c) /
             inject_Z (Z.max (Channel.video_count c) 1) / 10000)%Q) in *.
  lra.
Qed.
End GrowthBounds.

(** C4. For a channel with non-negative counts, the AI-relevance score lies
    in [0, 100] and the growth score in [0, 1000], whatever [published_at]
    holds and whether or not it parses. *)
Theorem channel_scores_bounded (now : Z) (fromisoformat : string -> option Z)
        (c : Channel.t) :
  0 <= Channel.subscriber_count c ->
  0 <= Channel.video_count c ->
  0 <= Channel.view_count c ->
  0 <= AIInfluencerFinder._calculate_ai_relevance_score c <= 100 /\
  (0 <= AIInfluencerFinder._calculate_growth_score now fromisoformat c)%Q /\
  (AIInfluencerFinder._calculate_growth_score now fromisoformat c <= 1000)%Q.
Proof.
  intros _ Hvideos Hviews. split.
  - apply ai_relevance_score_range.
  - now apply growth_score_range.
Qed.

Lemma channel_scores_bounded_witness :
  0 <= Channel.subscriber_count Example.channel /\
  0 <= Channel.video_count Example.channel /\
  0 <= Channel.view_count Example.channel /\
  0 <= AIInfluencerFinder._calculate_ai_relevance_score Example.channel <= 100 /\
  (0 <= AIInfluencerFinder._calculate_growth_score
          Example.now Example.fromisoformat Example.channel)%Q /\
  (AIInfluencerFinder._calculate_growth_score
     Example.now Example.fromisoformat Example.channel <= 1000)%Q.
Proof.
  assert (Hs : 0 <= Channel.subscriber_count Example.channel) by (simpl; lia).
  assert (Hv : 0 <= Channel.video_count Example.channel) by (simpl; lia).
  assert (Hw : 0 <= Channel.view_count Example.channel) by (simpl; lia).
  split; [exact Hs | split; [exact Hv | split; [exact Hw |]]].
  exact (channel_scores_bounded Example.now Example.fromisoformat Example.channel
                                Hs Hv Hw).
Defined.

(** ** Dates that are missing or do not parse (C8) *)

Lemma days_since_unusable now fromisoformat published_at :
  date_unusable fromisoformat published_at ->
  AIInfluencerFinder.days_since now fromisoformat published_at = Raise KeyError \/
  AIInfluencerFinder.days_since now fromisoformat published_at = Raise ValueError.
Proof.
  intros [-> | (s & -> & Hs)]; unfold AIInfluencerFinder.days_since; simpl.
  - now left.
  - rewrite Hs. now right.
Qed.

(** C8. When [published_at] is missing or does not parse, the [try] block
    of the growth score raises and the score is 0; the [try] block of the
    recency component raises and the component is 0, so that the
    performance score is the sum of its two other terms.  Both functions
    return a value. *)
Theorem unusable_date_scores_zero (now : Z) (fromisoformat : string -> option Z) :
  (forall c : Channel.t,
      date_unusable fromisoformat (Channel.published_at c) ->
      (exists e, AIInfluencerFinder.growth_score_try now fromisoformat c = Raise e) /\
      AIInfluencerFinder._calculate_growth_score now fromisoformat c = 0%Q) /\
  (forall (v : Video.t) (influencer : Influencer.t),
      date_unusable fromisoformat (Video.published_at v) ->
      (exists e, AIInfluencerFinder.recency_score_try now fromisoformat v = Raise e) /\
      AIInfluencerFinder.recency_score now fromisoformat v = 0%Q /\
      (AIInfluencerFinder._calculate_performance_score now fromisoformat v influencer ==
       inject_Z (Video.view_count v) /
       inject_Z (Z.max (Channel.subscriber_count (Influencer.stats influencer)) 1) * 1000 +
       Video.engagement_rate v * 10)%Q).
Proof.
  split.
  - intros c H.
    unfold AIInfluencerFinder._calculate_growth_score,
      AIInfluencerFinder.growth_score_try.
    destruct (days_since_unusable now fromisoformat _ H) as [-> | ->]; simpl;
      split; eauto.
  - intros v influencer H.
    assert (Hr : exists e, AIInfluencerFinder.recency_score_try now fromisoformat v = Raise e).
    { unfold AIInfluencerFinder.recency_score_try.
      destruct (days_since_unusable now fromisoformat _ H) as [-> | ->]; simpl; eauto. }
    destruct Hr as (e & Hr).
    assert (H0 : AIInfluencerFinder.recency_score now fromisoformat v = 0%Q)
      by (unfold AIInfluencerFinder.recency_score; now rewrite Hr).
    split; [eauto | split; [exact H0 |]].
    unfold AIInfluencerFinder._calculate_performance_score.
    rewrite H0, max_Z_max. ring.
Qed.

Lemma unusable_date_scores_zero_witness :
  date_unusable Example.fromisoformat (Channel.published_at Example.undated_channel) /\
  date_unusable Example.fromisoformat (Channel.published_at Example.misdated_channel) /\
  date_unusable Example.fromisoformat (Video.published_at Example.undated_video) /\
  AIInfluencerFinder._calculate_growth_score
    Example.now Example.fromisoformat Example.undated_channel = 0%Q /\
  AIInfluencerFinder._calculate_growth_score
    Example.now Example.fromisoformat Example.misdated_channel = 0%Q /\
  AIInfluencerFinder.recency_score
    Example.now Example.fromisoformat Example.undated_video = 0%Q.
Proof.
  assert (H1 : date_unusable Example.fromisoformat
                             (Channel.published_at Example.undated_channel))
    by (left; reflexivity).
  assert (H2 : date_unusable Example.fromisoformat
                             (Channel.published_at Example.misdated_channel))
    by (right; exists "yesterday"; split; reflexivity).
  assert (H3 : date_unusable Example.fromisoformat
                             (Video.published_at Example.undated_video))
    by (left; reflexivity).
  pose proof (unusable_date_scores_zero Example.now Example.fromisoformat) as [Hc Hv].
  split; [exact H1 | split; [exact H2 | split; [exact H3 |]]].
  split; [exact (proj2 (Hc _ H1)) | split; [exact (proj2 (Hc _ H2)) |]].
  exact (proj1 (proj2 (Hv _ (Influencer.mk Example.channel 0 0) H3))).
Defined.

(** ** Trend score (C5) *)

Lemma topic_loop_sum (text : string) (table : dict Z) (score : Z) :
  fold_left (fun score (item : string * Z) =>
               let '(topic, frequency) := item in
               if contains topic text then score + frequency * 2 else score)
            table score
  = score + topic_points text table.
Proof.
  unfold topic_points. revert score.
  induction table as [|[topic frequency] table IH]; intros score;
    cbn [fold_left filter map fold_right fst snd].
  - lia.
  - rewrite IH. destruct (contains topic text);
      cbn [map fold_right snd]; lia.
Qed.

(** C5. The trend score is the sum of twice the table entry of each topic
    found in the lowercased title, plus 5 for each of the six trending
    keywords found there, capped at 100; the table {"ai": 10} and the title
    "Why AI is the Future" give 25. *)
Theorem trend_score_formula :
  (forall (title : string) (trending_topics : dict Z),
      AIContentGenerator._calculate_trend_score title trending_topics =
      Z.min (topic_points (lower title) trending_topics +
             5 * Z.of_nat (List.length
                             (matches ["2024"; "2025"; "new"; "latest";
                                       "breakthrough"; "future"]
                                      (lower title))))
            100) /\
  AIContentGenerator._calculate_trend_score "Why AI is the Future" [("ai", 10)] = 25.
Proof.
  split; [| reflexivity].
  intros title trending_topics.
  unfold AIContentGenerator._calculate_trend_score.
  now rewrite topic_loop_sum, add_matches_count, min_Z_min.
Qed.

(** ** Difficulty (C9) *)

Lemma base_difficulty_levels (category : string) :
  In (base_difficulty category) ["Easy"; "Medium"; "Hard"].
Proof.
  unfold base_difficulty, AIContentGenerator.difficulty_map. simpl.
  repeat match goal with
         | |- context [String.eqb category ?k] => destruct (String.eqb category k)
         end; simpl; auto.
Qed.

(** C9. The difficulty is the base difficulty of the category (Medium for
    a category outside the map), moved up one level, Easy to Medium and
    Medium to Hard, when the lowercased title contains "deep", "advanced",
    "complex" or "science"; a Hard base stays Hard, and the result is one of
    Easy, Medium, Hard. *)
Theorem difficulty_escalation (category title : string) :
  let base := base_difficulty category in
  let result := AIContentGenerator._estimate_difficulty category title in
  In base ["Easy"; "Medium"; "Hard"] /\
  In result ["Easy"; "Medium"; "Hard"] /\
  (is_complex title = false -> result = base) /\
  (is_complex title = true -> base = "Easy" -> result = "Medium") /\
  (is_complex title = true -> base = "Medium" -> result = "Hard") /\
  (base = "Hard" -> result = "Hard").
Proof.
  intros base result.
  pose proof (base_difficulty_levels category) as Hbase.
  fold base in Hbase.
  assert (Hresult :
            result = if is_complex title
                     then if String.eqb base "Easy" then "Medium"
                          else if String.eqb base "Medium" then "Hard" else base
                     else base) by reflexivity.
  split; [exact Hbase |].
  simpl in Hbase.
  destruct Hbase as [E | [E | [E | []]]]; rewrite <- E in *;
    rewrite Hresult; destruct (is_complex title); simpl;
    repeat split; auto; try discriminate; intros; discriminate.
Qed.

Lemma difficulty_escalation_witness :
  is_complex "The Science Behind GPT" = true /\
  base_difficulty "news" = "Easy" /\
  AIContentGenerator._estimate_difficulty "news" "The Science Behind GPT" = "Medium" /\
  is_complex "GPT News This Week" = false /\
  AIContentGenerator._estimate_difficulty "news" "GPT News This Week" = "Easy".
Proof.
  assert (H1 : is_complex "The Science Behind GPT" = true) by reflexivity.
  assert (H2 : base_difficulty "news" = "Easy") by reflexivity.
  assert (H3 : is_complex "GPT News This Week" = false) by reflexivity.
  split; [exact H1 | split; [exact H2 |]].
  split;
    [exact (proj1 (proj2 (proj2 (proj2 (difficulty_escalation "news" "The Science Behind GPT")))) H1 H2) |].
  split; [exact H3 |].
  exact (proj1 (proj2 (proj2 (difficulty_escalation "news" "GPT News This Week"))) H3).
Defined.

(** ** Categories outside the six known ones (C7) *)

Lemma known_categories_are_keys :
  keys AIContentGenerator.content_templates = known_categories /\
  keys AIContentGenerator.thumbnail_concepts = known_categories /\
  keys AIContentGenerator.base_views = known_categories /\
  keys AIContentGenerator.difficulty_map = known_categories /\
  keys AIContentGenerator.cta_templates = known_categories.
Proof. repeat split. Qed.

Lemma get_outside_keys {V : Type} (d : dict V) (k : string) (default : V) :
  ~ In k (keys d) -> get d k default = default.
Proof.
  induction d as [|[k' v] d IH]; simpl; intros H; [reflexivity |].
  destruct (String.eqb_spec k k') as [-> | _].
  - elim H. now left.
  - apply IH. intros Hin. apply H. now right.
Qed.

Lemma thumbnail_concepts_nonempty (category : string) :
  get AIContentGenerator.thumbnail_concepts category
      AIContentGenerator.default_concepts <> [].
Proof.
  unfold AIContentGenerator.thumbnail_concepts. simpl.
  repeat match goal with
         | |- context [String.eqb category ?k] => destruct (String.eqb category k)
         end; discriminate.
Qed.

Lemma choice_nonempty {A : Type} (l : list A) (r : rng) :
  l <> [] -> exists x, In x l /\ choice l r = Ok (x, snd (next r)).
Proof.
  destruct l as [|d l']; [congruence | intros _].
  unfold choice. destruct (next r) as [n r'] eqn:E. simpl snd.
  eexists. split; [| reflexivity].
  apply nth_In. unfold pick.
  assert (N.of_nat (List.length (d :: l')) <> 0%N) by (simpl; lia).
  pose proof (N.mod_lt n _ H). lia.
Qed.

(** C7. Whatever the category string, the thumbnail generator returns a
    value (the other four generators are total functions), and for a
    category outside the six known ones each generator takes its fallback:
    the general script, the clean-design thumbnail concept, the base of
    150000 views, the base difficulty Medium, and the generic call to
    action. *)
Theorem unknown_category_fallbacks
        (idea : ContentIdea.t) (trend_score : Q) (r : rng) :
  let category := ContentIdea.category idea in
  let title := ContentIdea.title idea in
  (exists concept r',
      AIContentGenerator._generate_thumbnail_concept title category r = Ok (concept, r')) /\
  (~ In category known_categories ->
   AIContentGenerator._generate_script_for_idea idea =
     AIContentGenerator._generate_general_script title /\
   AIContentGenerator._generate_thumbnail_concept title category r =
     Ok ("Clean, professional design with clear text" ++
         AIContentGenerator.concept_suffix title, snd (next r)) /\
   AIContentGenerator._estimate_views trend_score category r =
     (int_of_Q (150000 * (1 + trend_score / 100) * fst (uniform (1 # 2) (3 # 2) r)),
      snd (uniform (1 # 2) (3 # 2) r)) /\
   AIContentGenerator._estimate_difficulty category title =
     (if is_complex title then "Hard" else "Medium") /\
   AIContentGenerator._generate_call_to_action category =
     "What are your thoughts? Share them in the comments!").
Proof.
  intros category title. split.
  - unfold AIContentGenerator._generate_thumbnail_concept.
    destruct (choice_nonempty _ r (thumbnail_concepts_nonempty category))
      as (x & _ & ->).
    simpl. eauto.
  - intros Hout.
    destruct known_categories_are_keys as (_ & Kthumb & Kviews & Kdiff & Kcta).
    split; [| split; [| split; [| split]]].
    + unfold AIContentGenerator._generate_script_for_idea. fold category title.
      unfold known_categories in Hout. simpl in Hout.
      repeat match goal with
             | |- context [String.eqb category ?k] =>
                 destruct (String.eqb_spec category k) as [E | _];
                 [exfalso; apply Hout; rewrite E; tauto |]
             end.
      reflexivity.
    + unfold AIContentGenerator._generate_thumbnail_concept.
      rewrite get_outside_keys by now rewrite Kthumb.
      unfold AIContentGenerator.default_concepts, choice, pick.
      destruct (next r) as [n r'].
      change (N.of_nat (List.length ["Clean, professional design with clear text"]))
        with 1%N.
      rewrite N.mod_1_r. reflexivity.
    + unfold AIContentGenerator._estimate_views.
      rewrite get_outside_keys by now rewrite Kviews.
      destruct (uniform (1 # 2) (3 # 2) r) as [u r']. reflexivity.
    + unfold AIContentGenerator._estimate_difficulty.
      rewrite get_outside_keys by now rewrite Kdiff.
      fold (any_in AIContentGenerator.complexity_words (lower title)).
      change (any_in AIContentGenerator.complexity_words (lower title))
        with (is_complex title).
      destruct (is_complex title); reflexivity.
    + unfold AIContentGenerator._generate_call_to_action.
      now rewrite get_outside_keys by now rewrite Kcta.
Qed.

Lemma unknown_category_fallbacks_witness :
  ~ In "interviews" known_categories /\
  AIContentGenerator._generate_script_for_idea
    (ContentIdea.mk 1 "AI Talks" "interviews" [] EmptyString 0 0
                    EmptyString EmptyString [] EmptyString) =
  AIContentGenerator._generate_general_script "AI Talks" /\
  AIContentGenerator._generate_call_to_action "interviews" =
  "What are your thoughts? Share them in the comments!".
Proof.
  assert (Hout : ~ In "interviews" known_categories).
  { unfold known_categories. simpl.
    intros [H | [H | [H | [H | [H | [H | []]]]]]]; discriminate H. }
  split; [exact Hout |].
  pose proof (proj2 (unknown_category_fallbacks
                       (ContentIdea.mk 1 "AI Talks" "interviews" [] EmptyString 0 0
                                       EmptyString EmptyString [] EmptyString)
                       0 []) Hout) as H.
  split; [exact (proj1 H) |].
  exact (proj2 (proj2 (proj2 (proj2 H)))).
Defined.

(** ** The stable descending sort *)

Section SortDesc.
Context {A K : Type} (ltb : K -> K -> bool) (key : A -> K).
Hypothesis ltb_asym : forall a b, ltb a b = true -> ltb b a = false.
Hypothesis ltb_negtrans :
  forall a b c, ltb a b = false -> ltb b c = false -> ltb a c = false.

Lemma insert_desc_perm (x : A) (l : list A) :
  Permutation (insert_desc ltb key x l) (x :: l).
Proof.
  induction l as [|y l IH]; simpl; [reflexivity |].
  destruct (ltb (key x) (key y)); [| reflexivity].
  rewrite IH. apply perm_swap.
Qed.

Lemma sort_desc_perm (l : list A) : Permutation (sort_desc ltb key l) l.
Proof.
  induction l as [|x l IH]; simpl; [reflexivity |].
  rewrite insert_desc_perm. now constructor.
Qed.

Lemma insert_desc_sorted (x : A) (l : list A) :
  StronglySorted (not_above ltb key) l ->
  StronglySorted (not_above ltb key) (insert_desc ltb key x l).
Proof.
  induction 1 as [|y l Hl IH Hy]; simpl.
  - repeat constructor.
  - destruct (ltb (key x) (key y)) eqn:E.
    + constructor; [exact IH |].
      rewrite insert_desc_perm. constructor; [| exact Hy].
      now apply ltb_asym.
    + constructor; [now constructor |].
      constructor; [exact E |].
      rewrite Forall_forall in Hy |- *. intros z Hz.
      apply ltb_negtrans with (b := key y); [exact E | now apply Hy].
Qed.

Lemma sort_desc_sorted (l : list A) :
  StronglySorted (not_above ltb key) (sort_desc ltb key l).
Proof.
  induction l as [|x l IH]; simpl; [constructor |].
  now apply insert_desc_sorted.
Qed.

(** Elements tied with a given key keep their relative order. *)
Lemma insert_desc_stable (k : K) (x : A) (l : list A) :
  filter (fun y => tied ltb (key y) k) (insert_desc ltb key x l) =
  filter (fun y => tied ltb (key y) k) (x :: l).
Proof.
  induction l as [|y l IH]; [reflexivity |].
  cbn [insert_desc]. destruct (ltb (key x) (key y)) eqn:E; [| reflexivity].
  cbn [filter] in *. rewrite IH.
  destruct (tied ltb (key y) k) eqn:Ty; [| reflexivity].
  destruct (tied ltb (key x) k) eqn:Tx; [| reflexivity].
  exfalso. unfold tied in Tx, Ty.
  apply andb_true_iff in Tx as [Tx _], Ty as [_ Ty].
  apply negb_true_iff in Tx, Ty.
  rewrite (ltb_negtrans _ _ _ Tx Ty) in E. discriminate.
Qed.

Lemma sort_desc_stable (k : K) (l : list A) :
  filter (fun y => tied ltb (key y) k) (sort_desc ltb key l) =
  filter (fun y => tied ltb (key y) k) l.
Proof.
  induction l as [|x l IH]; [reflexivity |].
  cbn [sort_desc fold_right]. rewrite insert_desc_stable.
  cbn [filter]. fold (sort_desc ltb key l). now rewrite IH.
Qed.
End SortDesc.

Lemma Zltb_asym (a b : Z) : (a <? b) = true -> (b <? a) = false.
Proof. rewrite Z.ltb_lt, Z.ltb_ge. lia. Qed.

Lemma Zltb_negtrans (a b c : Z) :
  (a <? b) = false -> (b <? c) = false -> (a <? c) = false.
Proof. rewrite !Z.ltb_ge. lia. Qed.

(** ** Floats that are not NaN *)

Lemma shr_1_nonneg (mrs : shr_record) : 0 <= shr_m mrs -> 0 <= shr_m (shr_1 mrs).
Proof.
  destruct mrs as [m r s]. cbn [shr_m].
  destruct m as [|[p | p |] | p]; cbn; lia.
Qed.

Lemma iter_shr_1_nonneg (p : positive) (mrs : shr_record) :
  0 <= shr_m mrs -> 0 <= shr_m (iter_pos shr_1 p mrs).
Proof.
  revert mrs. induction p as [p IH | p IH |]; intros mrs H; cbn [iter_pos].
  - apply IH, IH, shr_1_nonneg, H.
  - apply IH, IH, H.
  - apply shr_1_nonneg, H.
Qed.

Lemma shr_fexp_nonneg (m e : Z) (l : location) :
  0 <= m -> 0 <= shr_m (fst (shr_fexp 53 1024 m e l)).
Proof.
  intros H. unfold shr_fexp, shr.
  assert (H0 : 0 <= shr_m (shr_record_of_loc m l)) by (destruct l as [|[]]; exact H).
  destruct (_ - e) as [|p | p]; cbn [fst]; [exact H0 | | exact H0].
  now apply iter_shr_1_nonneg.
Qed.

Lemma round_nearest_even_nonneg (m : Z) (l : location) :
  0 <= m -> 0 <= round_nearest_even m l.
Proof.
  intros H. destruct l as [|[]]; cbn [round_nearest_even];
    [| destruct (Z.even m) | |]; lia.
Qed.

Lemma binary_round_aux_nonneg (mx ex : Z) (lx : location) :
  0 <= mx -> nonneg (binary_round_aux 53 1024 false mx ex lx) = true.
Proof.
  intros H. unfold binary_round_aux.
  pose proof (shr_fexp_nonneg mx ex lx H) as H1.
  destruct (shr_fexp 53 1024 mx ex lx) as [mrs' e']. cbn [fst] in H1.
  pose proof (shr_fexp_nonneg
                (round_nearest_even (shr_m mrs') (loc_of_shr_record mrs')) e' loc_Exact
                (round_nearest_even_nonneg _ _ H1)) as H2.
  destruct (shr_fexp 53 1024 _ e' loc_Exact) as [mrs'' e'']. cbn [fst] in H2.
  destruct (shr_m mrs'') as [|m | m]; [reflexivity | | lia].
  now destruct (e'' <=? 1024 - 53).
Qed.

Lemma binary_normalize_nonneg (n e : Z) :
  0 <= n -> nonneg (binary_normalize 53 1024 n e false) = true.
Proof.
  intros H. destruct n as [|p | p]; [reflexivity | | lia].
  cbn [binary_normalize]. unfold binary_round.
  destruct (shl_align p e _) as [mz ez]. now apply binary_round_aux_nonneg.
Qed.

Lemma of_int_nonneg (n : Z) : 0 <= n -> nonneg (Binary64.of_int n) = true.
Proof. apply binary_normalize_nonneg. Qed.

Lemma mul_nonneg (x y : spec_float) :
  nonneg x = true -> positive_finite y = true -> nonneg (Binary64.mul x y) = true.
Proof.
  destruct y as [| | |[] my ey]; try discriminate. intros Hx _.
  destruct x as [sx | sx | | sx mx ex]; try discriminate; cbn in Hx |- *.
  - reflexivity.
  - now rewrite xorb_false_r.
  - apply negb_true_iff in Hx. subst sx. cbn [xorb].
    now apply binary_round_aux_nonneg.
Qed.

Lemma div_nonneg (x y : spec_float) :
  nonneg x = true -> positive_finite y = true -> nonneg (Binary64.div x y) = true.
Proof.
  destruct y as [| | |[] my ey]; try discriminate. intros Hx _.
  destruct x as [sx | sx | | sx mx ex]; try discriminate; cbn in Hx.
  - reflexivity.
  - cbn. now rewrite xorb_false_r.
  - apply negb_true_iff in Hx. subst sx.
    unfold Binary64.div, SFdiv, SFdiv_core_binary. cbn [xorb].
    set (s := _ - _ - _).
    set (m' := match s with Z.pos _ => Z.shiftl (Z.pos mx) s | 0 => Z.pos mx | Z.neg _ => 0 end).
    assert (Hm : 0 <= m').
    { unfold m'. destruct s; [lia | | lia]. apply Z.shiftl_nonneg. lia. }
    pose proof (Z.div_pos m' (Z.pos my) Hm ltac:(lia)) as Hq.
    unfold Z.div in Hq. destruct (Z.div_eucl m' (Z.pos my)) as [q r].
    now apply binary_round_aux_nonneg.
Qed.

Lemma add_nonneg (x y : spec_float) :
  nonneg x = true -> nonneg y = true -> nonneg (Binary64.add x y) = true.
Proof.
  destruct x as [sx | sx | | sx mx ex], y as [sy | sy | | sy my ey];
    try discriminate; cbn [nonneg]; intros Hx Hy;
    try (apply negb_true_iff in Hx; subst sx);
    try (apply negb_true_iff in Hy; subst sy);
    try reflexivity.
  - now destruct sx, sy.
  - unfold Binary64.add, SFadd. cbn [cond_Zopp].
    apply binary_normalize_nonneg. lia.
Qed.

Lemma min_nonneg (a b : spec_float) :
  nonneg a = true -> nonneg b = true -> nonneg (Binary64.min a b) = true.
Proof. intros Ha Hb. unfold Binary64.min. now destruct (Binary64.ltb b a). Qed.

Lemma exact_nonneg (n : Z) : 0 <= n -> nonneg (Binary64.exact n) = true.
Proof. destruct n; [reflexivity | reflexivity | lia]. Qed.

Lemma quotient_nonneg (a b : Z) :
  0 <= a -> 1 <= b -> nonneg (Binary64.quotient a b) = true.
Proof.
  intros Ha Hb. unfold Binary64.quotient. apply div_nonneg; [now apply exact_nonneg |].
  destruct b; [lia | reflexivity | lia].
Qed.

Lemma nonneg_not_nan (x : spec_float) : nonneg x = true -> Binary64.is_nan x = false.
Proof. now destruct x. Qed.

(** ** The order of the floats *)

Lemma ltb_place (x y : spec_float) :
  Binary64.is_nan x = false -> Binary64.is_nan y = false ->
  Binary64.ltb x y = below (place x) (place y).
Proof.
  destruct x as [sx | sx | | sx mx ex], y as [sy | sy | | sy my ey];
    try discriminate; intros _ _;
    unfold Binary64.ltb, SFltb, SFcompare;
    try (destruct sx); try (destruct sy); try reflexivity;
    cbn [place below];
    change (Pos.compare_cont Eq ?a ?b) with (Pos.compare a b);
    destruct (Z.compare_spec ex ey) as [-> | H | H];
    try (destruct (Pos.compare_spec mx my) as [-> | H' | H']);
    cbn [CompOpp];
    repeat match goal with
           | |- context [?a <? ?b] => destruct (Z.ltb_spec a b)
           | |- context [?a =? ?b] => destruct (Z.eqb_spec a b)
           end; cbn [orb andb]; try reflexivity; try lia.
Qed.

Lemma eqb_place (x y : spec_float) :
  Binary64.is_nan x = false -> Binary64.is_nan y = false ->
  Binary64.eqb x y = same_place (place x) (place y).
Proof.
  destruct x as [sx | sx | | sx mx ex], y as [sy | sy | | sy my ey];
    try discriminate; intros _ _;
    unfold Binary64.eqb, SFeqb, SFcompare;
    try (destruct sx); try (destruct sy); try reflexivity;
    cbn [place same_place];
    change (Pos.compare_cont Eq ?a ?b) with (Pos.compare a b);
    destruct (Z.compare_spec ex ey) as [-> | H | H];
    try (destruct (Pos.compare_spec mx my) as [-> | H' | H']);
    cbn [CompOpp];
    repeat match goal with
           | |- context [?a =? ?b] => destruct (Z.eqb_spec a b)
           end; cbn [orb andb]; try reflexivity; try lia.
Qed.

Lemma leb_place (x y : spec_float) :
  Binary64.is_nan x = false -> Binary64.is_nan y = false ->
  SFleb x y = negb (below (place y) (place x)).
Proof.
  destruct x as [sx | sx | | sx mx ex], y as [sy | sy | | sy my ey];
    try discriminate; intros _ _;
    unfold SFleb, SFcompare;
    try (destruct sx); try (destruct sy); try reflexivity;
    cbn [place below];
    change (Pos.compare_cont Eq ?a ?b) with (Pos.compare a b);
    destruct (Z.compare_spec ex ey) as [-> | H | H];
    try (destruct (Pos.compare_spec mx my) as [-> | H' | H']);
    cbn [CompOpp];
    repeat match goal with
           | |- context [?a <? ?b] => destruct (Z.ltb_spec a b)
           | |- context [?a =? ?b] => destruct (Z.eqb_spec a b)
           end; cbn [orb andb negb]; try reflexivity; try lia.
Qed.

Ltac order_cases :=
  repeat match goal with
         | a : (Z * Z * Z)%type |- _ => destruct a as [[? ?] ?]
         end;
  cbn [below same_place];
  repeat match goal with
         | |- context [?a <? ?b] => destruct (Z.ltb_spec a b)
         | |- context [?a =? ?b] => destruct (Z.eqb_spec a b)
         end; cbn [orb andb negb]; intros; try reflexivity; try discriminate; try lia.

Lemma below_asym (a b : Z * Z * Z) : below a b = true -> below b a = false.
Proof. order_cases. Qed.

Lemma below_negtrans (a b c : Z * Z * Z) :
  below a b = false -> below b c = false -> below a c = false.
Proof. order_cases. Qed.

Lemma below_tied (a b : Z * Z * Z) :
  negb (below a b) && negb (below b a) = same_place a b.
Proof. order_cases. Qed.

(** ** Sorting on float keys *)

Lemma StronglySorted_within {A : Type} (R R' : A -> A -> Prop) (l : list A) :
  (forall x y, In x l -> In y l -> R x y -> R' x y) ->
  StronglySorted R l -> StronglySorted R' l.
Proof.
  intros H S. induction S as [|a l Sl IH Ha]; constructor.
  - apply IH. intros x y Hx Hy. apply H; now right.
  - rewrite Forall_forall in Ha |- *. intros y Hy.
    apply H; [now left | now right | now apply Ha].
Qed.

Lemma filter_none {A : Type} (l : list A) : filter (fun _ => false) l = [].
Proof. induction l as [|a l IH]; [reflexivity | exact IH]. Qed.

Section SortWithin.
Context {A K : Type} (ltb ltb' : K -> K -> bool) (key : A -> K) (P : K -> Prop).
Hypothesis agree : forall a b, P a -> P b -> ltb a b = ltb' a b.

Lemma insert_desc_within (x : A) (l : list A) :
  P (key x) -> Forall (fun y => P (key y)) l ->
  insert_desc ltb key x l = insert_desc ltb' key x l.
Proof.
  intros Hx Hl. induction Hl as [|y l Hy Hl IH]; [reflexivity |].
  cbn [insert_desc]. rewrite (agree _ _ Hx Hy), IH. reflexivity.
Qed.

Lemma sort_desc_within (l : list A) :
  Forall (fun y => P (key y)) l -> sort_desc ltb key l = sort_desc ltb' key l.
Proof.
  induction 1 as [|x l Hx Hl IH]; [reflexivity |].
  cbn [sort_desc fold_right]. fold (sort_desc ltb key l). fold (sort_desc ltb' key l).
  rewrite IH. apply insert_desc_within; [exact Hx |].
  eapply Permutation_Forall; [symmetry; apply sort_desc_perm | exact Hl].
Qed.
End SortWithin.

(** On keys that are not NaN the sort on floats gives a permutation in
    descending order in which entries with equal keys keep their order. *)
Lemma sort_on_floats {A : Type} (key : A -> spec_float) (l : list A) :
  Forall (fun x => Binary64.is_nan (key x) = false) l ->
  Permutation (sort_desc Binary64.ltb key l) l /\
  StronglySorted (fun x y => SFleb (key y) (key x) = true)
                 (sort_desc Binary64.ltb key l) /\
  (forall score : spec_float,
      filter (fun x => Binary64.eqb (key x) score) (sort_desc Binary64.ltb key l) =
      filter (fun x => Binary64.eqb (key x) score) l).
Proof.
  intros H.
  set (ltb' := fun a b : spec_float => below (place a) (place b)).
  assert (E : sort_desc Binary64.ltb key l = sort_desc ltb' key l).
  { apply sort_desc_within with (P := fun k => Binary64.is_nan k = false);
      [| exact H]. intros a b Ha Hb. now apply ltb_place. }
  assert (Hasym : forall a b, ltb' a b = true -> ltb' b a = false)
    by (intros a b; apply below_asym).
  assert (Hneg : forall a b c, ltb' a b = false -> ltb' b c = false -> ltb' a c = false)
    by (intros a b c; apply below_negtrans).
  pose proof (sort_desc_perm ltb' key l) as P.
  assert (Hs : Forall (fun x => Binary64.is_nan (key x) = false) (sort_desc ltb' key l))
    by (eapply Permutation_Forall; [symmetry; exact P | exact H]).
  rewrite E. split; [exact P | split].
  - apply StronglySorted_within with (R := not_above ltb' key);
      [| now apply sort_desc_sorted].
    rewrite Forall_forall in Hs. intros x y Hx Hy Hxy.
    rewrite leb_place by (apply Hs; assumption).
    unfold not_above, ltb' in Hxy. now rewrite Hxy.
  - intros score. destruct (Binary64.is_nan score) eqn:N.
    + destruct score; try discriminate.
      assert (Z : forall l', filter (fun x => Binary64.eqb (key x) S754_nan) l' = []).
      { intros l'. rewrite <- (filter_none l'). apply filter_ext.
        intros a. unfold Binary64.eqb, SFeqb, SFcompare. now destruct (key a). }
      now rewrite !Z.
    + assert (T : forall a, Binary64.is_nan (key a) = false ->
                            Binary64.eqb (key a) score = tied ltb' (key a) score).
      { intros a Ha. unfold tied, ltb'. now rewrite below_tied, eqb_place. }
      rewrite Forall_forall in H, Hs.
      rewrite (filter_ext_in _ (fun x => tied ltb' (key x) score))
        by (intros a Ha; apply T, Hs, Ha).
      rewrite (filter_ext_in _ (fun x => tied ltb' (key x) score) l)
        by (intros a Ha; apply T, H, Ha).
      now apply sort_desc_stable.
Qed.

(** ** The influencer ranking (C1) *)

Section Ranking.
Variable now : Z.
Variable fromisoformat : string -> option Z.

Lemma filter_influencers_map_filter (channel_stats : list Channel.t) :
  AIInfluencerFinder.filter_influencers now fromisoformat channel_stats =
  map (enrich now fromisoformat) (filter admitted channel_stats).
Proof.
  induction channel_stats as [|c l IH]; [reflexivity |].
  cbn [AIInfluencerFinder.filter_influencers filter]. fold (admitted c).
  destruct (admitted c); cbn [map]; now rewrite IH.
Qed.

Lemma growth_score_binary64_nonneg (c : Channel.t) :
  0 <= Channel.video_count c -> 0 <= Channel.view_count c ->
  nonneg (AIInfluencerFinder._calculate_growth_score_binary64 now fromisoformat c) = true.
Proof.
  intros Hvideos Hviews.
  unfold AIInfluencerFinder._calculate_growth_score_binary64,
    AIInfluencerFinder.growth_score_try_binary64.
  destruct (AIInfluencerFinder.days_since now fromisoformat (Channel.published_at c))
    as [days | e]; cbn [bind]; [| reflexivity].
  destruct (Z.ltb_spec 0 days) as [Hdays | Hdays]; [| reflexivity].
  unfold Binary64.truediv.
  destruct (Z.eqb_spec days 0) as [-> | _]; [lia |].
  pose proof (quotient_nonneg (Channel.video_count c) days Hvideos ltac:(lia)) as Hq1.
  destruct (Binary64.is_infinite (Binary64.quotient (Channel.video_count c) days));
    cbn [bind]; [reflexivity |].
  rewrite max_Z_max.
  destruct (Z.eqb_spec (Z.max (Channel.video_count c) 1) 0) as [E | _]; [lia |].
  pose proof (quotient_nonneg (Channel.view_count c) (Z.max (Channel.video_count c) 1)
                              Hviews ltac:(lia)) as Hq2.
  destruct (Binary64.is_infinite (Binary64.quotient (Channel.view_count c) _));
    cbn [bind]; [reflexivity |].
  apply min_nonneg; [| reflexivity].
  apply add_nonneg; [| now apply div_nonneg].
  apply mul_nonneg; [| reflexivity]. now apply mul_nonneg.
Qed.

Lemma relevance_score_nonneg (c : Channel.t) :
  0 <= AIInfluencerFinder._calculate_ai_relevance_score c.
Proof.
  unfold AIInfluencerFinder._calculate_ai_relevance_score.
  rewrite !add_matches_count, min_Z_min. lia.
Qed.

Lemma combined_score_nonneg (c : Channel.t) :
  admitted c = true -> 0 <= Channel.video_count c -> 0 <= Channel.view_count c ->
  nonneg (AIInfluencerFinder.combined_score now fromisoformat
                                            (enrich now fromisoformat c)) = true.
Proof.
  intros Ha Hvideos Hviews. unfold admitted in Ha.
  apply andb_true_iff in Ha as [Hs _]. apply Z.leb_le in Hs.
  unfold config.MIN_SUBSCRIBER_COUNT in Hs.
  unfold AIInfluencerFinder.combined_score, enrich.
  cbn [Influencer.stats Influencer.ai_relevance_score].
  repeat apply add_nonneg; (apply mul_nonneg; [| reflexivity]).
  - apply of_int_nonneg. lia.
  - now apply growth_score_binary64_nonneg.
  - apply of_int_nonneg, relevance_score_nonneg.
Qed.

Lemma ranking_spec (channel_stats : list Channel.t) :
  Forall receivable channel_stats ->
  Permutation (ranking now fromisoformat channel_stats)
              (map (enrich now fromisoformat) (filter admitted channel_stats)) /\
  StronglySorted
    (fun x y => SFleb (AIInfluencerFinder.combined_score now fromisoformat y)
                      (AIInfluencerFinder.combined_score now fromisoformat x) = true)
    (ranking now fromisoformat channel_stats) /\
  (forall score : spec_float,
      filter (fun x => Binary64.eqb
                         (AIInfluencerFinder.combined_score now fromisoformat x) score)
             (ranking now fromisoformat channel_stats) =
      filter (fun x => Binary64.eqb
                         (AIInfluencerFinder.combined_score now fromisoformat x) score)
             (map (enrich now fromisoformat) (filter admitted channel_stats))).
Proof.
  intros H. unfold ranking. rewrite filter_influencers_map_filter.
  apply sort_on_floats. apply Forall_forall. intros x Hx.
  apply in_map_iff in Hx as (c & <- & Hc). apply filter_In in Hc as [Hc Ha].
  rewrite Forall_forall in H. destruct (H c Hc) as (Hvideos & Hviews & _).
  now apply nonneg_not_nan, combined_score_nonneg.
Qed.

(** A negative [limit] makes the slice drop entries from the end. *)
Lemma find_ai_influencers_negative_limit (channel_stats : list Channel.t) (limit : Z) :
  limit < 0 ->
  AIInfluencerFinder.find_ai_influencers now fromisoformat channel_stats limit =
  firstn (List.length (ranking now fromisoformat channel_stats) - Z.to_nat (- limit))
         (ranking now fromisoformat channel_stats).
Proof.
  intros H. unfold AIInfluencerFinder.find_ai_influencers, slice_to.
  fold (ranking now fromisoformat channel_stats).
  destruct (Z.ltb_spec limit 0); [| lia].
  f_equal. lia.
Qed.
End Ranking.

(** The order is that of the floats.  The two channels of [Tie] have the
    same composite score in exact arithmetic; in binary64 the score of the
    second is the greater by one unit in the last place, and the ranking
    puts the second channel first. *)
Lemma ranking_follows_the_floats :
  (exact_combined_score Example.now Example.fromisoformat Tie.first_channel ==
   exact_combined_score Example.now Example.fromisoformat Tie.second_channel)%Q /\
  Binary64.ltb
    (AIInfluencerFinder.combined_score
       Example.now Example.fromisoformat
       (enrich Example.now Example.fromisoformat Tie.first_channel))
    (AIInfluencerFinder.combined_score
       Example.now Example.fromisoformat
       (enrich Example.now Example.fromisoformat Tie.second_channel)) = true /\
  ids (AIInfluencerFinder.find_ai_influencers
         Example.now Example.fromisoformat
         [Tie.first_channel; Tie.second_channel] 2) = ["UC2"; "UC1"].
Proof.
  split; [| split]; [| vm_compute; reflexivity | vm_compute; reflexivity].
  apply Qeq_bool_iff. vm_compute. reflexivity.
Qed.

(** C1, as amended.  For every list of channel records whose counts are
    receivable and every limit that is not negative, [find_ai_influencers]
    returns the first [limit] entries of a ranking that holds exactly the
    channels passing the subscriber threshold and the AI-relevance gate,
    each with its growth and relevance scores, in descending order of the
    float
    subscriber_count * 0.4 + growth_score * 0.3 + ai_relevance_score * 0.3
    as the code computes it in binary64, channels whose floats are equal
    keeping their order in the input. *)
Theorem influencer_ranking (now : Z) (fromisoformat : string -> option Z)
        (channel_stats : list Channel.t) (limit : Z) :
  0 <= limit ->
  Forall receivable channel_stats ->
  let score := AIInfluencerFinder.combined_score now fromisoformat in
  (forall x,
      score x =
      Binary64.add
        (Binary64.add
           (Binary64.mul
              (Binary64.of_int (Channel.subscriber_count (Influencer.stats x)))
              (Binary64.literal 4 10))
           (Binary64.mul
              (AIInfluencerFinder._calculate_growth_score_binary64
                 now fromisoformat (Influencer.stats x))
              (Binary64.literal 3 10)))
        (Binary64.mul (Binary64.of_int (Influencer.ai_relevance_score x))
                      (Binary64.literal 3 10))) /\
  exists ranked : list Influencer.t,
    AIInfluencerFinder.find_ai_influencers now fromisoformat channel_stats limit =
      firstn (Z.to_nat limit) ranked /\
    Permutation ranked
                (map (enrich now fromisoformat) (filter admitted channel_stats)) /\
    StronglySorted (fun x y => SFleb (score y) (score x) = true) ranked /\
    (forall value : spec_float,
        filter (fun x => Binary64.eqb (score x) value) ranked =
        filter (fun x => Binary64.eqb (score x) value)
               (map (enrich now fromisoformat) (filter admitted channel_stats))).
Proof.
  intros Hlimit Hcounts. cbn zeta. split; [reflexivity |].
  exists (ranking now fromisoformat channel_stats).
  split; [| now apply ranking_spec].
  unfold AIInfluencerFinder.find_ai_influencers, slice_to.
  destruct (Z.ltb_spec limit 0); [lia | reflexivity].
Qed.

Lemma influencer_ranking_witness :
  0 <= 2 /\
  Forall receivable example_channels /\
  ids (AIInfluencerFinder.find_ai_influencers
         Example.now Example.fromisoformat example_channels 2) = ["UC2"; "UC1"] /\
  exists ranked : list Influencer.t,
    AIInfluencerFinder.find_ai_influencers
      Example.now Example.fromisoformat example_channels 2 = firstn 2 ranked /\
    Permutation ranked
                (map (enrich Example.now Example.fromisoformat)
                     (filter admitted example_channels)) /\
    StronglySorted
      (fun x y =>
         SFleb (AIInfluencerFinder.combined_score Example.now Example.fromisoformat y)
               (AIInfluencerFinder.combined_score Example.now Example.fromisoformat x)
         = true)
      ranked.
Proof.
  assert (H : 0 <= 2) by lia.
  assert (Hcounts : Forall receivable example_channels)
    by (repeat constructor; vm_compute; congruence).
  split; [exact H | split; [exact Hcounts | split; [vm_compute; reflexivity |]]].
  destruct (influencer_ranking Example.now Example.fromisoformat example_channels 2
                               H Hcounts)
    as (_ & ranked & Hfind & Hperm & Hsorted & _).
  exists ranked. split; [exact Hfind | split; [exact Hperm | exact Hsorted]].
Defined.

(** C1 as it is stated fails for a negative limit: with three admitted
    channels and [limit = -1] the code returns the first two channels of the
    ranking, not an empty list. *)
Lemma influencer_ranking_negative_limit_counterexample :
  ids (AIInfluencerFinder.find_ai_influencers
         Example.now Example.fromisoformat example_channels (-1)) = ["UC2"; "UC1"] /\
  AIInfluencerFinder.find_ai_influencers
    Example.now Example.fromisoformat example_channels (-1) <>
  firstn (Z.to_nat (-1)) (ranking Example.now Example.fromisoformat example_channels).
Proof.
  split; [vm_compute; reflexivity |].
  intros H. apply (f_equal (@List.length Influencer.t)) in H.
  vm_compute in H. discriminate H.
Qed.

(** ** Hashtag selection (C6) *)

Lemma mem_In (x : string) (xs : list string) : mem x xs = true <-> In x xs.
Proof.
  unfold mem. rewrite existsb_exists. split.
  - intros (y & Hy & E). apply String.eqb_eq in E. now subst.
  - intros H. exists x. split; [exact H | apply String.eqb_refl].
Qed.

Lemma mem_not_In (x : string) (xs : list string) : mem x xs = false <-> ~ In x xs.
Proof. rewrite <- mem_In. destruct (mem x xs); intuition congruence. Qed.

Lemma keys_set {V : Type} (d : dict V) (k : string) (v : V) :
  keys (set d k v) = if mem k (keys d) then keys d else (keys d ++ [k])%list.
Proof.
  induction d as [|[k' v'] d IH]; [reflexivity |].
  unfold keys in *. simpl.
  destruct (String.eqb k k') eqn:E; simpl; [reflexivity |].
  rewrite IH. now destruct (mem k (map fst d)).
Qed.

Lemma score_loop_keys (title_lower : string) (hashtags : list string) (acc : dict Z) :
  let d := fold_left
             (fun hashtag_scores hashtag =>
                let score := AIContentGenerator.hashtag_score title_lower hashtag in
                if 0 <? score then set hashtag_scores hashtag score
                else hashtag_scores)
             hashtags acc in
  (NoDup (keys acc) -> NoDup (keys d)) /\
  (forall h, In h (keys d) <-> In h (keys acc) \/ In h (scored title_lower hashtags)).
Proof.
  revert acc. induction hashtags as [|x l IH]; intros acc; cbn zeta.
  - simpl. split; [auto | intros h; tauto].
  - cbn [fold_left]. unfold scored. cbn [filter]. fold (scored title_lower l).
    destruct (0 <? AIContentGenerator.hashtag_score title_lower x) eqn:E.
    + destruct (IH (set acc x (AIContentGenerator.hashtag_score title_lower x)))
        as [IHnd IHin].
      rewrite keys_set in IHnd, IHin.
      destruct (mem x (keys acc)) eqn:M.
      * split; [exact IHnd |]. intros h. rewrite IHin. simpl.
        apply mem_In in M. intuition (subst; auto).
      * split.
        -- intros ND. apply IHnd. apply NoDup_app; [exact ND | repeat constructor; auto |].
           intros a Ha [<- | []]. apply mem_not_In in M. contradiction.
        -- intros h. rewrite IHin, in_app_iff. simpl. tauto.
    + apply IH.
Qed.

Lemma score_hashtags_keys (title_lower : string) (hashtags : list string) :
  NoDup (keys (AIContentGenerator.score_hashtags title_lower hashtags)) /\
  (forall h, In h (keys (AIContentGenerator.score_hashtags title_lower hashtags)) <->
             In h (scored title_lower hashtags)).
Proof.
  destruct (score_loop_keys title_lower hashtags []) as [Hnd Hin].
  split; [apply Hnd; constructor |].
  intros h. unfold AIContentGenerator.score_hashtags. rewrite Hin. simpl. tauto.
Qed.

Lemma fresh_snoc (relevant popular : list string) (x : string) :
  ~ In x popular -> fresh (relevant ++ [x])%list popular = fresh relevant popular.
Proof.
  intros Hx. unfold fresh. apply filter_ext_in. intros h Hh. f_equal.
  unfold mem. rewrite existsb_app. simpl.
  destruct (String.eqb_spec h x) as [-> | _]; [contradiction |].
  now rewrite !orb_false_r.
Qed.

Lemma pad_length_upper (relevant popular : list string) :
  (List.length (AIContentGenerator.pad_hashtags relevant popular)
   <= Nat.max (List.length relevant) 8)%nat.
Proof.
  revert relevant. induction popular as [|h popular IH]; intros relevant;
    cbn [AIContentGenerator.pad_hashtags].
  - lia.
  - destruct (Nat.ltb_spec (List.length relevant) 8); [| lia].
    etransitivity; [apply IH |].
    destruct (mem h relevant); [lia |].
    rewrite length_app. cbn [List.length]. lia.
Qed.

Lemma pad_length_mono (relevant popular : list string) :
  (List.length relevant
   <= List.length (AIContentGenerator.pad_hashtags relevant popular))%nat.
Proof.
  revert relevant. induction popular as [|h popular IH]; intros relevant;
    cbn [AIContentGenerator.pad_hashtags].
  - lia.
  - destruct (Nat.ltb_spec (List.length relevant) 8); [| lia].
    etransitivity; [| apply IH].
    destruct (mem h relevant); [lia |].
    rewrite length_app. cbn [List.length]. lia.
Qed.

Lemma pad_length_lower (relevant popular : list string) :
  NoDup popular ->
  (Nat.min 8 (List.length relevant + List.length (fresh relevant popular))
   <= List.length (AIContentGenerator.pad_hashtags relevant popular))%nat.
Proof.
  intros ND. revert relevant.
  induction ND as [|h popular Hh ND IH]; intros relevant;
    cbn [AIContentGenerator.pad_hashtags].
  - unfold fresh. cbn [filter List.length]. lia.
  - destruct (Nat.ltb_spec (List.length relevant) 8); [| lia].
    unfold fresh at 1. cbn [filter]. fold (fresh relevant popular).
    destruct (mem h relevant) eqn:M; cbn [negb].
    + apply IH.
    + etransitivity; [| apply IH].
      rewrite fresh_snoc by exact Hh. rewrite length_app. cbn [List.length]. lia.
Qed.

Lemma distinct_count (relevant pool popular : list string) :
  NoDup relevant -> NoDup popular ->
  (forall h, In h relevant <-> In h pool) ->
  List.length (nodup string_dec (pool ++ popular)%list) =
  (List.length relevant + List.length (fresh relevant popular))%nat.
Proof.
  intros NDr NDp Hsame. rewrite <- length_app.
  apply Permutation_length, NoDup_Permutation.
  - apply NoDup_nodup.
  - apply NoDup_app; [exact NDr | now apply NoDup_filter |].
    intros a Ha Hf. apply filter_In in Hf as [_ Hf].
    apply negb_true_iff, mem_not_In in Hf. contradiction.
  - intros x. rewrite nodup_In, !in_app_iff. unfold fresh.
    rewrite filter_In, negb_true_iff, mem_not_In, <- Hsame.
    destruct (in_dec string_dec x relevant); tauto.
Qed.

Lemma popular_ai_hashtags_NoDup : NoDup AIContentGenerator.popular_ai_hashtags.
Proof. apply nodup_fixpoint_NoDup. reflexivity. Qed.

(** C6. Hashtag selection returns at most 15 hashtags, and at least 8 when
    the positively scored hashtags of the input and the six popular AI
    hashtags together hold at least 8 distinct strings. *)
Theorem hashtag_selection_size (title : string) (hashtags : list string) :
  let selected := AIContentGenerator._select_hashtags_for_topic title hashtags 15 in
  (List.length selected <= 15)%nat /\
  ((8 <= List.length
           (nodup string_dec
                  (scored (lower title) hashtags ++
                   ["#AI"; "#MachineLearning"; "#Tech"; "#Programming";
                    "#Tutorial"; "#Coding"])%list))%nat ->
   (8 <= List.length selected)%nat).
Proof.
  cbn zeta. unfold AIContentGenerator._select_hashtags_for_topic.
  set (d := AIContentGenerator.score_hashtags (lower title) hashtags).
  set (sorted := sort_desc Z.ltb snd d).
  set (relevant := map fst (slice_to sorted 15)).
  assert (Hslice : slice_to sorted 15 = firstn 15 sorted) by reflexivity.
  assert (Hlen : List.length relevant = Nat.min 15 (List.length d)).
  { unfold relevant. rewrite length_map, Hslice, length_firstn.
    unfold sorted. now rewrite (Permutation_length (sort_desc_perm Z.ltb snd d)). }
  split.
  - etransitivity; [apply pad_length_upper |]. lia.
  - intros Hpool.
    destruct (Nat.le_gt_cases (List.length d) 15) as [Hsmall | Hbig].
    + assert (Hperm : Permutation relevant (keys d)).
      { unfold relevant, keys. rewrite Hslice, firstn_all2.
        - apply Permutation_map, sort_desc_perm.
        - unfold sorted.
          now rewrite (Permutation_length (sort_desc_perm Z.ltb snd d)). }
      destruct (score_hashtags_keys (lower title) hashtags) as [NDk Hin].
      fold d in NDk, Hin.
      assert (NDr : NoDup relevant)
        by (apply Permutation_NoDup with (keys d); [now symmetry | exact NDk]).
      rewrite (distinct_count relevant) in Hpool;
        [| exact NDr | exact popular_ai_hashtags_NoDup
         | intros h; rewrite <- Hin; split; apply Permutation_in;
           [exact Hperm | now symmetry]].
      etransitivity;
        [| apply pad_length_lower, popular_ai_hashtags_NoDup].
      change AIContentGenerator.popular_ai_hashtags
        with ["#AI"; "#MachineLearning"; "#Tech"; "#Programming"; "#Tutorial"; "#Coding"].
      lia.
    + etransitivity; [| apply pad_length_mono]. lia.
Qed.

Lemma hashtag_selection_size_witness :
  (8 <= List.length
          (nodup string_dec
                 (scored (lower "AI vs ML") ["#ai"; "#ml"; "#cats"] ++
                  ["#AI"; "#MachineLearning"; "#Tech"; "#Programming";
                   "#Tutorial"; "#Coding"])%list))%nat /\
  AIContentGenerator._select_hashtags_for_topic "AI vs ML" ["#ai"; "#ml"; "#cats"] 15 =
  ["#ai"; "#ml"; "#AI"; "#MachineLearning"; "#Tech"; "#Programming";
   "#Tutorial"; "#Coding"] /\
  (8 <= List.length
          (AIContentGenerator._select_hashtags_for_topic
             "AI vs ML" ["#ai"; "#ml"; "#cats"] 15))%nat.
Proof.
  assert (H : (8 <= List.length
                      (nodup string_dec
                             (scored (lower "AI vs ML") ["#ai"; "#ml"; "#cats"] ++
                              ["#AI"; "#MachineLearning"; "#Tech"; "#Programming";
                               "#Tutorial"; "#Coding"])%list))%nat)
    by (vm_compute; lia).
  split; [exact H | split; [vm_compute; reflexivity |]].
  exact (proj2 (hashtag_selection_size "AI vs ML" ["#ai"; "#ml"; "#cats"]) H).
Defined.

(** ** Title generation (C10) *)

Lemma opens_app (a b : string) : opens (a ++ b) = (opens a + opens b)%nat.
Proof. induction a as [|c a IH]; simpl; [reflexivity | rewrite IH; lia]. Qed.

Lemma opens_le_length (s : string) : (opens s <= String.length s)%nat.
Proof.
  induction s as [|c s IH]; simpl; [lia |].
  destruct (Ascii.eqb c "{"); lia.
Qed.

Lemma prefix_placeholder (s : string) :
  prefix "{}" s = true -> exists s', s = String "{" (String "}" s').
Proof.
  destruct s as [|c [|d s']]; cbn [prefix].
  - discriminate.
  - destruct (ascii_dec "{" c); discriminate.
  - destruct (ascii_dec "{" c) as [<- |]; [| discriminate].
    destruct (ascii_dec "}" d) as [<- |]; [| discriminate].
    intros _. now exists s'.
Qed.

Lemma contains_step (sub : string) (c : ascii) (s : string) :
  contains sub (String c s) =
  if prefix sub (String c s) then true else contains sub s.
Proof. reflexivity. Qed.

Lemma replace_first_step (old new : string) (c : ascii) (s : string) :
  replace_first old new (String c s) =
  if prefix old (String c s) then new ++ drop (String.length old) (String c s)
  else String c (replace_first old new s).
Proof. reflexivity. Qed.

Lemma replace_placeholder_opens (new s : string) :
  contains "{}" s = true ->
  (opens (replace_first "{}" new s) + 1 = opens s + opens new)%nat.
Proof.
  induction s as [|c s IH]; [discriminate |].
  rewrite contains_step, replace_first_step.
  destruct (prefix "{}" (String c s)) eqn:P.
  - intros _. apply prefix_placeholder in P as (s' & E).
    injection E as -> ->. rewrite opens_app. simpl. lia.
  - intros H. specialize (IH H). cbn [opens]. lia.
Qed.

Lemma choice_in_pool {A : Type} (pool : list A) (r : rng) :
  pool <> [] -> exists x r', In x pool /\ choice pool r = Ok (x, r').
Proof.
  intros H. destruct (choice_nonempty pool r H) as (x & Hx & E). eauto.
Qed.

Lemma fill_one_progress (title : string) (r : rng) :
  contains "{}" title = true ->
  exists title' r',
    AIContentGenerator.fill_one title r = Ok (title', r') /\
    (opens title' + 1 = opens title)%nat.
Proof.
  intros H. unfold AIContentGenerator.fill_one.
  destruct (contains "minutes" (lower title) || contains "steps" (lower title));
    [| destruct (contains "days" (lower title));
       [| destruct (contains "months" (lower title))]];
    match goal with
    | |- context [choice ?pool r] =>
        destruct (choice_in_pool pool r ltac:(discriminate)) as (x & r' & Hx & ->)
    end;
    cbn [bind fst snd]; eexists; eexists; (split; [reflexivity |]);
    rewrite (replace_placeholder_opens _ _ H);
    match goal with
    | |- (_ + opens ?new = _)%nat =>
        assert (opens new = O) as -> by (simpl in Hx; intuition (subst; reflexivity))
    end; lia.
Qed.

Lemma fill_remaining_ends (rounds : nat) (title : string) (r : rng) :
  (opens title <= rounds)%nat ->
  exists title' r',
    AIContentGenerator.fill_remaining rounds title r = Ok (title', r') /\
    contains "{}" title' = false.
Proof.
  revert title r. induction rounds as [|rounds IH]; intros title r Hm;
    cbn [AIContentGenerator.fill_remaining];
    destruct (contains "{}" title) eqn:C; eauto.
  - exfalso. induction title as [|c s IHs]; [discriminate |].
    rewrite contains_step in C. destruct (prefix "{}" (String c s)) eqn:P.
    + apply prefix_placeholder in P as (s' & E). rewrite E in Hm. simpl in Hm. lia.
    + apply IHs; [| exact C]. cbn [opens] in Hm. lia.
  - destruct (fill_one_progress title r C) as (title' & r' & -> & Hopens).
    cbn [bind fst snd]. apply IH. lia.
Qed.

Lemma title_generation_ends (template : string) (topics : list string) (r : rng) :
  exists title r',
    AIContentGenerator._generate_title_from_template template topics r = Ok (title, r') /\
    contains "{}" title = false.
Proof.
  unfold AIContentGenerator._generate_title_from_template.
  destruct (count "{}" template =? 0)%nat eqn:E.
  - exists template, r. split; [reflexivity |].
    apply Nat.eqb_eq in E. clear topics r.
    induction template as [|c s IH]; [reflexivity |].
    rewrite contains_step. cbn [count] in E.
    destruct (prefix "{}" (String c s)); [discriminate | apply IH; lia].
  - destruct (sample topics _ r) as [selected r1].
    apply fill_remaining_ends, opens_le_length.
Qed.

Lemma templates_of_category (category : string) :
  In category (keys AIContentGenerator.content_templates) ->
  exists templates,
    subscript AIContentGenerator.content_templates category = Ok templates /\
    templates <> [].
Proof.
  simpl. intros [<- | [<- | [<- | [<- | [<- | [<- | []]]]]]];
    eexists; (split; [reflexivity | discriminate]).
Qed.

Lemma replace_first_absent (old new s : string) :
  contains old s = false -> replace_first old new s = s.
Proof.
  induction s as [|c s IH].
  - cbn [contains replace_first]. now destruct (prefix old EmptyString).
  - rewrite contains_step, replace_first_step.
    destruct (prefix old (String c s)); [discriminate |].
    intros H. now rewrite IH.
Qed.

Lemma fill_topics_topic_filled (selected : list string) (template : string) :
  AIContentGenerator.fill_topics selected template = topic_filled selected template.
Proof.
  unfold AIContentGenerator.fill_topics, topic_filled. revert template.
  induction selected as [|topic rest IH]; intros template; [reflexivity |].
  cbn [fold_left]. rewrite <- IH.
  destruct (contains "{}" template) eqn:C; [reflexivity |].
  now rewrite (replace_first_absent _ _ _ C).
Qed.

Lemma pool_filled_ends (title title' : string) :
  pool_filled title title' -> contains "{}" title' = false.
Proof. induction 1; assumption. Qed.

Lemma fill_one_from_pool (title : string) (r : rng) :
  contains "{}" title = true ->
  exists x r',
    In x (pool_for title) /\
    AIContentGenerator.fill_one title r = Ok (replace_first "{}" x title, r') /\
    (opens (replace_first "{}" x title) + 1 = opens title)%nat.
Proof.
  intros H. unfold AIContentGenerator.fill_one, pool_for.
  destruct (contains "minutes" (lower title) || contains "steps" (lower title));
    [| destruct (contains "days" (lower title));
       [| destruct (contains "months" (lower title))]];
    match goal with
    | |- context [choice ?pool r] =>
        destruct (choice_in_pool pool r ltac:(discriminate)) as (x & r' & Hx & ->)
    end;
    cbn [bind fst snd];
    [exists (str x), r' | exists (str x), r' | exists (str x), r' | exists x, r'];
    (split; [first [now apply in_map | exact Hx] |]);
    (split; [reflexivity |]);
    rewrite (replace_placeholder_opens _ _ H);
    match goal with
    | |- (_ + opens ?new = _)%nat =>
        assert (opens new = O) as -> by (simpl in Hx; intuition (subst; reflexivity))
    end; lia.
Qed.

Lemma placeholder_opens (title : string) :
  contains "{}" title = true -> (1 <= opens title)%nat.
Proof.
  induction title as [|c s IHs]; [discriminate |].
  rewrite contains_step. destruct (prefix "{}" (String c s)) eqn:P.
  - intros _. apply prefix_placeholder in P as (s' & E). rewrite E. simpl. lia.
  - intros H. specialize (IHs H). cbn [opens]. lia.
Qed.

Lemma fill_remaining_from_pool (rounds : nat) (title : string) (r : rng) :
  (opens title <= rounds)%nat ->
  exists title' r',
    AIContentGenerator.fill_remaining rounds title r = Ok (title', r') /\
    pool_filled title title'.
Proof.
  revert title r. induction rounds as [|rounds IH]; intros title r Hm;
    cbn [AIContentGenerator.fill_remaining];
    destruct (contains "{}" title) eqn:C;
    try (exists title, r; split; [reflexivity | now constructor]).
  - apply placeholder_opens in C. lia.
  - destruct (fill_one_from_pool title r C) as (x & r1 & Hx & -> & Hopens).
    cbn [bind fst snd].
    destruct (IH (replace_first "{}" x title) r1 ltac:(lia)) as (title' & r' & -> & Hp).
    exists title', r'. split; [reflexivity |].
    now apply pool_filled_step with x.
Qed.

Lemma nth_remove_nth {A : Type} (i : nat) (l : list A) (d : A) :
  (i < List.length l)%nat -> Permutation (nth i l d :: remove_nth i l) l.
Proof.
  revert i. induction l as [|a l IH]; intros i Hi; [simpl in Hi; lia |].
  destruct i as [|i]; cbn [nth remove_nth]; [reflexivity |].
  rewrite perm_swap. constructor. apply IH. simpl in Hi. lia.
Qed.

Lemma pick_in_range (n : N) (len : nat) : (0 < len)%nat -> (pick n len < len)%nat.
Proof.
  intros H. unfold pick.
  assert (N.of_nat len <> 0%N) as Hne by lia.
  pose proof (N.mod_lt n _ Hne). lia.
Qed.

Lemma sample_drawn {A : Type} (l : list A) (k : nat) (r : rng) :
  List.length (fst (sample l k r)) = Nat.min k (List.length l) /\
  exists rest, Permutation (fst (sample l k r) ++ rest)%list l.
Proof.
  revert l r. induction k as [|k IH]; intros l r.
  - split; [reflexivity | now exists l].
  - destruct l as [|d l']; [split; [reflexivity | now exists []] |].
    cbn [sample]. destruct (next r) as [n r1].
    set (i := pick n (List.length (d :: l'))).
    assert (Hi : (i < List.length (d :: l'))%nat) by (apply pick_in_range; simpl; lia).
    pose proof (nth_remove_nth i (d :: l') d Hi) as Hperm.
    destruct (IH (remove_nth i (d :: l')) r1) as [Hlen (rest & Hrest)].
    destruct (sample (remove_nth i (d :: l')) k r1) as [chosen r2].
    cbn [fst] in *. split.
    + cbn [List.length]. rewrite Hlen.
      apply Permutation_length in Hperm. cbn [List.length] in Hperm. lia.
    + exists rest. cbn [app]. rewrite Hrest. exact Hperm.
Qed.

Lemma title_generation_spec (template : string) (topics : list string) (r : rng) :
  exists selected title r',
    AIContentGenerator._generate_title_from_template template topics r = Ok (title, r') /\
    List.length selected = Nat.min (count "{}" template) (List.length topics) /\
    drawn_from selected topics /\
    pool_filled (topic_filled selected template) title.
Proof.
  unfold AIContentGenerator._generate_title_from_template.
  destruct (count "{}" template =? 0)%nat eqn:E.
  - apply Nat.eqb_eq in E. exists [], template, r.
    split; [reflexivity | split; [now rewrite E | split; [now exists topics |]]].
    constructor. clear topics r.
    induction template as [|c s IH]; [reflexivity |].
    rewrite contains_step. cbn [count] in E.
    destruct (prefix "{}" (String c s)); [discriminate | apply IH; lia].
  - destruct (sample_drawn topics (Nat.min (count "{}" template) (List.length topics)) r)
      as [Hlen Hdrawn].
    destruct (sample topics _ r) as [selected r1]. cbn [fst] in *.
    destruct (fill_remaining_from_pool
                (String.length (AIContentGenerator.fill_topics selected template))
                (AIContentGenerator.fill_topics selected template) r1
                (opens_le_length _))
      as (title & r' & Hfill & Hp).
    exists selected, title, r'. rewrite Hfill.
    split; [reflexivity | split; [| split; [exact Hdrawn |]]].
    + rewrite Hlen. apply Nat.min_l, Nat.le_min_r.
    + now rewrite <- fill_topics_topic_filled.
Qed.

Section IdeaGeneration.
Variable created_at : Z -> string.
Variable trending_topics : dict Z.
Variable successful_hashtags : list string.
Variable top_topics : list string.

Lemma make_idea_returns (i : Z) (r : rng) :
  exists idea r',
    AIContentGenerator.make_idea created_at trending_topics successful_hashtags
                                 top_topics i r = Ok (idea, r') /\
    generated top_topics idea.
Proof.
  unfold AIContentGenerator.make_idea.
  destruct (choice_in_pool (keys AIContentGenerator.content_templates) r
                           ltac:(discriminate))
    as (category & r1 & Hcat & ->).
  cbn [bind fst snd].
  destruct (templates_of_category category Hcat) as (templates & Htemplates & Hne).
  rewrite Htemplates. cbn [bind].
  destruct (choice_in_pool templates r1 Hne) as (template & r2 & Htemplate & ->).
  cbn [bind fst snd].
  destruct (title_generation_spec template top_topics r2)
    as (selected & title & r3 & -> & Hlen & Hdrawn & Hfilled).
  cbn [bind fst snd].
  unfold AIContentGenerator._generate_thumbnail_concept.
  destruct (choice_in_pool _ r3 (thumbnail_concepts_nonempty category))
    as (concept & r4 & _ & ->).
  cbn [bind fst snd].
  destruct (AIContentGenerator._estimate_views _ category r4) as [views r5].
  eexists. eexists. split; [reflexivity |].
  exists templates, template, selected.
  cbn [ContentIdea.category ContentIdea.title]. auto.
Qed.

Lemma ideas_loop_returns (n : nat) (i : Z) (r : rng) :
  exists ideas r',
    AIContentGenerator.ideas_loop created_at trending_topics successful_hashtags
                                  top_topics n i r = Ok (ideas, r') /\
    List.length ideas = n /\ Forall (generated top_topics) ideas.
Proof.
  revert i r. induction n as [|n IH]; intros i r;
    cbn [AIContentGenerator.ideas_loop].
  - exists [], r. repeat split. constructor.
  - destruct (make_idea_returns i r) as (idea & r1 & -> & Hidea).
    cbn [bind fst snd].
    destruct (IH (i + 1) r1) as (ideas & r2 & -> & Hlen & Hall).
    cbn [bind fst snd].
    exists (idea :: ideas), r2. repeat split.
    + simpl. now rewrite Hlen.
    + now constructor.
Qed.
End IdeaGeneration.

(** C10. For every template (the thirty fixed ones among them) and every
    topic list, the empty one included, title generation returns a title
    that holds no "{}".  The title is the template in which formatted
    topics, as many as there are placeholders or topics and drawn from
    different places of the list, fill the leftmost placeholders in turn,
    and every placeholder then left is filled, the leftmost first, with an
    entry of the contextual pool: a number of {5, 10, 15, 20, 30} when the
    title speaks of minutes or steps, of {7, 14, 30, 60, 90} for days, of
    {1, 3, 6, 12} for months, and one of "2024", "2025", "Today", "Now"
    otherwise.  Without topics the pools fill every placeholder, and a
    template without placeholders is returned as it is, with no draw.
    Hence [generate_content_ideas] returns the requested number of ideas
    for every trend table, the empty one included, each with a title made
    in this way from a template of its category. *)
Theorem title_generation_fills_placeholders :
  (forall (template : string) (topics : list string) (r : rng),
      exists selected title r',
        AIContentGenerator._generate_title_from_template template topics r =
          Ok (title, r') /\
        contains "{}" title = false /\
        List.length selected = Nat.min (count "{}" template) (List.length topics) /\
        drawn_from selected topics /\
        pool_filled (topic_filled selected template) title) /\
  (forall (template : string) (r : rng),
      exists title r',
        AIContentGenerator._generate_title_from_template template [] r =
          Ok (title, r') /\
        pool_filled template title /\
        (count "{}" template = O -> title = template /\ r' = r)) /\
  (forall (created_at : Z -> string) (trending_topics : dict Z)
          (successful_hashtags : list string) (num_ideas : Z) (r : rng),
      exists ideas r',
        AIContentGenerator.generate_content_ideas
          created_at trending_topics successful_hashtags num_ideas r =
          Ok (ideas, r') /\
        List.length ideas = Z.to_nat num_ideas /\
        Forall (fun idea =>
                  contains "{}" (ContentIdea.title idea) = false /\
                  generated (slice_to (keys trending_topics) 20) idea) ideas).
Proof.
  split; [| split].
  - intros template topics r.
    destruct (title_generation_spec template topics r)
      as (selected & title & r' & E & Hlen & Hdrawn & Hp).
    exists selected, title, r'. repeat split; try assumption.
    now apply pool_filled_ends with (1 := Hp).
  - intros template r.
    destruct (title_generation_spec template [] r)
      as (selected & title & r' & E & Hlen & _ & Hp).
    rewrite Nat.min_0_r in Hlen. destruct selected; [| discriminate].
    exists title, r'. split; [exact E | split; [exact Hp |]].
    intros Hcount. unfold AIContentGenerator._generate_title_from_template in E.
    rewrite Hcount in E. cbn in E. now injection E as <- <-.
  - intros created_at trending_topics successful_hashtags num_ideas r.
    unfold AIContentGenerator.generate_content_ideas.
    destruct (ideas_loop_returns created_at trending_topics successful_hashtags
                                 (slice_to (keys trending_topics) 20)
                                 (Z.to_nat num_ideas) 0 r)
      as (ideas & r' & -> & Hlen & Hall).
    cbn [bind fst snd]. eexists. eexists. split; [reflexivity |].
    pose proof (sort_desc_perm Z.ltb ContentIdea.trend_score ideas) as Hperm.
    split.
    + now rewrite (Permutation_length Hperm).
    + eapply Permutation_Forall; [symmetry; exact Hperm |].
      eapply Forall_impl; [| exact Hall].
      intros idea Hidea. split; [| exact Hidea].
      destruct Hidea as (templates & template & selected & _ & _ & _ & _ & Hp).
      now apply pool_filled_ends with (1 := Hp).
Qed.

(** * Further properties of the code *)

(** ** Dicts in insertion order *)

Lemma get_set {V : Type} (d : dict V) (k k' : string) (v default : V) :
  get (set d k v) k' default = if String.eqb k' k then v else get d k' default.
Proof.
  induction d as [|[k0 v0] d IH]; simpl.
  - reflexivity.
  - destruct (String.eqb_spec k k0) as [-> | Hk]; simpl.
    + now destruct (String.eqb k' k0).
    + destruct (String.eqb_spec k' k0) as [-> | Hk'].
      * destruct (String.eqb_spec k0 k); [congruence | reflexivity].
      * exact IH.
Qed.

Lemma subscript_set {V : Type} (d : dict V) (k k' : string) (v : V) :
  subscript (set d k v) k' = if String.eqb k' k then Ok v else subscript d k'.
Proof.
  induction d as [|[k0 v0] d IH]; simpl.
  - reflexivity.
  - destruct (String.eqb_spec k k0) as [-> | Hk]; simpl.
    + now destruct (String.eqb k' k0).
    + destruct (String.eqb_spec k' k0) as [-> | Hk'].
      * destruct (String.eqb_spec k0 k); [congruence | reflexivity].
      * exact IH.
Qed.

Lemma subscript_missing {V : Type} (d : dict V) (k : string) :
  mem k (keys d) = false <-> subscript d k = Raise KeyError.
Proof.
  induction d as [|[k0 v0] d IH]; simpl.
  - tauto.
  - destruct (String.eqb k k0); simpl; [| exact IH].
    split; discriminate.
Qed.

Lemma NoDup_keys_set {V : Type} (d : dict V) (k : string) (v : V) :
  NoDup (keys d) -> NoDup (keys (set d k v)).
Proof.
  intros ND. rewrite keys_set. destruct (mem k (keys d)) eqn:M; [exact ND |].
  apply NoDup_app; [exact ND | repeat constructor; auto |].
  intros a Ha [<- | []]. apply mem_not_In in M. contradiction.
Qed.

Lemma In_keys_set {V : Type} (d : dict V) (k : string) (v : V) (x : string) :
  In x (keys (set d k v)) <-> In x (keys d) \/ x = k.
Proof.
  rewrite keys_set. destruct (mem k (keys d)) eqn:M.
  - apply mem_In in M. intuition (subst; auto).
  - rewrite in_app_iff. simpl. intuition.
Qed.

Lemma get_default_or_In {V : Type} (d : dict V) (k : string) (default : V) :
  get d k default = default \/ In (k, get d k default) d.
Proof.
  induction d as [|[k0 v0] d IH]; simpl; [now left |].
  destruct (String.eqb_spec k k0) as [-> | _]; [right; now left |].
  destruct IH; [now left | right; now right].
Qed.

Lemma get_In {V : Type} (d : dict V) (k : string) (v default : V) :
  NoDup (keys d) -> In (k, v) d -> get d k default = v.
Proof.
  induction d as [|[k0 v0] d IH]; simpl; [tauto |].
  intros ND [E | Hin].
  - injection E as -> ->. now rewrite String.eqb_refl.
  - inversion ND as [|? ? Hk0 ND']; subst.
    destruct (String.eqb_spec k k0) as [-> | _]; [| now apply IH].
    elim Hk0. change k0 with (fst (k0, v)). now apply in_map.
Qed.

Lemma get_outside {V : Type} (d : dict V) (k : string) (default : V) :
  ~ In k (keys d) -> get d k default = default.
Proof. apply get_outside_keys. Qed.

Lemma get_Permutation {V : Type} (d d' : dict V) (k : string) (default : V) :
  NoDup (keys d) -> Permutation d d' -> get d k default = get d' k default.
Proof.
  intros ND P.
  assert (ND' : NoDup (keys d'))
    by (eapply Permutation_NoDup; [apply Permutation_map, P | exact ND]).
  destruct (get_default_or_In d' k default) as [E | Hin].
  - destruct (in_dec string_dec k (keys d)) as [Hk | Hk].
    + apply in_map_iff in Hk as ([k0 v] & E0 & Hin). simpl in E0. subst k0.
      rewrite (get_In d k v default ND Hin).
      symmetry. apply get_In; [exact ND' |]. eapply Permutation_in; eauto.
    + rewrite E. now apply get_outside.
  - apply get_In; [exact ND |]. eapply Permutation_in; [symmetry |]; eauto.
Qed.

Lemma Forall_set {V : Type} (P : V -> Prop) (d : dict V) (k : string) (v : V) :
  Forall (fun item => P (snd item)) d -> P v ->
  Forall (fun item => P (snd item)) (set d k v).
Proof.
  intros Hd Hv. induction d as [|[k0 v0] d IH]; simpl.
  - now repeat constructor.
  - inversion Hd as [|? ? H0 Hd']; subst.
    destruct (String.eqb k k0); constructor; auto.
Qed.

Lemma NoDup_firstn {A : Type} (n : nat) (l : list A) :
  NoDup l -> NoDup (firstn n l).
Proof.
  intros ND. rewrite <- (firstn_skipn n l) in ND.
  now apply NoDup_app_remove_r in ND.
Qed.

Lemma In_firstn {A : Type} (n : nat) (l : list A) (x : A) :
  In x (firstn n l) -> In x l.
Proof.
  intros H. rewrite <- (firstn_skipn n l). apply in_or_app. now left.
Qed.

Lemma In_slice_to {A : Type} (l : list A) (stop : Z) (x : A) :
  In x (slice_to l stop) -> In x l.
Proof. unfold slice_to. destruct (stop <? 0); apply In_firstn. Qed.

Lemma NoDup_slice_to {A : Type} (l : list A) (stop : Z) :
  NoDup l -> NoDup (slice_to l stop).
Proof. unfold slice_to. destruct (stop <? 0); apply NoDup_firstn. Qed.

(** ** The request counter of the API client *)

(** X1. From a counter between 0 and 99, [n] calls of [_handle_rate_limit]
    leave the counter at [(counter + n) mod 100], so it stays below 100,
    and sleep [(counter + n) / 100] times: once for every hundredth
    request. *)
Theorem rate_limit_counter (n : nat) (request_count : Z) :
  0 <= request_count < 100 ->
  after_calls n request_count =
  ((request_count + Z.of_nat n) mod 100, (request_count + Z.of_nat n) / 100).
Proof.
  revert request_count. induction n as [|n IH]; intros c Hc.
  - cbn [after_calls]. rewrite Z.add_0_r, Z.mod_small, Z.div_small by lia.
    reflexivity.
  - cbn [after_calls]. unfold YouTubeAPIClient._handle_rate_limit,
      YouTubeAPIClient.max_requests_per_minute.
    destruct (Z.leb_spec 100 (c + 1)) as [Hfull | Hroom].
    + assert (c = 99) by lia. subst c.
      rewrite IH by lia. f_equal.
      * replace (99 + Z.of_nat (S n)) with (0 + Z.of_nat n + 1 * 100) by lia.
        now rewrite Z.mod_add by lia.
      * replace (99 + Z.of_nat (S n)) with (0 + Z.of_nat n + 1 * 100) by lia.
        rewrite Z.div_add by lia. lia.
    + rewrite IH by lia.
      replace (c + 1 + Z.of_nat n) with (c + Z.of_nat (S n)) by lia.
      f_equal.
Qed.

Lemma rate_limit_counter_witness :
  0 <= 0 < 100 /\ after_calls 250 0 = (50, 2).
Proof.
  assert (H : 0 <= 0 < 100) by lia.
  split; [exact H |].
  exact (rate_limit_counter 250 0 H).
Defined.

(** ** Requests in batches of 50 ids *)

Lemma firstn_add {A : Type} (a b : nat) (l : list A) :
  firstn (a + b) l = (firstn a l ++ firstn b (skipn a l))%list.
Proof.
  revert l. induction a as [|a IH]; intros l; simpl; [reflexivity |].
  destruct l as [|x l]; simpl.
  - now rewrite firstn_nil.
  - now rewrite IH.
Qed.

Lemma concat_batches {A : Type} (m : nat) (l : list A) :
  List.concat (map (fun i => firstn 50 (skipn i l))
              (map (fun k => (50 * k)%nat) (seq 0 m))) =
  firstn (50 * m) l.
Proof.
  induction m as [|m IH].
  - reflexivity.
  - rewrite seq_S, !map_app, concat_app, IH. cbn [map List.concat Nat.add].
    rewrite app_nil_r, <- firstn_add. f_equal. lia.
Qed.

Lemma batch_count_covers (n : nat) : (n <= 50 * ((n + 49) / 50))%nat.
Proof.
  pose proof (Nat.div_mod_eq (n + 49) 50) as E.
  pose proof (Nat.mod_upper_bound (n + 49) 50 ltac:(lia)). lia.
Qed.

Lemma batch_start_inside (n k : nat) : (k < (n + 49) / 50)%nat -> (50 * k < n)%nat.
Proof.
  intros Hk.
  pose proof (Nat.div_mod_eq (n + 49) 50) as E.
  pose proof (Nat.mod_upper_bound (n + 49) 50 ltac:(lia)). lia.
Qed.

(** X2. The batches of ids that [get_channel_statistics] and
    [get_video_details] request are the ids in order, every id in exactly
    one batch; each batch holds between 1 and 50 ids, and there are
    ceil(n / 50) of them (none for no ids). *)
Theorem id_batches_partition (ids : list string) :
  List.concat (YouTubeAPIClient.id_batches ids) = ids /\
  Forall (fun batch => (1 <= List.length batch <= 50)%nat)
         (YouTubeAPIClient.id_batches ids) /\
  List.length (YouTubeAPIClient.id_batches ids) = ((List.length ids + 49) / 50)%nat.
Proof.
  unfold YouTubeAPIClient.id_batches, YouTubeAPIClient.batch_starts.
  split; [| split].
  - rewrite concat_batches. apply firstn_all2, batch_count_covers.
  - rewrite Forall_forall. intros batch Hb.
    apply in_map_iff in Hb as (i & <- & Hi).
    apply in_map_iff in Hi as (k & <- & Hk).
    apply in_seq in Hk. pose proof (batch_start_inside (List.length ids) k).
    rewrite length_firstn, length_skipn. lia.
  - now rewrite !length_map, length_seq.
Qed.

Section BatchedRequests.
Context {A : Type} (request : list string -> YouTubeAPIClient.response (list A)).

Lemma request_batches_all (batches : list (list string)) :
  Forall (fun batch => request batch <> YouTubeAPIClient.HttpError) batches ->
  YouTubeAPIClient.request_batches request batches =
  YouTubeAPIClient.Answer (flat_map (fun batch => items_of (request batch)) batches).
Proof.
  induction 1 as [|batch rest Hb _ IH]; cbn [YouTubeAPIClient.request_batches flat_map].
  - reflexivity.
  - rewrite IH. destruct (request batch); [reflexivity | congruence].
Qed.

Lemma request_batches_some_error (batches : list (list string)) :
  Exists (fun batch => request batch = YouTubeAPIClient.HttpError) batches ->
  YouTubeAPIClient.request_batches request batches = YouTubeAPIClient.HttpError.
Proof.
  induction 1 as [batch rest Hb | batch rest _ IH];
    cbn [YouTubeAPIClient.request_batches].
  - now rewrite Hb.
  - rewrite IH. now destruct (request batch).
Qed.
End BatchedRequests.

(** X3. A batched lookup is all or nothing.  When every batch request
    succeeds the result is the items of the batches in order; when any one
    of them raises [HttpError] the result is empty, the items of the
    batches that succeeded included.  Either way the request counter moves
    by one call of [_handle_rate_limit]. *)
Theorem batched_lookup_all_or_nothing {A : Type}
        (request : list string -> YouTubeAPIClient.response (list A))
        (request_count : Z) (ids : list string) :
  let batches := YouTubeAPIClient.id_batches ids in
  let result := YouTubeAPIClient.get_in_batches request request_count ids in
  snd result = fst (YouTubeAPIClient._handle_rate_limit request_count) /\
  (Forall (fun batch => request batch <> YouTubeAPIClient.HttpError) batches ->
   fst result = flat_map (fun batch => items_of (request batch)) batches) /\
  (Exists (fun batch => request batch = YouTubeAPIClient.HttpError) batches ->
   fst result = []).
Proof.
  cbn zeta. unfold YouTubeAPIClient.get_in_batches.
  destruct (YouTubeAPIClient._handle_rate_limit request_count) as [c slept].
  split; [| split].
  - now destruct (YouTubeAPIClient.request_batches request _).
  - intros H. now rewrite request_batches_all.
  - intros H. now rewrite request_batches_some_error.
Qed.

Lemma batched_lookup_all_or_nothing_witness :
  fst (YouTubeAPIClient.get_in_batches fragile_request 0 ["a"; "b"]) = ["a"; "b"] /\
  Exists (fun batch => fragile_request batch = YouTubeAPIClient.HttpError)
         (YouTubeAPIClient.id_batches ["a"; "bad"]) /\
  fst (YouTubeAPIClient.get_in_batches fragile_request 0 ["a"; "bad"]) = [].
Proof.
  assert (Hgood : Forall (fun batch => fragile_request batch <> YouTubeAPIClient.HttpError)
                         (YouTubeAPIClient.id_batches ["a"; "b"])).
  { vm_compute. repeat constructor. discriminate. }
  assert (Hbad : Exists (fun batch => fragile_request batch = YouTubeAPIClient.HttpError)
                        (YouTubeAPIClient.id_batches ["a"; "bad"])).
  { vm_compute. constructor. reflexivity. }
  split; [| split; [exact Hbad |]].
  - exact (proj1 (proj2 (batched_lookup_all_or_nothing fragile_request 0 ["a"; "b"])) Hgood).
  - exact (proj2 (proj2 (batched_lookup_all_or_nothing fragile_request 0 ["a"; "bad"])) Hbad).
Defined.

(** ** The deduplication of the channels found *)

Lemma subscript_cases {V : Type} (d : dict V) (k : string) :
  (mem k (keys d) = true /\ exists v, subscript d k = Ok v) \/
  (mem k (keys d) = false /\ subscript d k = Raise KeyError).
Proof.
  induction d as [|[k0 v0] d IH]; simpl; [now right |].
  destruct (String.eqb k k0); simpl; [left; eauto | exact IH].
Qed.

Lemma unique_channels_loop (all_channels : list ChannelHit.t) (acc : dict ChannelHit.t) :
  let unique :=
    fold_left (fun unique_channels channel =>
                 let channel_id := ChannelHit.channel_id channel in
                 if mem channel_id (keys unique_channels) then unique_channels
                 else set unique_channels channel_id channel)
              all_channels acc in
  (NoDup (keys acc) -> NoDup (keys unique)) /\
  (forall id,
      subscript unique id =
      match subscript acc id with
      | Ok channel => Ok channel
      | Raise _ =>
          match first_with_id id all_channels with
          | Some channel => Ok channel
          | None => Raise KeyError
          end
      end).
Proof.
  revert acc. induction all_channels as [|c l IH]; intros acc; cbn zeta.
  - split; [auto |]. intros id. cbn [fold_left first_with_id find].
    destruct (subscript_cases acc id) as [(_ & v & ->) | (_ & ->)]; reflexivity.
  - cbn [fold_left]. cbn zeta.
    destruct (subscript_cases acc (ChannelHit.channel_id c))
      as [(M & v & Hv) | (M & Hv)]; rewrite M.
    + destruct (IH acc) as [IHnd IHsub]. split; [exact IHnd |].
      intros id. rewrite IHsub.
      destruct (subscript acc id) as [channel | e] eqn:E; [reflexivity |].
      cbn [first_with_id find]. fold (first_with_id id l).
      destruct (String.eqb_spec (ChannelHit.channel_id c) id) as [Hid | _];
        [| reflexivity].
      subst id. congruence.
    + destruct (IH (set acc (ChannelHit.channel_id c) c)) as [IHnd IHsub].
      split; [intros ND; now apply IHnd, NoDup_keys_set |].
      intros id. rewrite IHsub, subscript_set.
      cbn [first_with_id find]. fold (first_with_id id l).
      rewrite (String.eqb_sym id).
      destruct (String.eqb_spec (ChannelHit.channel_id c) id) as [Hid | _].
      * subst id. now rewrite Hv.
      * reflexivity.
Qed.

(** X4. The deduplication of [find_ai_influencers] keeps every channel id
    that the searches found, each once, and under each id the channel that
    was found first; an id that no search found is a [KeyError]. *)
Theorem unique_channels_first_seen (all_channels : list ChannelHit.t) :
  let unique := AIInfluencerFinder.unique_channels all_channels in
  NoDup (keys unique) /\
  (forall id, In id (keys unique) <->
              In id (map ChannelHit.channel_id all_channels)) /\
  (forall id,
      subscript unique id =
      match first_with_id id all_channels with
      | Some channel => Ok channel
      | None => Raise KeyError
      end).
Proof.
  cbn zeta. unfold AIInfluencerFinder.unique_channels.
  destruct (unique_channels_loop all_channels []) as [Hnd Hsub].
  cbn zeta in Hnd, Hsub.
  split; [apply Hnd; constructor | split; [| exact Hsub]].
  intros id. rewrite <- mem_In.
  match goal with |- context [mem id (keys ?d)] => set (unique := d) in * end.
  destruct (subscript_cases unique id) as [(M & v & Hv) | (M & Hv)];
    rewrite M; rewrite Hsub in Hv; unfold first_with_id in Hv;
    destruct (find _ all_channels) as [channel |] eqn:F; try discriminate.
  - apply find_some in F as [Hin E]. apply String.eqb_eq in E. subst id.
    split; [intros _; now apply in_map | reflexivity].
  - split; [discriminate |]. intros Hin. exfalso.
    apply in_map_iff in Hin as (channel & E & Hin).
    apply (find_none _ _ F) in Hin. rewrite E, String.eqb_refl in Hin.
    discriminate.
Qed.

(** ** The analysis of the videos of the influencers *)

Section VideoKeys.
Variable now : Z.
Variable fromisoformat : string -> option Z.

Lemma engagement_rate_binary64_nonneg (video : Video.t) :
  0 <= Video.like_count video -> 0 <= Video.comment_count video ->
  nonneg (AIInfluencerFinder._calculate_engagement_rate_binary64 video) = true.
Proof.
  intros Hl Hc. unfold AIInfluencerFinder._calculate_engagement_rate_binary64.
  rewrite max_Z_max. apply min_nonneg; [| reflexivity].
  apply mul_nonneg; [| reflexivity]. apply quotient_nonneg; lia.
Qed.

Lemma recency_score_binary64_nonneg (video : Video.t) :
  nonneg (AIInfluencerFinder.recency_score_binary64 now fromisoformat video) = true.
Proof.
  unfold AIInfluencerFinder.recency_score_binary64.
  destruct (AIInfluencerFinder.days_since now fromisoformat (Video.published_at video))
    as [days_old | e]; [| reflexivity].
  rewrite max_Z_max. apply quotient_nonneg; lia.
Qed.

Lemma performance_key_nonneg (x : AnalyzedVideo.t) :
  receivable_video (AnalyzedVideo.info x) ->
  nonneg (AIInfluencerFinder.performance_key now fromisoformat x) = true.
Proof.
  intros (Hl & Hc & Hv & _).
  unfold AIInfluencerFinder.performance_key,
    AIInfluencerFinder._calculate_performance_score_binary64.
  repeat apply add_nonneg; (apply mul_nonneg; [| reflexivity]).
  - apply quotient_nonneg; [exact (proj1 Hv) | rewrite max_Z_max; lia].
  - now apply engagement_rate_binary64_nonneg.
  - apply recency_score_binary64_nonneg.
Qed.
End VideoKeys.

(** The order is that of the floats.  The two videos of the example have
    the same performance score in exact arithmetic, 1030/3; in binary64
    the score of the second is the greater, and the analysis returns the
    second video first. *)
Lemma analysis_follows_the_floats :
  map (fun x => VideoInfo.video_id (AnalyzedVideo.info x))
      (fetched_videos Example.now Example.fromisoformat FurtherExample.tie_videos
                      FurtherExample.tie_influencers) = ["p"; "q"] /\
  Forall (fun x => (AnalyzedVideo.performance_score x == 1030 # 3)%Q)
         (fetched_videos Example.now Example.fromisoformat FurtherExample.tie_videos
                         FurtherExample.tie_influencers) /\
  map (fun x => VideoInfo.video_id (AnalyzedVideo.info x))
      (AIInfluencerFinder.analyze_influencer_videos
         Example.now Example.fromisoformat FurtherExample.tie_videos
         [] (Some FurtherExample.tie_influencers)) = ["q"; "p"].
Proof.
  split; [vm_compute; reflexivity | split; [| vm_compute; reflexivity]].
  repeat constructor; apply Qeq_bool_iff; vm_compute; reflexivity.
Qed.

(** X5. [analyze_influencer_videos] returns exactly the fetched videos with
    at least 100000 views, each with the subscriber and view counts of its
    influencer and its two scores; with no influencers, given or stored,
    it returns nothing.  When the counts of these videos are receivable
    they come in descending order of the performance score as the code
    computes it in binary64, videos whose floats are equal keeping the
    order in which they were fetched. *)
Theorem analyzed_videos_filtered_and_ranked
        (now : Z) (fromisoformat : string -> option Z)
        (get_channel_videos : string -> Z -> list VideoInfo.t)
        (self_influencers : list Influencer.t)
        (influencers : option (list Influencer.t)) :
  let used := match influencers with
              | None => self_influencers
              | Some l => l
              end in
  let kept :=
    filter (fun video => 100000 <=? VideoInfo.view_count (AnalyzedVideo.info video))
           (fetched_videos now fromisoformat get_channel_videos used) in
  let result :=
    AIInfluencerFinder.analyze_influencer_videos
      now fromisoformat get_channel_videos self_influencers influencers in
  let score := AIInfluencerFinder.performance_key now fromisoformat in
  (used = [] -> result = []) /\
  Permutation result kept /\
  (Forall (fun x => receivable_video (AnalyzedVideo.info x)) kept ->
   StronglySorted (fun x y => SFleb (score y) (score x) = true) result /\
   (forall value : spec_float,
       filter (fun x => Binary64.eqb (score x) value) result =
       filter (fun x => Binary64.eqb (score x) value) kept)).
Proof.
  cbn zeta. unfold AIInfluencerFinder.analyze_influencer_videos.
  set (used := match influencers with None => self_influencers | Some l => l end).
  destruct used as [|influencer rest] eqn:E.
  - repeat split; constructor.
  - fold (fetched_videos now fromisoformat get_channel_videos (influencer :: rest)).
    split; [discriminate | split; [apply sort_desc_perm |]].
    intros Hcounts. apply sort_on_floats.
    eapply Forall_impl; [| exact Hcounts].
    intros x Hx. now apply nonneg_not_nan, performance_key_nonneg.
Qed.

Lemma analyzed_videos_filtered_and_ranked_witness :
  let result :=
    AIInfluencerFinder.analyze_influencer_videos
      Example.now Example.fromisoformat FurtherExample.tie_videos
      [] (Some FurtherExample.tie_influencers) in
  Forall (fun x => receivable_video (AnalyzedVideo.info x))
         (filter (fun video =>
                    100000 <=? VideoInfo.view_count (AnalyzedVideo.info video))
                 (fetched_videos Example.now Example.fromisoformat
                                 FurtherExample.tie_videos
                                 FurtherExample.tie_influencers)) /\
  StronglySorted
    (fun x y =>
       SFleb (AIInfluencerFinder.performance_key Example.now Example.fromisoformat y)
             (AIInfluencerFinder.performance_key Example.now Example.fromisoformat x)
       = true)
    result.
Proof.
  cbn zeta.
  assert (H : Forall (fun x => receivable_video (AnalyzedVideo.info x))
                     (filter (fun video =>
                                100000 <=?
                                VideoInfo.view_count (AnalyzedVideo.info video))
                             (fetched_videos Example.now Example.fromisoformat
                                             FurtherExample.tie_videos
                                             FurtherExample.tie_influencers)))
    by (repeat constructor; vm_compute; congruence).
  split; [exact H |].
  exact (proj1 (proj2 (proj2
           (analyzed_videos_filtered_and_ranked
              Example.now Example.fromisoformat FurtherExample.tie_videos
              [] (Some FurtherExample.tie_influencers))) H)).
Defined.

(** X6. The recency component of the performance score is never negative.
    For a video published [d] days ago it is at most 1 when [d >= 0] and 0
    when [d >= 365]; for a date in the future ([d < 0]) it exceeds 1. *)
Theorem recency_score_range (now : Z) (fromisoformat : string -> option Z)
        (video : Video.t) :
  (0 <= AIInfluencerFinder.recency_score now fromisoformat video)%Q /\
  (forall d,
      AIInfluencerFinder.days_since now fromisoformat (Video.published_at video) = Ok d ->
      (0 <= d -> (AIInfluencerFinder.recency_score now fromisoformat video <= 1)%Q) /\
      (365 <= d -> (AIInfluencerFinder.recency_score now fromisoformat video == 0)%Q) /\
      (d < 0 -> (1 < AIInfluencerFinder.recency_score now fromisoformat video)%Q)).
Proof.
  unfold AIInfluencerFinder.recency_score, AIInfluencerFinder.recency_score_try.
  destruct (AIInfluencerFinder.days_since now fromisoformat (Video.published_at video))
    as [days_old | e]; cbn [bind].
  - rewrite max_Z_max.
    assert (Hq : forall n : Z, (inject_Z n / 365 == n # 365)%Q).
    { intros n. unfold Qeq, Qdiv, Qmult, Qinv, inject_Z. simpl. lia. }
    split.
    + rewrite Hq. unfold Qle. cbn [Qnum Qden]. lia.
    + intros d [= <-]. rewrite Hq. unfold Qle, Qlt, Qeq. cbn [Qnum Qden].
      repeat split; intros; lia.
  - split; [discriminate | intros d H; discriminate H].
Qed.

Lemma recency_score_range_witness :
  (AIInfluencerFinder.recency_score
     Example.now Example.fromisoformat FurtherExample.dated_video == 0)%Q /\
  (1 < AIInfluencerFinder.recency_score
         Example.now FurtherExample.future_date FurtherExample.dated_video)%Q.
Proof.
  assert (Hold : AIInfluencerFinder.days_since
                   Example.now Example.fromisoformat
                   (Video.published_at FurtherExample.dated_video) = Ok 400)
    by reflexivity.
  assert (Hnew : AIInfluencerFinder.days_since
                   Example.now FurtherExample.future_date
                   (Video.published_at FurtherExample.dated_video) = Ok (-10))
    by reflexivity.
  assert (H1 : 365 <= 400) by lia.
  assert (H2 : -10 < 0) by lia.
  split.
  - exact (proj1 (proj2 (proj2 (recency_score_range Example.now Example.fromisoformat
                                  FurtherExample.dated_video) 400 Hold)) H1).
  - exact (proj2 (proj2 (proj2 (recency_score_range Example.now FurtherExample.future_date
                                  FurtherExample.dated_video) (-10) Hnew)) H2).
Defined.

Lemma engagement_rate_range (video : Video.t) :
  0 <= Video.like_count video ->
  0 <= Video.comment_count video ->
  (0 <= AIInfluencerFinder._calculate_engagement_rate video)%Q /\
  (AIInfluencerFinder._calculate_engagement_rate video <= 100)%Q.
Proof.
  intros Hl Hc. unfold AIInfluencerFinder._calculate_engagement_rate.
  rewrite max_Z_max.
  apply min_Q_bounds; [| discriminate].
  apply Qmult_le_0_compat; [| discriminate].
  apply ratio_nonneg; lia.
Qed.

Lemma recency_score_nonneg (now : Z) (fromisoformat : string -> option Z)
      (video : Video.t) :
  (0 <= AIInfluencerFinder.recency_score now fromisoformat video)%Q.
Proof.
  unfold AIInfluencerFinder.recency_score, AIInfluencerFinder.recency_score_try.
  destruct (AIInfluencerFinder.days_since now fromisoformat (Video.published_at video))
    as [days_old | e]; cbn [bind]; [| discriminate].
  rewrite max_Z_max. apply Qle_shift_div_l; [reflexivity |].
  rewrite Qmult_0_l. change 0%Q with (inject_Z 0). rewrite <- Zle_Qle. lia.
Qed.

(** X7. A video with non-negative counts leaves the analysis unchanged in
    its own fields, with the subscriber and view counts of its influencer,
    an engagement rate between 0 and 100 and a performance score that is
    not negative, whatever its date and the counts of the influencer. *)
Theorem analyzed_video_scores (now : Z) (fromisoformat : string -> option Z)
        (influencer : Influencer.t) (video : VideoInfo.t) :
  0 <= VideoInfo.view_count video ->
  0 <= VideoInfo.like_count video ->
  0 <= VideoInfo.comment_count video ->
  let analyzed := AIInfluencerFinder.analyze_video now fromisoformat influencer video in
  AnalyzedVideo.info analyzed = video /\
  AnalyzedVideo.influencer_subscriber_count analyzed =
    Channel.subscriber_count (Influencer.stats influencer) /\
  AnalyzedVideo.influencer_total_views analyzed =
    Channel.view_count (Influencer.stats influencer) /\
  (0 <= AnalyzedVideo.engagement_rate analyzed)%Q /\
  (AnalyzedVideo.engagement_rate analyzed <= 100)%Q /\
  (0 <= AnalyzedVideo.performance_score analyzed)%Q.
Proof.
  intros Hv Hl Hc. cbn zeta. unfold AIInfluencerFinder.analyze_video.
  cbn [AnalyzedVideo.info AnalyzedVideo.influencer_subscriber_count
       AnalyzedVideo.influencer_total_views AnalyzedVideo.engagement_rate
       AnalyzedVideo.performance_score].
  destruct (engagement_rate_range (AIInfluencerFinder.scored_view video 0) Hl Hc)
    as [Hlow Hhigh].
  repeat (split; [first [reflexivity | assumption] |]).
  unfold AIInfluencerFinder._calculate_performance_score.
  set (rate := AIInfluencerFinder._calculate_engagement_rate _) in *.
  cbn [Video.view_count Video.engagement_rate AIInfluencerFinder.scored_view].
  pose proof (recency_score_nonneg now fromisoformat
                                   (AIInfluencerFinder.scored_view video rate)) as Hr.
  assert (Hratio : (0 <= inject_Z (VideoInfo.view_count video) /
                         inject_Z (max_Z (Channel.subscriber_count
                                            (Influencer.stats influencer)) 1))%Q)
    by (apply ratio_nonneg; [exact Hv | rewrite max_Z_max; lia]).
  set (ratio := (inject_Z (VideoInfo.view_count video) / _)%Q) in *.
  set (recency := AIInfluencerFinder.recency_score _ _ _) in *.
  lra.
Qed.

Lemma analyzed_video_scores_witness :
  let analyzed :=
    AIInfluencerFinder.analyze_video
      Example.now Example.fromisoformat
      (Influencer.mk Example.channel 0 0) FurtherExample.video_info in
  (0 <= AnalyzedVideo.engagement_rate analyzed)%Q /\
  (AnalyzedVideo.engagement_rate analyzed <= 100)%Q /\
  (0 <= AnalyzedVideo.performance_score analyzed)%Q.
Proof.
  assert (Hv : 0 <= VideoInfo.view_count FurtherExample.video_info) by (simpl; lia).
  assert (Hl : 0 <= VideoInfo.like_count FurtherExample.video_info) by (simpl; lia).
  assert (Hc : 0 <= VideoInfo.comment_count FurtherExample.video_info) by (simpl; lia).
  exact (proj2 (proj2 (proj2
           (analyzed_video_scores Example.now Example.fromisoformat
                                  (Influencer.mk Example.channel 0 0)
                                  FurtherExample.video_info Hv Hl Hc)))).
Defined.

(** ** Trending topics *)

Lemma ai_topics_NoDup : NoDup AIInfluencerFinder.ai_topics.
Proof. apply nodup_fixpoint_NoDup. vm_compute. reflexivity. Qed.

Lemma count_loop_get (text : string) (topics : list string) (d : dict Z) (t : string) :
  NoDup topics ->
  get (fold_left (fun d topic =>
                    if contains topic text then set d topic (get d topic 0 + 1) else d)
                 topics d) t 0 =
  get d t 0 + (if mem t topics && contains t text then 1 else 0).
Proof.
  intros ND. revert d. induction ND as [|a topics Ha ND IH]; intros d.
  - simpl. lia.
  - cbn [fold_left]. rewrite IH. unfold mem at 2. cbn [existsb].
    fold (mem t topics).
    destruct (String.eqb_spec t a) as [-> | Hta].
    + apply mem_not_In in Ha. rewrite Ha. cbn [orb andb].
      destruct (contains a text); [| lia].
      rewrite get_set, String.eqb_refl. lia.
    + cbn [orb]. destruct (contains a text); [| reflexivity].
      rewrite get_set. destruct (String.eqb_spec t a); [contradiction | reflexivity].
Qed.

Lemma count_loop_invariant (text : string) (topics : list string) (d : dict Z) :
  NoDup (keys d) -> Forall (fun item => 1 <= snd item) d ->
  let d' := fold_left (fun d topic =>
                         if contains topic text then set d topic (get d topic 0 + 1) else d)
                      topics d in
  NoDup (keys d') /\ Forall (fun item => 1 <= snd item) d'.
Proof.
  revert d. induction topics as [|a topics IH]; intros d ND Hpos; cbn zeta.
  - now split.
  - cbn [fold_left]. destruct (contains a text); [| now apply IH].
    apply IH; [now apply NoDup_keys_set |].
    apply (Forall_set (fun v => 1 <= v)); [exact Hpos |].
    destruct (get_default_or_In d a 0) as [-> | Hin]; [lia |].
    rewrite Forall_forall in Hpos. specialize (Hpos _ Hin). simpl in Hpos. lia.
Qed.

Section TopicCounting.
Variable vocabulary : list string.
Hypothesis vocabulary_NoDup : NoDup vocabulary.

(** the two nested loops of [extract_trending_topics] over a vocabulary *)
Let count_in (text : string) (d : dict Z) : dict Z :=
  fold_left (fun d topic =>
               if contains topic text then set d topic (get d topic 0 + 1) else d)
            vocabulary d.

Lemma count_texts_get (texts : list string) (d : dict Z) (t : string) :
  get (fold_left (fun topics text => count_in text topics) texts d) t 0 =
  get d t 0 +
  (if mem t vocabulary
   then Z.of_nat (List.length (filter (contains t) texts)) else 0).
Proof.
  revert d. induction texts as [|text texts IH]; intros d; cbn [fold_left filter].
  - destruct (mem t vocabulary); cbn [List.length Z.of_nat]; lia.
  - rewrite IH. unfold count_in.
    rewrite count_loop_get by exact vocabulary_NoDup.
    destruct (mem t vocabulary); cbn [andb]; [| lia].
    destruct (contains t text); cbn [List.length]; lia.
Qed.

Lemma count_texts_invariant (texts : list string) (d : dict Z) :
  NoDup (keys d) -> Forall (fun item => 1 <= snd item) d ->
  let d' := fold_left (fun topics text => count_in text topics) texts d in
  NoDup (keys d') /\ Forall (fun item => 1 <= snd item) d'.
Proof.
  revert d. induction texts as [|text texts IH]; intros d ND Hpos; cbn zeta.
  - now split.
  - cbn [fold_left].
    destruct (count_loop_invariant text vocabulary d ND Hpos) as [ND' Hpos'].
    now apply IH.
Qed.
End TopicCounting.

Lemma count_topics_get (texts : list string) (t : string) :
  get (AIInfluencerFinder.count_topics texts) t 0 =
  (if mem t AIInfluencerFinder.ai_topics
   then Z.of_nat (List.length (filter (contains t) texts)) else 0).
Proof.
  exact (count_texts_get AIInfluencerFinder.ai_topics ai_topics_NoDup texts [] t).
Qed.

Lemma count_topics_invariant (texts : list string) :
  NoDup (keys (AIInfluencerFinder.count_topics texts)) /\
  Forall (fun item => 1 <= snd item) (AIInfluencerFinder.count_topics texts).
Proof.
  exact (count_texts_invariant AIInfluencerFinder.ai_topics texts []
                               ltac:(constructor) ltac:(constructor)).
Qed.

Lemma mentioning_length (topic : string) (videos : list VideoInfo.t) :
  List.length (filter (contains topic) (map AIInfluencerFinder.topic_text videos)) =
  List.length (mentioning topic videos).
Proof.
  unfold mentioning. induction videos as [|v videos IH]; [reflexivity |].
  cbn [map filter]. destruct (contains topic (AIInfluencerFinder.topic_text v));
    cbn [List.length]; now rewrite IH.
Qed.

Lemma trending_topics_facts (videos : list VideoInfo.t) :
  let topics := AIInfluencerFinder.extract_trending_topics [] (Some videos) in
  NoDup (keys topics) /\
  Forall (fun item => 1 <= snd item) topics /\
  (forall t,
      get topics t 0 =
      if mem t AIInfluencerFinder.ai_topics
      then Z.of_nat (List.length (mentioning t videos)) else 0).
Proof.
  cbn zeta. unfold AIInfluencerFinder.extract_trending_topics.
  destruct videos as [|v videos].
  - repeat split; try constructor. intros t.
    now destruct (mem t AIInfluencerFinder.ai_topics).
  - set (all := v :: videos).
    destruct (count_topics_invariant (map AIInfluencerFinder.topic_text all))
      as [ND Hpos].
    pose proof (count_topics_get (map AIInfluencerFinder.topic_text all)) as Hget.
    set (counted := AIInfluencerFinder.count_topics _) in *.
    pose proof (sort_desc_perm Z.ltb snd counted) as P.
    split; [| split].
    + eapply Permutation_NoDup; [apply Permutation_map; symmetry; exact P | exact ND].
    + eapply Permutation_Forall; [symmetry; exact P | exact Hpos].
    + intros t. rewrite <- (get_Permutation counted _ t 0 ND (Permutation_sym P)).
      now rewrite Hget, mentioning_length.
Qed.

(** X8. In the table of [extract_trending_topics] the entry of a topic of
    the fixed vocabulary is the number of videos whose lowercased title,
    description and tags mention it, however often each does; a topic
    outside the vocabulary, or mentioned by no video, has no entry.  No
    videos give the empty table. *)
Theorem trending_topics_count_videos (videos : list VideoInfo.t) (topic : string) :
  let topics := AIInfluencerFinder.extract_trending_topics [] (Some videos) in
  get topics topic 0 =
    (if mem topic AIInfluencerFinder.ai_topics
     then Z.of_nat (List.length (mentioning topic videos)) else 0) /\
  (In topic (keys topics) <->
   In topic AIInfluencerFinder.ai_topics /\ mentioning topic videos <> []) /\
  AIInfluencerFinder.extract_trending_topics [] (Some []) = [].
Proof.
  cbn zeta. destruct (trending_topics_facts videos) as (ND & Hpos & Hget).
  cbn zeta in ND, Hpos, Hget.
  set (topics := AIInfluencerFinder.extract_trending_topics [] (Some videos)) in *.
  split; [apply Hget | split; [| reflexivity]].
  specialize (Hget topic). split.
  - intros Hin. apply in_map_iff in Hin as ([k v] & Ek & Hin). simpl in Ek. subst k.
    rewrite (get_In topics topic v 0 ND Hin) in Hget.
    rewrite Forall_forall in Hpos. specialize (Hpos _ Hin). simpl in Hpos.
    destruct (mem topic AIInfluencerFinder.ai_topics) eqn:M; [| lia].
    apply mem_In in M. split; [exact M |].
    intros E. rewrite E in Hget. simpl in Hget. lia.
  - intros [Hvoc Hsome]. apply mem_In in Hvoc. rewrite Hvoc in Hget.
    destruct (in_dec string_dec topic (keys topics)) as [Hin | Hout]; [exact Hin |].
    rewrite (get_outside topics topic 0 Hout) in Hget.
    destruct (mentioning topic videos); [congruence | simpl in Hget; lia].
Qed.

(** X9. The table of [extract_trending_topics] lists each topic once, in
    descending order of its count, and every count lies between 1 and the
    number of videos. *)
Theorem trending_topics_sorted (videos : list VideoInfo.t) :
  let topics := AIInfluencerFinder.extract_trending_topics [] (Some videos) in
  NoDup (keys topics) /\
  StronglySorted (fun x y => snd y <= snd x) topics /\
  Forall (fun item => 1 <= snd item <= Z.of_nat (List.length videos)) topics.
Proof.
  cbn zeta. destruct (trending_topics_facts videos) as (ND & Hpos & Hget).
  cbn zeta in ND, Hpos, Hget.
  split; [exact ND | split].
  - unfold AIInfluencerFinder.extract_trending_topics.
    destruct videos as [|v videos]; [constructor |].
    pose proof (sort_desc_sorted Z.ltb snd Zltb_asym Zltb_negtrans
                  (AIInfluencerFinder.count_topics
                     (map AIInfluencerFinder.topic_text (v :: videos)))) as H.
    induction H as [|x l Hl IH Hx]; constructor; [exact IH |].
    rewrite Forall_forall in Hx |- *. intros y Hy.
    apply Z.ltb_ge. now apply Hx.
  - rewrite Forall_forall in Hpos |- *. intros [k n] Hin.
    specialize (Hpos _ Hin). simpl in Hpos |- *. split; [exact Hpos |].
    rewrite <- (get_In _ k n 0 ND Hin), Hget.
    destruct (mem k AIInfluencerFinder.ai_topics); [| lia].
    unfold mentioning. pose proof (filter_length_le
      (fun video => contains k (AIInfluencerFinder.topic_text video)) videos). lia.
Qed.

(** ** The pattern [#(\w+)] *)

Lemma append_nil_r (s : string) : s ++ EmptyString = s.
Proof. induction s as [|c s IH]; simpl; [reflexivity | now rewrite IH]. Qed.

Lemma append_assoc (a b c : string) : (a ++ b) ++ c = a ++ (b ++ c).
Proof. induction a as [|x a IH]; simpl; [reflexivity | now rewrite IH]. Qed.

Lemma rev_string_spec (acc s : string) :
  rev_string acc s = rev_string EmptyString s ++ acc.
Proof.
  revert acc. induction s as [|c s IH]; intros acc; simpl; [reflexivity |].
  rewrite (IH (String c acc)), (IH (String c EmptyString)), append_assoc.
  reflexivity.
Qed.

Lemma rev_string_cons (c : ascii) (w : string) :
  rev_string EmptyString (String c w) =
  rev_string EmptyString w ++ String c EmptyString.
Proof. simpl. apply rev_string_spec. Qed.

Lemma all_word_app (a b : string) :
  all_word (a ++ b) = all_word a && all_word b.
Proof.
  induction a as [|c a IH]; simpl; [reflexivity |].
  now rewrite IH, andb_assoc.
Qed.

Lemma hash_not_word : is_word "#" = false.
Proof. reflexivity. Qed.

Lemma pending_after (c : ascii) (before : string) :
  pending (if Ascii.eqb c "#" then Some EmptyString else None)
          (before ++ String c EmptyString).
Proof.
  destruct (Ascii.eqb_spec c "#") as [-> | _]; simpl; [| exact I].
  split; [reflexivity |]. exists before. reflexivity.
Qed.

Lemma emit_sound (cur : option string) (before rest x : string) :
  pending cur before -> word_stops rest -> In x (emit cur) ->
  x <> EmptyString /\ all_word x = true /\
  exists a b, before ++ rest = a ++ "#" ++ x ++ b /\ word_stops b.
Proof.
  destruct cur as [[|c w] |]; simpl; try tauto.
  intros [Hword (a & ->)] Hstop [<- | []].
  pose proof (rev_string_spec (String c EmptyString) w) as E.
  split; [| split; [exact Hword |]].
  - rewrite E. destruct (rev_string EmptyString w); discriminate.
  - exists a, rest. split; [| exact Hstop].
    now rewrite !append_assoc.
Qed.

Lemma findall_from_sound (s : string) :
  forall (cur : option string) (before x : string),
    pending cur before ->
    In x (findall_hashtags_from cur s) ->
    x <> EmptyString /\ all_word x = true /\
    exists a b, before ++ s = a ++ "#" ++ x ++ b /\ word_stops b.
Proof.
  induction s as [|c s IH]; intros cur before x Hp Hin.
  - apply (emit_sound cur before EmptyString x Hp I Hin).
  - assert (Hshift : before ++ String c s = (before ++ String c EmptyString) ++ s)
      by (now rewrite append_assoc).
    cbn [findall_hashtags_from] in Hin. rewrite Hshift.
    destruct cur as [w |].
    + destruct (is_word c) eqn:W.
      * apply (IH (Some (String c w))); [| exact Hin].
        destruct Hp as [Hword (a & ->)]. cbn [pending].
        rewrite rev_string_cons, all_word_app. split.
        -- rewrite Hword. simpl. now rewrite W.
        -- exists a. now rewrite !append_assoc.
      * apply in_app_or in Hin as [Hin | Hin].
        -- rewrite <- Hshift.
           apply (emit_sound (Some w) before (String c s) x Hp W Hin).
        -- apply (IH _ _ _ (pending_after c before) Hin).
    + apply (IH _ _ _ (pending_after c before) Hin).
Qed.

Lemma findall_word_complete (x b : string) :
  word_stops b -> all_word x = true ->
  forall w : string,
    rev_string EmptyString w ++ x <> EmptyString ->
    In (rev_string EmptyString w ++ x) (findall_hashtags_from (Some w) (x ++ b)).
Proof.
  intros Hstop. induction x as [|c x IH]; intros Hword w Hne.
  - rewrite append_nil_r in *. cbn [append].
    assert (Hemit : In (rev_string EmptyString w) (emit (Some w))).
    { destruct w as [|c w]; [now elim Hne | now left]. }
    destruct b as [|c b]; cbn [findall_hashtags_from]; [exact Hemit |].
    simpl in Hstop. rewrite Hstop. apply in_or_app. now left.
  - cbn [all_word] in Hword. apply andb_true_iff in Hword as [Wc Wx].
    cbn [append findall_hashtags_from]. rewrite Wc.
    assert (E : rev_string EmptyString w ++ String c x =
                rev_string EmptyString (String c w) ++ x)
      by (rewrite rev_string_cons, append_assoc; reflexivity).
    rewrite E. apply IH; [exact Wx |].
    rewrite <- E. destruct (rev_string EmptyString w); discriminate.
Qed.

Lemma findall_from_complete (a x b : string) :
  x <> EmptyString -> all_word x = true -> word_stops b ->
  forall cur, In x (findall_hashtags_from cur (a ++ "#" ++ x ++ b)).
Proof.
  intros Hne Hword Hstop.
  assert (Hhash : forall cur, In x (findall_hashtags_from cur ("#" ++ x ++ b))).
  { intros cur. cbn [append findall_hashtags_from].
    pose proof (findall_word_complete x b Hstop Hword EmptyString) as H.
    cbn [rev_string append] in H. specialize (H Hne).
    destruct cur as [w |]; cbn [is_word]; rewrite ?hash_not_word;
      cbn [Ascii.eqb Bool.eqb]; [apply in_or_app; right |]; exact H. }
  induction a as [|c a IH]; intros cur; [apply Hhash |].
  cbn [append findall_hashtags_from].
  destruct cur as [w |]; [destruct (is_word c) |];
    try apply in_or_app; try right; apply IH.
Qed.

(** X10. In a text of ASCII characters the pattern [#(\w+)] of
    [get_successful_hashtags] finds exactly the non-empty runs of ASCII
    letters, digits and underscores that follow a hash sign and end where
    the text ends or another character comes.  (On other text the pattern
    also takes letters and digits outside ASCII into a run; such text is
    outside the model.) *)
Theorem findall_hashtags_exact (text x : string) :
  ascii_text text = true ->
  (In x (findall_hashtags text) <->
   x <> EmptyString /\ all_word x = true /\
   exists a b, text = a ++ "#" ++ x ++ b /\ word_stops b).
Proof.
  intros _. split.
  - intros H. apply (findall_from_sound text None EmptyString x I H).
  - intros (Hne & Hword & a & b & -> & Hstop).
    now apply findall_from_complete.
Qed.

Lemma findall_hashtags_exact_witness :
  ascii_text "learn #AI and python" = true /\
  In "AI" (findall_hashtags "learn #AI and python").
Proof.
  assert (H : ascii_text "learn #AI and python" = true) by reflexivity.
  split; [exact H |].
  apply (proj2 (findall_hashtags_exact "learn #AI and python" "AI" H)).
  split; [discriminate | split; [reflexivity |]].
  exists "learn ", " and python". split; reflexivity.
Defined.

(** ** The table of hashtags *)

Lemma set_set {V : Type} (d : dict V) (k : string) (a b : V) :
  set (set d k a) k b = set d k b.
Proof.
  induction d as [|[k0 v0] d IH]; simpl.
  - now rewrite String.eqb_refl.
  - destruct (String.eqb k k0) eqn:E; simpl; rewrite E; [reflexivity |].
    now rewrite IH.
Qed.

Lemma record_hashtag_set (video : VideoInfo.t) (d : dict HashtagStat.t) (hashtag : string) :
  AIInfluencerFinder.record_hashtag video d hashtag =
  set d (lower hashtag)
      (seen_in video (get d (lower hashtag) AIInfluencerFinder.no_stat)).
Proof.
  unfold AIInfluencerFinder.record_hashtag, seen_in.
  destruct (mem (lower hashtag) (keys d)) eqn:M; [reflexivity |].
  rewrite get_set, String.eqb_refl, set_set.
  apply mem_not_In in M. now rewrite (get_outside d _ _ M).
Qed.

Section HashtagTable.
Variable min_views : Z.

Lemma record_hashtag_invariant (video : VideoInfo.t) (d : dict HashtagStat.t)
      (hashtag : string) :
  min_views <= VideoInfo.view_count video ->
  NoDup (keys d) /\ Forall (fun item => sound_stat min_views (snd item)) d ->
  NoDup (keys (AIInfluencerFinder.record_hashtag video d hashtag)) /\
  Forall (fun item => sound_stat min_views (snd item))
         (AIInfluencerFinder.record_hashtag video d hashtag).
Proof.
  intros Hviews [ND Hsound]. rewrite record_hashtag_set.
  split; [now apply NoDup_keys_set |].
  apply (Forall_set (sound_stat min_views)); [exact Hsound |].
  unfold sound_stat, seen_in. cbn [HashtagStat.count HashtagStat.total_views HashtagStat.videos].
  rewrite length_app. cbn [List.length].
  destruct (get_default_or_In d (lower hashtag) AIInfluencerFinder.no_stat) as [-> | Hin].
  - cbn. lia.
  - rewrite Forall_forall in Hsound. specialize (Hsound _ Hin).
    cbn [snd] in Hsound. destruct Hsound as (H1 & H2 & H3). nia.
Qed.

Lemma record_words_invariant (video : VideoInfo.t) (words : list string)
      (d : dict HashtagStat.t) :
  min_views <= VideoInfo.view_count video ->
  NoDup (keys d) /\ Forall (fun item => sound_stat min_views (snd item)) d ->
  let d' := fold_left (AIInfluencerFinder.record_hashtag video) words d in
  (NoDup (keys d') /\ Forall (fun item => sound_stat min_views (snd item)) d') /\
  (forall h, In h (keys d') <-> In h (keys d) \/ exists w, In w words /\ h = lower w).
Proof.
  intros Hviews. revert d. induction words as [|w words IH]; intros d Hd; cbn zeta.
  - split; [exact Hd |]. intros h. simpl. split; [tauto | intros [H | (w & [] & _)]; exact H].
  - cbn [fold_left].
    destruct (IH _ (record_hashtag_invariant video d w Hviews Hd)) as [Hinv Hkeys].
    split; [exact Hinv |].
    intros h. rewrite Hkeys, record_hashtag_set, In_keys_set. split.
    + intros [[H | ->] | (w' & Hw' & ->)].
      * now left.
      * right. exists w. split; [now left | reflexivity].
      * right. exists w'. split; [now right | reflexivity].
    + intros [H | (w' & [<- | Hw'] & ->)].
      * left. now left.
      * left. now right.
      * right. exists w'. split; [exact Hw' | reflexivity].
Qed.

Lemma collect_hashtags_loop (videos : list VideoInfo.t) (d : dict HashtagStat.t) :
  NoDup (keys d) /\ Forall (fun item => sound_stat min_views (snd item)) d ->
  let d' :=
    fold_left (fun hashtags video =>
                 if min_views <=? VideoInfo.view_count video then
                   let text :=
                     VideoInfo.title video ++ " " ++
                     AIInfluencerFinder.text_or_empty (VideoInfo.description video) in
                   fold_left (AIInfluencerFinder.record_hashtag video)
                             (findall_hashtags text) hashtags
                 else hashtags)
              videos d in
  (NoDup (keys d') /\ Forall (fun item => sound_stat min_views (snd item)) d') /\
  (forall h, In h (keys d') <-> In h (keys d) \/ tagged_by min_views videos h).
Proof.
  revert d. induction videos as [|v videos IH]; intros d Hd; cbn zeta.
  - split; [exact Hd |]. intros h. simpl. unfold tagged_by.
    split; [tauto | intros [H | (video & w & [] & _)]; exact H].
  - cbn [fold_left]. cbn zeta. fold (hashtag_text v).
    destruct (Z.leb_spec min_views (VideoInfo.view_count v)) as [Hviews | Hfew].
    + destruct (record_words_invariant v (findall_hashtags (hashtag_text v)) d Hviews Hd)
        as [Hinv Hkeys]. cbn zeta in Hinv, Hkeys.
      destruct (IH _ Hinv) as [Hinv' Hkeys']. split; [exact Hinv' |].
      intros h. rewrite Hkeys', Hkeys. unfold tagged_by. split.
      * intros [[H | (w & Hw & ->)] | (video & w & Hin & Hrest)].
        -- now left.
        -- right. exists v, w.
           split; [now left | split; [exact Hviews | split; [exact Hw | reflexivity]]].
        -- right. exists video, w. split; [now right | exact Hrest].
      * intros [H | (video & w & [<- | Hin] & Hm & Hw & ->)].
        -- left. now left.
        -- left. right. exists w. split; [exact Hw | reflexivity].
        -- right. exists video, w.
           split; [exact Hin | split; [exact Hm | split; [exact Hw | reflexivity]]].
    + destruct (IH _ Hd) as [Hinv' Hkeys']. split; [exact Hinv' |].
      intros h. rewrite Hkeys'. unfold tagged_by. split.
      * intros [H | (video & w & Hin & Hrest)].
        -- now left.
        -- right. exists video, w. split; [now right | exact Hrest].
      * intros [H | (video & w & [<- | Hin] & Hm & Hrest)].
        -- now left.
        -- lia.
        -- right. exists video, w. split; [exact Hin | split; [exact Hm | exact Hrest]].
Qed.

Lemma collect_hashtags_facts (videos : list VideoInfo.t) :
  let table := AIInfluencerFinder.collect_hashtags min_views videos in
  NoDup (keys table) /\
  Forall (fun item => sound_stat min_views (snd item)) table /\
  (forall h, In h (keys table) <-> tagged_by min_views videos h).
Proof.
  cbn zeta. unfold AIInfluencerFinder.collect_hashtags.
  destruct (collect_hashtags_loop videos [] (conj (NoDup_nil _) (Forall_nil _)))
    as [[ND Hsound] Hkeys]. cbn zeta in ND, Hsound, Hkeys.
  split; [exact ND | split; [exact Hsound |]].
  intros h. rewrite Hkeys. simpl. tauto.
Qed.
End HashtagTable.

(** X11. The table that [get_successful_hashtags] builds has one entry for
    each lowercased hashtag of the videos with at least [min_views] views
    and none for any other; every entry was counted at least once, holds
    one video id per count, and totals at least [min_views] views per
    count, so the average it divides by the count is defined and at least
    [min_views]. *)
Theorem hashtag_table_sound (min_views : Z) (videos : list VideoInfo.t) :
  let table := AIInfluencerFinder.collect_hashtags min_views videos in
  NoDup (keys table) /\
  (forall h, In h (keys table) <-> tagged_by min_views videos h) /\
  Forall (fun item =>
            sound_stat min_views (snd item) /\
            (inject_Z min_views <= AIInfluencerFinder.avg_views (snd item))%Q)
         table.
Proof.
  cbn zeta. destruct (collect_hashtags_facts min_views videos) as (ND & Hsound & Hkeys).
  split; [exact ND | split; [exact Hkeys |]].
  rewrite Forall_forall in Hsound |- *. intros item Hin.
  specialize (Hsound item Hin). split; [exact Hsound |].
  destruct Hsound as (Hcount & _ & Htotal).
  unfold AIInfluencerFinder.avg_views. apply Qle_shift_div_l.
  - change 0%Q with (inject_Z 0). rewrite <- Zlt_Qlt. lia.
  - rewrite <- inject_Z_mult, <- Zle_Qle. exact Htotal.
Qed.

Lemma NoDup_map_hash (l : list string) :
  NoDup l -> NoDup (map (fun h => "#" ++ h) l).
Proof.
  induction 1 as [|x l Hx ND IH]; cbn [map]; constructor; [| exact IH].
  intros Hin. apply in_map_iff in Hin as (y & E & Hy).
  injection E as ->. contradiction.
Qed.

(** X12. [get_successful_hashtags] returns at most 50 hashtags and none
    twice; each is a hash sign followed by the lowercased form of a hashtag
    found in the title or description of a video with at least [min_views]
    views (100000 when the argument is left out), so a hashtag that only
    videos below the threshold carry is never returned; when at most 50
    distinct hashtags qualify, every one of them is returned.  No videos,
    given or stored, give the empty list. *)
Theorem successful_hashtags_sound (self_analyzed_videos : list VideoInfo.t)
        (videos : option (list VideoInfo.t)) (min_views : option Z) :
  let used := match videos with
              | None => self_analyzed_videos
              | Some l => l
              end in
  let threshold := match min_views with
                   | None => 100000
                   | Some m => m
                   end in
  let result :=
    AIInfluencerFinder.get_successful_hashtags self_analyzed_videos videos min_views in
  (List.length result <= 50)%nat /\
  NoDup result /\
  (forall tag, In tag result ->
               exists h, tag = "#" ++ h /\ tagged_by threshold used h) /\
  ((List.length (AIInfluencerFinder.collect_hashtags threshold used) <= 50)%nat ->
   forall h, tagged_by threshold used h -> In ("#" ++ h) result) /\
  (used = [] -> result = []).
Proof.
  cbn zeta.
  set (used := match videos with None => self_analyzed_videos | Some l => l end).
  set (threshold := match min_views with None => 100000 | Some m => m end).
  set (table := AIInfluencerFinder.collect_hashtags threshold used).
  set (sorted := sort_desc Qltb AIInfluencerFinder.hashtag_rank table).
  assert (E : AIInfluencerFinder.get_successful_hashtags
                self_analyzed_videos videos min_views =
              map (fun h => "#" ++ h) (map fst (firstn 50 sorted))).
  { unfold AIInfluencerFinder.get_successful_hashtags. fold used.
    change (match min_views with
            | Some m => m
            | None => config.MIN_VIEW_COUNT
            end) with threshold.
    rewrite map_map. destruct used; reflexivity. }
  rewrite E.
  destruct (collect_hashtags_facts threshold used) as (ND & _ & Hkeys).
  fold table in ND, Hkeys.
  pose proof (sort_desc_perm Qltb AIInfluencerFinder.hashtag_rank table) as P.
  fold sorted in P.
  assert (NDs : NoDup (map fst sorted))
    by (eapply Permutation_NoDup; [apply Permutation_map; symmetry; exact P | exact ND]).
  split; [| split; [| split; [| split]]].
  - rewrite !length_map, length_firstn. lia.
  - apply NoDup_map_hash. rewrite <- firstn_map. now apply NoDup_firstn.
  - intros tag Hin. apply in_map_iff in Hin as (h & <- & Hh).
    exists h. split; [reflexivity |]. apply Hkeys.
    rewrite <- firstn_map in Hh. apply In_firstn in Hh.
    eapply Permutation_in; [apply Permutation_map; exact P | exact Hh].
  - intros Hfew h Hh. apply in_map. rewrite firstn_all2.
    + eapply Permutation_in; [apply Permutation_map; symmetry; exact P |].
      now apply Hkeys.
    + now rewrite (Permutation_length P).
  - intros Hempty. unfold sorted, table. now rewrite Hempty.
Qed.

Lemma successful_hashtags_sound_witness :
  let videos := [FurtherExample.video_info; FurtherExample.small_video_info] in
  AIInfluencerFinder.get_successful_hashtags [] (Some videos) None = ["#ai"; "#ml"] /\
  tagged_by 100000 videos "ml" /\
  In "#ml" (AIInfluencerFinder.get_successful_hashtags [] (Some videos) None) /\
  AIInfluencerFinder.get_successful_hashtags [] None None = [].
Proof.
  cbn zeta.
  assert (Htag : tagged_by 100000
                           [FurtherExample.video_info; FurtherExample.small_video_info]
                           "ml").
  { exists FurtherExample.video_info, "ml".
    split; [now left | split; [vm_compute; discriminate |]].
    split; [vm_compute; tauto | reflexivity]. }
  assert (Hfew : (List.length
                    (AIInfluencerFinder.collect_hashtags
                       100000
                       [FurtherExample.video_info; FurtherExample.small_video_info])
                  <= 50)%nat)
    by (vm_compute; lia).
  pose proof (successful_hashtags_sound
                [] (Some [FurtherExample.video_info; FurtherExample.small_video_info])
                None) as (_ & _ & _ & Hall & _).
  pose proof (successful_hashtags_sound [] None None) as (_ & _ & _ & _ & Hnone).
  split; [vm_compute; reflexivity | split; [exact Htag | split]].
  - exact (Hall Hfew "ml" Htag).
  - exact (Hnone eq_refl).
Defined.

(** ** More on hashtag selection, trend scores and view estimates *)

Lemma pad_hashtags_NoDup (relevant popular : list string) :
  NoDup relevant -> NoDup (AIContentGenerator.pad_hashtags relevant popular).
Proof.
  revert relevant. induction popular as [|h popular IH]; intros relevant ND;
    cbn [AIContentGenerator.pad_hashtags]; [exact ND |].
  destruct (List.length relevant <? 8)%nat; [| exact ND].
  apply IH. destruct (mem h relevant) eqn:M; [exact ND |].
  apply NoDup_app; [exact ND | repeat constructor; auto |].
  intros a Ha [<- | []]. apply mem_not_In in M. contradiction.
Qed.

Lemma pad_hashtags_In (relevant popular : list string) (x : string) :
  In x (AIContentGenerator.pad_hashtags relevant popular) ->
  In x relevant \/ In x popular.
Proof.
  revert relevant. induction popular as [|h popular IH]; intros relevant;
    cbn [AIContentGenerator.pad_hashtags]; [now left |].
  destruct (List.length relevant <? 8)%nat; [| now left].
  intros H. apply IH in H as [H | H]; [| right; now right].
  destruct (mem h relevant); [now left |].
  apply in_app_or in H as [H | [<- | []]]; [now left | right; now left].
Qed.

(** X13. Whatever the limit, hashtag selection returns no hashtag twice,
    and every hashtag it returns is either a hashtag of the input with a
    positive score for the title or one of the six popular AI hashtags. *)
Theorem selected_hashtags_distinct (title : string) (hashtags : list string)
        (max_hashtags : Z) :
  let selected :=
    AIContentGenerator._select_hashtags_for_topic title hashtags max_hashtags in
  NoDup selected /\
  (forall h, In h selected ->
             (In h hashtags /\ 0 < AIContentGenerator.hashtag_score (lower title) h) \/
             In h AIContentGenerator.popular_ai_hashtags).
Proof.
  cbn zeta. unfold AIContentGenerator._select_hashtags_for_topic.
  destruct (score_hashtags_keys (lower title) hashtags) as [ND Hkeys].
  set (d := AIContentGenerator.score_hashtags (lower title) hashtags) in *.
  pose proof (sort_desc_perm Z.ltb snd d) as P.
  set (sorted := sort_desc Z.ltb snd d) in *.
  assert (NDs : NoDup (map fst sorted))
    by (eapply Permutation_NoDup; [apply Permutation_map; symmetry; exact P | exact ND]).
  split.
  - apply pad_hashtags_NoDup. unfold slice_to.
    destruct (max_hashtags <? 0); rewrite <- firstn_map; now apply NoDup_firstn.
  - intros h Hin. apply pad_hashtags_In in Hin as [Hin | Hin]; [left | now right].
    apply in_map_iff in Hin as (item & <- & Hitem). apply In_slice_to in Hitem.
    assert (Hk : In (fst item) (keys d))
      by (apply in_map; eapply Permutation_in; [exact P | exact Hitem]).
    apply Hkeys in Hk. unfold scored in Hk. apply filter_In in Hk as [Hh Hs].
    split; [exact Hh | now apply Z.ltb_lt].
Qed.

Lemma topic_points_nonneg (text : string) (table : dict Z) :
  Forall (fun item => 0 <= snd item) table -> 0 <= topic_points text table.
Proof.
  unfold topic_points. induction 1 as [|[topic frequency] table H0 _ IH];
    cbn [filter map fold_right fst snd]; [lia |].
  simpl in H0. destruct (contains topic text); cbn [map fold_right snd]; lia.
Qed.

(** X14. The trend score never exceeds 100, and it is not negative when no
    frequency of the trend table is; a table with a negative frequency can
    make it negative, since only the upper end is capped. *)
Theorem trend_score_range (title : string) (trending_topics : dict Z) :
  AIContentGenerator._calculate_trend_score title trending_topics <= 100 /\
  (Forall (fun item => 0 <= snd item) trending_topics ->
   0 <= AIContentGenerator._calculate_trend_score title trending_topics) /\
  AIContentGenerator._calculate_trend_score "AI" [("ai", -3)] = -6.
Proof.
  unfold AIContentGenerator._calculate_trend_score.
  rewrite topic_loop_sum, add_matches_count, min_Z_min.
  split; [lia | split; [| reflexivity]].
  intros H. pose proof (topic_points_nonneg (lower title) trending_topics H). lia.
Qed.

Lemma trend_score_range_witness :
  Forall (fun item : string * Z => 0 <= snd item) [("ai", 10)] /\
  0 <= AIContentGenerator._calculate_trend_score "Why AI is the Future" [("ai", 10)].
Proof.
  assert (H : Forall (fun item : string * Z => 0 <= snd item) [("ai", 10)])
    by (repeat constructor; simpl; lia).
  split; [exact H |].
  exact (proj1 (proj2 (trend_score_range "Why AI is the Future" [("ai", 10)])) H).
Defined.

Lemma random_range (r : rng) : (0 <= fst (random r))%Q /\ (fst (random r) < 1)%Q.
Proof.
  unfold random. destruct (next r) as [n r']. cbn [fst].
  pose proof (Z.mod_pos_bound (Z.of_N n) (2 ^ 53) ltac:(lia)) as [Hlow Hhigh].
  unfold Qle, Qlt. cbn [Qnum Qden]. split; [lia |].
  change (Z.pos (2 ^ 53)) with (2 ^ 53). lia.
Qed.

Lemma uniform_range (r : rng) :
  (1 # 2 <= fst (uniform (1 # 2) (3 # 2) r))%Q /\
  (fst (uniform (1 # 2) (3 # 2) r) < 3 # 2)%Q.
Proof.
  unfold uniform. pose proof (random_range r) as [Hlow Hhigh].
  destruct (random r) as [u r']. cbn [fst] in *. split; lra.
Qed.

Lemma int_of_Q_floor (x : Q) : (0 <= x)%Q -> int_of_Q x = Qfloor x.
Proof.
  destruct x as [n d]. unfold Qle, int_of_Q, Qfloor. cbn [Qnum Qden].
  intros H. apply Z.quot_div_nonneg; lia.
Qed.

Lemma base_views_values (category : string) :
  In (get AIContentGenerator.base_views category 150000)
     [150000; 200000; 180000; 120000; 250000; 100000].
Proof.
  unfold AIContentGenerator.base_views. simpl.
  repeat match goal with
         | |- context [String.eqb category ?k] => destruct (String.eqb category k)
         end; auto 10.
Qed.

Lemma estimate_views_bounds (trend_score : Q) (category : string) (r : rng) :
  (0 <= trend_score)%Q -> (trend_score <= 100)%Q ->
  let base := get AIContentGenerator.base_views category 150000 in
  let views := fst (AIContentGenerator._estimate_views trend_score category r) in
  base <= 2 * views /\ views < 3 * base /\ 50000 <= views < 750000.
Proof.
  intros Hlow Hhigh. cbn zeta. unfold AIContentGenerator._estimate_views.
  pose proof (uniform_range r) as [Hu1 Hu2].
  destruct (uniform (1 # 2) (3 # 2) r) as [u r']. cbn [fst] in *.
  set (base := get AIContentGenerator.base_views category 150000).
  set (x := (inject_Z base * (1 + trend_score / 100) * u)%Q).
  assert (Hbase : In base [150000; 200000; 180000; 120000; 250000; 100000])
    by apply base_views_values.
  assert (Hm : (1 <= 1 + trend_score / 100)%Q /\ (1 + trend_score / 100 <= 2)%Q).
  { assert (E : (trend_score / 100 == trend_score * (1 # 100))%Q) by reflexivity.
    rewrite E. split; lra. }
  set (m := (1 + trend_score / 100)%Q) in *. destruct Hm as [Hm1 Hm2].
  assert (Hb : (100000 <= inject_Z base)%Q /\ (inject_Z base <= 250000)%Q).
  { change 100000%Q with (inject_Z 100000). change 250000%Q with (inject_Z 250000).
    rewrite <- !Zle_Qle. simpl in Hbase.
    destruct Hbase as [<- | [<- | [<- | [<- | [<- | [<- | []]]]]]]; lia. }
  destruct Hb as [Hb1 Hb2].
  assert (Hbm1 : (inject_Z base <= inject_Z base * m)%Q) by nra.
  assert (Hbm2 : (inject_Z base * m <= inject_Z base * 2)%Q) by nra.
  set (bm := (inject_Z base * m)%Q) in *.
  assert (Hx1 : (bm * (1 # 2) <= x)%Q) by (unfold x; nra).
  assert (Hx2 : (x < bm * (3 # 2))%Q) by (unfold x; nra).
  assert (Hx0 : (0 <= x)%Q) by lra.
  rewrite (int_of_Q_floor x Hx0).
  pose proof (Qfloor_le x) as Hf1. pose proof (Qlt_floor x) as Hf2.
  assert (H1 : (inject_Z base * (1 # 2) < inject_Z (Qfloor x + 1))%Q) by lra.
  assert (H2 : (inject_Z (Qfloor x) < inject_Z base * 3)%Q) by lra.
  assert (H1' : (inject_Z base < inject_Z (2 * (Qfloor x + 1)))%Q)
    by (rewrite inject_Z_mult; change (inject_Z 2) with 2%Q; lra).
  assert (H2' : (inject_Z (Qfloor x) < inject_Z (base * 3))%Q)
    by (rewrite inject_Z_mult; change (inject_Z 3) with 3%Q; lra).
  rewrite <- Zlt_Qlt in H1', H2'.
  simpl in Hbase.
  destruct Hbase as [E | [E | [E | [E | [E | [E | []]]]]]]; rewrite <- E in *; lia.
Qed.

(** X15. For a trend score between 0 and 100 the estimated views lie
    between half the base views of the category and three times them; the
    base is one of six values between 100000 and 250000, 150000 for an
    unknown category, so every estimate lies between 50000 and 750000. *)
Theorem estimated_views_range (trend_score : Q) (category : string) (r : rng) :
  (0 <= trend_score)%Q -> (trend_score <= 100)%Q ->
  let base := get AIContentGenerator.base_views category 150000 in
  let views := fst (AIContentGenerator._estimate_views trend_score category r) in
  base <= 2 * views /\ views <= 3 * base /\ 50000 <= views <= 750000.
Proof.
  intros Hlow Hhigh. cbn zeta.
  pose proof (estimate_views_bounds trend_score category r Hlow Hhigh) as H.
  cbn zeta in H. lia.
Qed.

Lemma estimated_views_range_witness :
  (0 <= 25)%Q /\ (25 <= 100)%Q /\
  50000 <= fst (AIContentGenerator._estimate_views 25 "podcast" [4503599627370496%N])
  <= 750000.
Proof.
  assert (H1 : (0 <= 25)%Q) by (unfold Qle; simpl; lia).
  assert (H2 : (25 <= 100)%Q) by (unfold Qle; simpl; lia).
  split; [exact H1 | split; [exact H2 |]].
  exact (proj2 (proj2 (estimated_views_range 25 "podcast" [4503599627370496%N] H1 H2))).
Defined.

(** X16. The key topics of a title are at most five; each is the
    title-cased form of a keyword of the fixed vocabulary that occurs in
    the lowercased title, and there is none exactly when no keyword
    occurs. *)
Theorem key_topics_from_title (title : string) :
  let found := AIContentGenerator._extract_key_topics title in
  (List.length found <= 5)%nat /\
  (forall topic, In topic found ->
                 exists keyword,
                   In keyword AIContentGenerator.ai_keywords /\
                   contains keyword (lower title) = true /\
                   topic = PyStr.title keyword) /\
  (found = [] <-> matches AIContentGenerator.ai_keywords (lower title) = []).
Proof.
  cbn zeta. unfold AIContentGenerator._extract_key_topics.
  fold (matches AIContentGenerator.ai_keywords (lower title)).
  set (hits := matches AIContentGenerator.ai_keywords (lower title)).
  change (slice_to (map PyStr.title hits) 5) with (firstn 5 (map PyStr.title hits)).
  split; [| split].
  - rewrite length_firstn. lia.
  - intros topic Hin. apply In_firstn, in_map_iff in Hin as (keyword & <- & Hk).
    unfold hits, matches in Hk. apply filter_In in Hk as [Hk Hc]. eauto.
  - destruct hits as [|k hits]; simpl; split; congruence.
Qed.

(** ** The ideas and scripts that the generator returns *)

Lemma count_from_S (first : Z) (n : nat) :
  count_from first (S n) = first :: count_from (first + 1) n.
Proof.
  unfold count_from. cbn [seq map]. f_equal; [lia |].
  rewrite <- seq_shift, map_map. apply map_ext. intros k. lia.
Qed.

Lemma sorted_by_Zltb {A : Type} (key : A -> Z) (l : list A) :
  StronglySorted (not_above Z.ltb key) l ->
  StronglySorted (fun a b => key b <= key a) l.
Proof.
  induction 1 as [|a l Hl IH Ha]; constructor; [exact IH |].
  eapply Forall_impl; [| exact Ha].
  intros b Hb. unfold not_above in Hb. now apply Z.ltb_ge in Hb.
Qed.

Section IdeaFields.
Variable created_at : Z -> string.
Variable trending_topics : dict Z.
Variable successful_hashtags : list string.
Variable top_topics : list string.

Lemma make_idea_fields (i : Z) (r : rng) :
  exists idea r',
    AIContentGenerator.make_idea created_at trending_topics successful_hashtags
                                 top_topics i r = Ok (idea, r') /\
    ContentIdea.id idea = i + 1 /\
    derived trending_topics successful_hashtags idea /\
    (Forall (fun item => 0 <= snd item) trending_topics -> plausible idea).
Proof.
  unfold AIContentGenerator.make_idea.
  destruct (choice_in_pool (keys AIContentGenerator.content_templates) r
                           ltac:(discriminate))
    as (category & r1 & Hcat & ->).
  cbn [bind fst snd].
  destruct (templates_of_category category Hcat) as (templates & -> & Hne).
  cbn [bind].
  destruct (choice_in_pool templates r1 Hne) as (template & r2 & _ & ->).
  cbn [bind fst snd].
  destruct (title_generation_ends template top_topics r2)
    as (title & r3 & -> & _).
  cbn [bind fst snd].
  unfold AIContentGenerator._generate_thumbnail_concept.
  destruct (choice_in_pool _ r3 (thumbnail_concepts_nonempty category))
    as (concept & r4 & _ & ->).
  cbn [bind fst snd].
  set (score := AIContentGenerator._calculate_trend_score title trending_topics).
  pose proof (estimate_views_bounds (inject_Z score) category r4) as Hviews.
  destruct (AIContentGenerator._estimate_views _ category r4) as [views r5].
  eexists. eexists. split; [reflexivity |].
  split; [reflexivity |]. split.
  - unfold derived.
    cbn [ContentIdea.category ContentIdea.trend_score ContentIdea.hashtags
         ContentIdea.difficulty ContentIdea.target_audience ContentIdea.key_topics
         ContentIdea.title].
    repeat split; exact Hcat.
  - intros Hnonneg. unfold plausible.
    cbn [ContentIdea.trend_score ContentIdea.estimated_views].
    assert (Hscore : 0 <= score <= 100).
    { unfold score, AIContentGenerator._calculate_trend_score.
      rewrite topic_loop_sum, add_matches_count, min_Z_min.
      pose proof (topic_points_nonneg (lower title) trending_topics Hnonneg). lia. }
    split; [exact Hscore |].
    cbn [fst] in Hviews.
    assert (H0 : (0 <= inject_Z score)%Q)
      by (change 0%Q with (inject_Z 0); rewrite <- Zle_Qle; lia).
    assert (H100 : (inject_Z score <= 100)%Q)
      by (change 100%Q with (inject_Z 100); rewrite <- Zle_Qle; lia).
    specialize (Hviews H0 H100). lia.
Qed.

Lemma ideas_loop_fields (n : nat) (i : Z) (r : rng) :
  exists ideas r',
    AIContentGenerator.ideas_loop created_at trending_topics successful_hashtags
                                  top_topics n i r = Ok (ideas, r') /\
    map ContentIdea.id ideas = count_from (i + 1) n /\
    Forall (derived trending_topics successful_hashtags) ideas /\
    (Forall (fun item => 0 <= snd item) trending_topics -> Forall plausible ideas).
Proof.
  revert i r. induction n as [|n IH]; intros i r;
    cbn [AIContentGenerator.ideas_loop].
  - exists [], r. repeat split; constructor.
  - destruct (make_idea_fields i r) as (idea & r1 & -> & Hid & Hd & Hp).
    cbn [bind fst snd].
    destruct (IH (i + 1) r1) as (ideas & r2 & -> & Hids & Hds & Hps).
    cbn [bind fst snd].
    exists (idea :: ideas), r2. split; [reflexivity |]. split; [| split].
    + rewrite count_from_S. cbn [map]. now rewrite Hid, Hids.
    + now constructor.
    + intros H. constructor; auto.
Qed.
End IdeaFields.

(** X17. [generate_content_ideas] returns its ideas in descending order of
    trend score; their ids are the numbers 1 to the requested count, each
    once, in whatever order the sort leaves them; every idea's category is
    one of the six and its score, hashtags, difficulty, audience and key
    topics are the ones computed from its own title.  When no frequency of
    the trend table is negative every score is between 0 and 100 and every
    view estimate between 50000 and 750000. *)
Theorem content_ideas_ranked (created_at : Z -> string) (trending_topics : dict Z)
        (successful_hashtags : list string) (num_ideas : Z) (r : rng) :
  exists ideas r',
    AIContentGenerator.generate_content_ideas
      created_at trending_topics successful_hashtags num_ideas r = Ok (ideas, r') /\
    StronglySorted (fun a b => ContentIdea.trend_score b <= ContentIdea.trend_score a)
                   ideas /\
    Permutation (map ContentIdea.id ideas) (count_from 1 (Z.to_nat num_ideas)) /\
    Forall (derived trending_topics successful_hashtags) ideas /\
    (Forall (fun item => 0 <= snd item) trending_topics -> Forall plausible ideas).
Proof.
  unfold AIContentGenerator.generate_content_ideas.
  destruct (ideas_loop_fields created_at trending_topics successful_hashtags
                              (slice_to (keys trending_topics) 20)
                              (Z.to_nat num_ideas) 0 r)
    as (ideas & r' & -> & Hids & Hd & Hp).
  cbn [bind fst snd]. eexists. eexists. split; [reflexivity |].
  pose proof (sort_desc_perm Z.ltb ContentIdea.trend_score ideas) as Hperm.
  split; [| split; [| split]].
  - apply sorted_by_Zltb, sort_desc_sorted; [exact Zltb_asym | exact Zltb_negtrans].
  - change (count_from 1 (Z.to_nat num_ideas))
      with (count_from (0 + 1) (Z.to_nat num_ideas)).
    rewrite <- Hids. now apply Permutation_map.
  - eapply Permutation_Forall; [symmetry; exact Hperm | exact Hd].
  - intros H. eapply Permutation_Forall; [symmetry; exact Hperm | exact (Hp H)].
Qed.

Lemma content_ideas_ranked_witness :
  Forall (fun item : string * Z => 0 <= snd item) [("ai", 10)] /\
  exists ideas r',
    AIContentGenerator.generate_content_ideas
      (fun _ => "2024-01-01T00:00:00") [("ai", 10)] ["#ai"] 3 [] = Ok (ideas, r') /\
    Forall plausible ideas.
Proof.
  assert (H : Forall (fun item : string * Z => 0 <= snd item) [("ai", 10)])
    by (repeat constructor; simpl; lia).
  split; [exact H |].
  destruct (content_ideas_ranked (fun _ => "2024-01-01T00:00:00")
                                 [("ai", 10)] ["#ai"] 3 [])
    as (ideas & r' & E & _ & _ & _ & Hp).
  exists ideas, r'. split; [exact E | exact (Hp H)].
Defined.

Section ScriptFields.
Variable created_at : Z -> string.

Lemma scripts_loop_fields (i : Z) (top_ideas : list ContentIdea.t) :
  let scripts := AIContentGenerator.scripts_loop created_at i top_ideas in
  map VideoScript.id scripts = count_from i (List.length top_ideas) /\
  map VideoScript.title scripts = map ContentIdea.title top_ideas /\
  map VideoScript.category scripts = map ContentIdea.category top_ideas /\
  map VideoScript.hashtags scripts = map ContentIdea.hashtags top_ideas /\
  map VideoScript.thumbnail_concept scripts =
    map ContentIdea.thumbnail_concept top_ideas /\
  map VideoScript.script scripts =
    map AIContentGenerator._generate_script_for_idea top_ideas /\
  Forall scripted scripts.
Proof.
  cbn zeta. revert i. induction top_ideas as [|idea rest IH]; intros i.
  - cbn. repeat split. constructor.
  - destruct (IH (i + 1)) as (H1 & H2 & H3 & H4 & H5 & H6 & H7).
    cbn [AIContentGenerator.scripts_loop map List.length VideoScript.id
         VideoScript.title VideoScript.category VideoScript.hashtags
         VideoScript.thumbnail_concept VideoScript.script].
    rewrite count_from_S, H1, H2, H3, H4, H5, H6.
    repeat (split; [reflexivity |]).
    constructor; [| exact H7]. unfold scripted.
    cbn [VideoScript.estimated_duration VideoScript.word_count VideoScript.key_points
         VideoScript.call_to_action VideoScript.script VideoScript.category].
    repeat split.
Qed.
End ScriptFields.

(** X18. [generate_video_scripts] writes one script per idea of the slice
    [content_ideas[:num_scripts]], in the order of the ideas: the ids count
    up from 1, title, category, hashtags and thumbnail are the idea's, the
    text is the one generated for the idea, and duration, word count, key
    points and call to action are computed from that text and category.
    A count that is not negative gives that many scripts or as many as
    there are ideas; a negative count leaves out that many ideas from the
    end instead of failing. *)
Theorem video_scripts_follow_ideas (created_at : Z -> string)
        (content_ideas : list ContentIdea.t) (num_scripts : Z) :
  let top_ideas := slice_to content_ideas num_scripts in
  let scripts :=
    AIContentGenerator.generate_video_scripts created_at content_ideas num_scripts in
  map VideoScript.id scripts = count_from 1 (List.length top_ideas) /\
  map VideoScript.title scripts = map ContentIdea.title top_ideas /\
  map VideoScript.category scripts = map ContentIdea.category top_ideas /\
  map VideoScript.hashtags scripts = map ContentIdea.hashtags top_ideas /\
  map VideoScript.thumbnail_concept scripts =
    map ContentIdea.thumbnail_concept top_ideas /\
  map VideoScript.script scripts =
    map AIContentGenerator._generate_script_for_idea top_ideas /\
  Forall scripted scripts /\
  List.length scripts =
    if num_scripts <? 0
    then (List.length content_ideas - Z.to_nat (- num_scripts))%nat
    else Nat.min (Z.to_nat num_scripts) (List.length content_ideas).
Proof.
  cbn zeta. unfold AIContentGenerator.generate_video_scripts.
  destruct (scripts_loop_fields created_at 1 (slice_to content_ideas num_scripts))
    as (H1 & H2 & H3 & H4 & H5 & H6 & H7).
  repeat (split; [assumption |]).
  rewrite <- (length_map VideoScript.id), H1. unfold count_from.
  rewrite length_map, length_seq. unfold slice_to.
  destruct (Z.ltb_spec num_scripts 0); rewrite length_firstn; lia.
Qed.

Lemma minutes_below (word_count k : Z) :
  0 <= word_count ->
  Qltb (inject_Z word_count / 155) (inject_Z k) = (word_count <? 155 * k).
Proof.
  intros H. destruct (Z.ltb_spec word_count (155 * k)) as [L | L].
  - apply Qltb_lt. unfold Qlt. cbn. lia.
  - apply Qltb_ge. unfold Qle. cbn. lia.
Qed.

Lemma minutes_whole (word_count : Z) :
  0 <= word_count -> int_of_Q (inject_Z word_count / 155) = word_count / 155.
Proof.
  intros H. unfold int_of_Q. cbn [Qnum Qden Qdiv Qmult Qinv inject_Z].
  change (Z.pos (1 * 155)) with 155. rewrite Z.mul_1_r.
  apply Z.quot_div_nonneg; lia.
Qed.

(** X19. The duration label depends on the number of words only, through an
    integer division: below 155 words it is "< 1 minute"; otherwise, with
    [n] the words divided by 155 rounded down, it is "n-m minutes" where
    [m] is [n + 1] below 775 words, [n + 2] below 1550 words and [n + 3]
    from there on. *)
Theorem script_duration_buckets (script : string) :
  let words := AIContentGenerator.word_count script in
  let n := words / 155 in
  AIContentGenerator._estimate_script_duration script =
  if words <? 155 then "< 1 minute"
  else str n ++ "-" ++
       str (n + (if words <? 775 then 1 else if words <? 1550 then 2 else 3)) ++
       " minutes".
Proof.
  cbn zeta. unfold AIContentGenerator._estimate_script_duration.
  assert (H : 0 <= AIContentGenerator.word_count script)
    by (unfold AIContentGenerator.word_count; lia).
  set (words := AIContentGenerator.word_count script) in *.
  change 1%Q with (inject_Z 1). change 5%Q with (inject_Z 5).
  change 10%Q with (inject_Z 10).
  rewrite !(minutes_below words _ H), (minutes_whole words H).
  change (155 * 1) with 155. change (155 * 5) with 775. change (155 * 10) with 1550.
  destruct (words <? 155); [reflexivity |].
  destruct (words <? 775); [reflexivity |].
  destruct (words <? 1550); reflexivity.
Qed.

Lemma lstrip_clean (s : string) : starts_clean (lstrip s).
Proof.
  induction s as [|c s IH]; cbn [lstrip]; [exact I |].
  destruct (is_space c) eqn:E; [exact IH | exact E].
Qed.

Lemma lstrip_suffix (s : string) : exists a, s = a ++ lstrip s.
Proof.
  induction s as [|c s [a IH]]; cbn [lstrip]; [now exists EmptyString |].
  destruct (is_space c).
  - exists (String c a). simpl. now rewrite <- IH.
  - now exists EmptyString.
Qed.

Lemma rev_string_app (a b : string) :
  rev_string EmptyString (a ++ b) =
  rev_string EmptyString b ++ rev_string EmptyString a.
Proof.
  induction a as [|c a IH].
  - simpl. now rewrite append_nil_r.
  - change (String c a ++ b) with (String c (a ++ b)).
    rewrite !rev_string_cons, IH, append_assoc. reflexivity.
Qed.

Lemma rev_string_involutive (s : string) :
  rev_string EmptyString (rev_string EmptyString s) = s.
Proof.
  induction s as [|c s IH]; [reflexivity |].
  rewrite rev_string_cons, rev_string_app, IH. reflexivity.
Qed.

Lemma rstrip_prefix (t : string) : exists z, t = rstrip t ++ z.
Proof.
  destruct (lstrip_suffix (rev_string EmptyString t)) as [a E].
  exists (rev_string EmptyString a). unfold rstrip.
  rewrite <- rev_string_app, <- E. symmetry. apply rev_string_involutive.
Qed.

Lemma starts_clean_prefix (p z : string) : starts_clean (p ++ z) -> starts_clean p.
Proof. destruct p; simpl; auto. Qed.

Lemma strip_trimmed (s : string) : trimmed (strip s).
Proof.
  unfold trimmed, strip. split.
  - destruct (rstrip_prefix (lstrip s)) as [z E].
    apply starts_clean_prefix with z. rewrite <- E. apply lstrip_clean.
  - unfold rstrip. rewrite rev_string_involutive. apply lstrip_clean.
Qed.

(** X20. The key points of a script are at most five and carry no white
    space at either end.  When some stripped line of the script opens like
    a numbered step ("Step ", "1.", "First,", "Second,", "Finally,") they
    are such lines and nothing else; only when there is none are they the
    stripped sentences, cut at full stops, that hold one of the five key
    phrases. *)
Theorem script_key_points_shape (script : string) :
  let points := AIContentGenerator._extract_script_key_points script in
  (List.length points <= 5)%nat /\
  Forall trimmed points /\
  (structured_lines script <> [] ->
   points <> [] /\
   forall point, In point points ->
                 AIContentGenerator.is_structured_point point = true /\
                 In point (map strip (split_on (ascii_of_nat 10) script))) /\
  (structured_lines script = [] ->
   forall point, In point points ->
                 exists sentence,
                   In sentence (split_on "." script) /\
                   any_in AIContentGenerator.key_phrases (lower sentence) = true /\
                   point = strip sentence).
Proof.
  cbn zeta. unfold AIContentGenerator._extract_script_key_points.
  fold (structured_lines script).
  set (sentences :=
         map strip
             (filter (fun sentence =>
                        any_in AIContentGenerator.key_phrases (lower sentence))
                     (split_on "." script))).
  assert (Hlines : Forall trimmed (structured_lines script)).
  { apply Forall_forall. intros p Hp. unfold structured_lines in Hp.
    apply filter_In in Hp as [Hp _]. apply in_map_iff in Hp as (l & <- & _).
    apply strip_trimmed. }
  assert (Hsent : Forall trimmed sentences).
  { apply Forall_forall. intros p Hp. unfold sentences in Hp.
    apply in_map_iff in Hp as (l & <- & _). apply strip_trimmed. }
  change (slice_to ?l 5) with (firstn 5 l).
  split; [rewrite length_firstn; lia |].
  split; [| split].
  - apply Forall_forall. intros p Hp. apply In_firstn in Hp.
    destruct (structured_lines script);
      [eapply Forall_forall in Hsent | eapply Forall_forall in Hlines]; eauto.
  - intros Hne. destruct (structured_lines script) as [|p ps] eqn:E; [congruence |].
    split; [discriminate |].
    intros point Hp. apply In_firstn in Hp. rewrite <- E in Hp.
    unfold structured_lines in Hp. apply filter_In in Hp as [H1 H2]. now split.
  - intros ->. intros point Hp. apply In_firstn in Hp. unfold sentences in Hp.
    apply in_map_iff in Hp as (sentence & <- & Hs).
    apply filter_In in Hs as [H1 H2]. eauto.
Qed.

Lemma script_key_points_shape_witness :
  structured_lines "Intro. Step 1: install. The key idea." = [] /\
  forall point,
    In point (AIContentGenerator._extract_script_key_points
                "Intro. Step 1: install. The key idea.") ->
    exists sentence,
      In sentence (split_on "." "Intro. Step 1: install. The key idea.") /\
      any_in AIContentGenerator.key_phrases (lower sentence) = true /\
      point = strip sentence.
Proof.
  assert (H : structured_lines "Intro. Step 1: install. The key idea." = [])
    by reflexivity.
  split; [exact H |].
  exact (proj2 (proj2 (proj2
           (script_key_points_shape "Intro. Step 1: install. The key idea."))) H).
Defined.

(** ** What the scripts and the ranking always hold *)

Lemma prefix_app (p b : string) : prefix p (p ++ b) = true.
Proof.
  induction p as [|c p IH]; [now destruct b |].
  cbn [append prefix]. destruct (ascii_dec c c); [exact IH | congruence].
Qed.

Lemma prefix_split (p s : string) : prefix p s = true -> exists b, s = p ++ b.
Proof.
  revert s. induction p as [|c p IH]; intros s; [intros _; now exists s |].
  destruct s as [|d s]; cbn [prefix]; [discriminate |].
  destruct (ascii_dec c d) as [<- |]; [| discriminate].
  intros H. destruct (IH s H) as [b ->]. now exists b.
Qed.

Lemma contains_prefix (p s : string) : prefix p s = true -> contains p s = true.
Proof. intros H. destruct s; cbn [contains]; now rewrite H. Qed.

Lemma contains_middle (a p b : string) : contains p (a ++ p ++ b) = true.
Proof.
  induction a as [|c a IH].
  - change (EmptyString ++ p ++ b) with (p ++ b).
    apply contains_prefix. exact (prefix_app p b).
  - change (String c a ++ p ++ b) with (String c (a ++ p ++ b)).
    rewrite contains_step. now destruct (prefix p _).
Qed.

Lemma contains_split (p s : string) :
  contains p s = true -> exists a b, s = a ++ p ++ b.
Proof.
  induction s as [|c s IH].
  - cbn [contains]. destruct (prefix p EmptyString) eqn:P; [| discriminate].
    intros _. apply prefix_split in P as [b ->]. now exists EmptyString, b.
  - rewrite contains_step. destruct (prefix p (String c s)) eqn:P.
    + intros _. apply prefix_split in P as [b ->]. now exists EmptyString, b.
    + intros H. destruct (IH H) as (a & b & ->). now exists (String c a), b.
Qed.

Lemma lower_app (a b : string) : lower (a ++ b) = lower a ++ lower b.
Proof. induction a as [|c a IH]; simpl; [reflexivity | now rewrite IH]. Qed.

Lemma lower_ascii_idempotent (c : ascii) : lower_ascii (lower_ascii c) = lower_ascii c.
Proof. destruct c as [[] [] [] [] [] [] [] []]; reflexivity. Qed.

Lemma lower_idempotent (s : string) : lower (lower s) = lower s.
Proof.
  induction s as [|c s IH]; simpl; [reflexivity |].
  now rewrite lower_ascii_idempotent, IH.
Qed.

Lemma contains_lower (p s : string) :
  contains p s = true -> contains (lower p) (lower s) = true.
Proof.
  intros H. apply contains_split in H as (a & b & ->).
  rewrite !lower_app. apply contains_middle.
Qed.

Lemma lines_mention (a t b : string) (rest : list string) :
  contains t (AIContentGenerator.lines
                (EmptyString :: (a ++ t ++ b) :: EmptyString :: rest)) = true.
Proof.
  unfold AIContentGenerator.lines. cbn [join].
  change (EmptyString ++ ?x) with x.
  rewrite (append_assoc a), <- (append_assoc _ a), (append_assoc t).
  apply contains_middle.
Qed.

Lemma lines_mention_last (a t : string) (rest : list string) :
  contains t (AIContentGenerator.lines
                (EmptyString :: (a ++ t) :: EmptyString :: rest)) = true.
Proof.
  pose proof (lines_mention a t EmptyString rest) as H.
  now rewrite (append_nil_r t) in H.
Qed.

(** X21. Every generated script mentions the title of its idea: the
    scripts of the categories tutorial, news, explanation, prediction and
    review hold the title in lower case, the comparison script and the
    general script of any other category hold it as given, so that the
    lowercased script holds the lowercased title in every case. *)
Theorem script_mentions_title (idea : ContentIdea.t) :
  let title := ContentIdea.title idea in
  let category := ContentIdea.category idea in
  let script := AIContentGenerator._generate_script_for_idea idea in
  contains (lower title) (lower script) = true /\
  (In category ["tutorial"; "news"; "explanation"; "prediction"; "review"] ->
   contains (lower title) script = true) /\
  (~ In category ["tutorial"; "news"; "explanation"; "prediction"; "review"] ->
   contains title script = true).
Proof.
  cbn zeta. unfold AIContentGenerator._generate_script_for_idea.
  set (title := ContentIdea.title idea). set (category := ContentIdea.category idea).
  assert (T : contains (lower title)
                (AIContentGenerator._generate_tutorial_script title) = true)
    by apply lines_mention.
  assert (N : contains (lower title)
                (AIContentGenerator._generate_news_script title) = true)
    by apply lines_mention.
  assert (C : contains title
                (AIContentGenerator._generate_comparison_script title) = true)
    by apply lines_mention_last.
  assert (E : contains (lower title)
                (AIContentGenerator._generate_explanation_script title) = true)
    by apply lines_mention.
  assert (P : contains (lower title)
                (AIContentGenerator._generate_prediction_script title) = true)
    by apply lines_mention.
  assert (R : contains (lower title)
                (AIContentGenerator._generate_review_script title) = true)
    by apply lines_mention.
  assert (G : contains title
                (AIContentGenerator._generate_general_script title) = true)
    by apply lines_mention.
  assert (L : forall s, contains (lower title) s = true ->
                        contains (lower title) (lower s) = true).
  { intros s H. apply contains_lower in H. now rewrite lower_idempotent in H. }
  destruct (String.eqb_spec category "tutorial") as [-> | H1].
  { split; [now apply L | split; [now intros _ | intros H; elim H; simpl; auto]]. }
  destruct (String.eqb_spec category "news") as [-> | H2].
  { split; [now apply L | split; [now intros _ | intros H; elim H; simpl; auto]]. }
  destruct (String.eqb_spec category "comparison") as [-> | H3].
  { split; [now apply contains_lower | split; [| now intros _]].
    simpl. intros [H | [H | [H | [H | [H | []]]]]]; discriminate. }
  destruct (String.eqb_spec category "explanation") as [-> | H4].
  { split; [now apply L | split; [now intros _ | intros H; elim H; simpl; auto]]. }
  destruct (String.eqb_spec category "prediction") as [-> | H5].
  { split; [now apply L | split; [now intros _ | intros H; elim H; simpl; auto]]. }
  destruct (String.eqb_spec category "review") as [-> | H6].
  { split; [now apply L | split; [now intros _ | intros H; elim H; simpl; auto 6]]. }
  split; [now apply contains_lower | split; [| now intros _]].
  simpl. intros [H | [H | [H | [H | [H | []]]]]]; congruence.
Qed.

(** X22. Whatever the limit, negative ones included, every influencer that
    [find_ai_influencers] returns comes from the channel statistics, has at
    least 50000 subscribers, passes the AI gate and carries the growth and
    relevance scores of its own channel; there are no more influencers than
    channels, and no channel id is returned twice when the statistics list
    none twice. *)
Theorem returned_influencers_admitted (now : Z) (fromisoformat : string -> option Z)
        (channel_stats : list Channel.t) (limit : Z) :
  let result :=
    AIInfluencerFinder.find_ai_influencers now fromisoformat channel_stats limit in
  (forall x, In x result ->
             In (Influencer.stats x) channel_stats /\
             50000 <= Channel.subscriber_count (Influencer.stats x) /\
             AIInfluencerFinder._is_ai_related_channel (Influencer.stats x) = true /\
             Influencer.growth_score x =
               AIInfluencerFinder._calculate_growth_score now fromisoformat
                                                          (Influencer.stats x) /\
             Influencer.ai_relevance_score x =
               AIInfluencerFinder._calculate_ai_relevance_score (Influencer.stats x)) /\
  (List.length result <= List.length channel_stats)%nat /\
  (NoDup (map Channel.channel_id channel_stats) -> NoDup (ids result)).
Proof.
  cbn zeta. unfold AIInfluencerFinder.find_ai_influencers.
  rewrite filter_influencers_map_filter.
  set (kept := map (enrich now fromisoformat) (filter admitted channel_stats)).
  pose proof (sort_desc_perm Binary64.ltb
                             (AIInfluencerFinder.combined_score now fromisoformat)
                             kept) as P.
  set (sorted := sort_desc Binary64.ltb _ kept) in *.
  split; [| split].
  - intros x Hx. apply In_slice_to in Hx.
    apply (Permutation_in _ P) in Hx. unfold kept in Hx.
    apply in_map_iff in Hx as (c & <- & Hc). apply filter_In in Hc as [Hc Ha].
    unfold admitted in Ha. apply andb_true_iff in Ha as [Hs Hg].
    apply Z.leb_le in Hs. unfold enrich. cbn. repeat split; assumption.
  - assert (Hs : (List.length (slice_to sorted limit) <= List.length sorted)%nat)
      by (unfold slice_to; destruct (limit <? 0); rewrite length_firstn; lia).
    rewrite (Permutation_length P) in Hs. unfold kept in Hs.
    rewrite length_map in Hs.
    pose proof (filter_length_le admitted channel_stats). lia.
  - intros ND. unfold ids.
    assert (NDs : NoDup (map (fun x => Channel.channel_id (Influencer.stats x)) sorted)).
    { eapply Permutation_NoDup; [apply Permutation_map; symmetry; exact P |].
      unfold kept. rewrite map_map. cbn.
      clear - ND. induction channel_stats as [|c l IH]; [constructor |].
      cbn [map filter] in *. inversion ND as [|? ? Hc Hl]; subst.
      destruct (admitted c); [| now apply IH].
      cbn [map]. constructor; [| now apply IH].
      intros Hin. apply Hc. apply in_map_iff in Hin as (c' & E & Hc').
      apply filter_In in Hc' as [Hc' _]. apply in_map_iff. eauto. }
    unfold slice_to. destruct (limit <? 0); rewrite <- firstn_map; now apply NoDup_firstn.
Qed.

Lemma returned_influencers_admitted_witness :
  NoDup (map Channel.channel_id example_channels) /\
  NoDup (ids (AIInfluencerFinder.find_ai_influencers
                Example.now Example.fromisoformat example_channels (-1))).
Proof.
  assert (H : NoDup (map Channel.channel_id example_channels)).
  { cbn. repeat constructor; simpl; intuition discriminate. }
  split; [exact H |].
  exact (proj2 (proj2 (returned_influencers_admitted
                         Example.now Example.fromisoformat example_channels (-1))) H).
Defined.

(** ** Trending videos *)

Lemma StronglySorted_firstn {A : Type} (R : A -> A -> Prop) (n : nat) (l : list A) :
  StronglySorted R l -> StronglySorted R (firstn n l).
Proof.
  intros H. revert n. induction H as [|a l Hl IH Ha]; intros [|n]; cbn [firstn];
    try constructor; [apply IH |].
  apply Forall_forall. intros x Hx. apply In_firstn in Hx.
  revert x Hx. now apply Forall_forall.
Qed.

Section TrendingVideos.
Variable search_list : string -> Z -> option string ->
                       YouTubeAPIClient.response (list string).
Variable videos_list : list string -> YouTubeAPIClient.response (list VideoInfo.t).

Lemma request_batches_delivered (batches : list (list string))
      (items : list VideoInfo.t) (video : VideoInfo.t) :
  YouTubeAPIClient.request_batches videos_list batches = YouTubeAPIClient.Answer items ->
  In video items -> delivered videos_list video.
Proof.
  revert items. induction batches as [|batch rest IH]; intros items;
    cbn [YouTubeAPIClient.request_batches].
  - intros E. injection E as <-. intros [].
  - destruct (videos_list batch) as [first |] eqn:Eb; [| discriminate].
    destruct (YouTubeAPIClient.request_batches videos_list rest) as [more |];
      [| discriminate].
    intros E. injection E as <-. intros Hin.
    apply in_app_or in Hin as [Hin | Hin].
    + exists batch, first. now split.
    + now apply (IH more).
Qed.

Lemma search_videos_delivered (request_count : Z) (query : string) (max_results : Z)
      (published_after : option string) (video : VideoInfo.t) :
  In video (fst (YouTubeAPIClient.search_videos search_list videos_list request_count
                                                query max_results published_after)) ->
  delivered videos_list video.
Proof.
  unfold YouTubeAPIClient.search_videos.
  destruct (YouTubeAPIClient._handle_rate_limit request_count) as [c slept].
  destruct (search_list _ _ _) as [video_ids |]; [| intros []].
  unfold YouTubeAPIClient.get_video_details, YouTubeAPIClient.get_in_batches.
  destruct (YouTubeAPIClient._handle_rate_limit c) as [c' slept'].
  destruct (YouTubeAPIClient.request_batches videos_list _) as [items |] eqn:E;
    [| intros []].
  cbn [fst]. now apply request_batches_delivered with (1 := E).
Qed.

Lemma search_keywords_delivered (keywords : list string) (per_keyword request_count : Z)
      (video : VideoInfo.t) :
  In video (fst (YouTubeAPIClient.search_keywords search_list videos_list keywords
                                                  per_keyword request_count)) ->
  delivered videos_list video.
Proof.
  revert request_count. induction keywords as [|keyword rest IH]; intros request_count;
    cbn [YouTubeAPIClient.search_keywords]; [intros [] |].
  pose proof (search_videos_delivered request_count keyword per_keyword None video) as Hv.
  destruct (YouTubeAPIClient.search_videos _ _ request_count keyword per_keyword None)
    as [videos c].
  specialize (IH c).
  destruct (YouTubeAPIClient.search_keywords _ _ rest per_keyword c) as [more c'].
  cbn [fst] in *. intros Hin. apply in_app_or in Hin as [Hin | Hin]; auto.
Qed.
End TrendingVideos.

Lemma filter_seen_In (seen : list string) (all_videos : list VideoInfo.t)
      (video : VideoInfo.t) :
  In video (YouTubeAPIClient.filter_seen seen all_videos) ->
  In video all_videos /\ 100000 <= VideoInfo.view_count video /\
  ~ In (VideoInfo.video_id video) seen.
Proof.
  revert seen. induction all_videos as [|v rest IH]; intros seen;
    cbn [YouTubeAPIClient.filter_seen]; [intros [] |].
  destruct (mem (VideoInfo.video_id v) seen) eqn:M; cbn [negb andb].
  - intros H. apply IH in H as (H1 & H2 & H3). repeat split; auto. now right.
  - destruct (Z.leb_spec config.MIN_VIEW_COUNT (VideoInfo.view_count v)) as [Hv | Hv].
    + intros [<- | H].
      * repeat split; [now left | exact Hv | now apply mem_not_In].
      * apply IH in H as (H1 & H2 & H3). repeat split; auto; [now right |].
        intros Hin. apply H3. now right.
    + intros H. apply IH in H as (H1 & H2 & H3). repeat split; auto. now right.
Qed.

Lemma filter_seen_NoDup (seen : list string) (all_videos : list VideoInfo.t) :
  NoDup (map VideoInfo.video_id (YouTubeAPIClient.filter_seen seen all_videos)).
Proof.
  revert seen. induction all_videos as [|v rest IH]; intros seen;
    cbn [YouTubeAPIClient.filter_seen]; [constructor |].
  destruct (negb (mem (VideoInfo.video_id v) seen)
            && (config.MIN_VIEW_COUNT <=? VideoInfo.view_count v)); [| apply IH].
  cbn [map]. constructor; [| apply IH].
  intros Hin. apply in_map_iff in Hin as (w & E & Hw).
  apply filter_seen_In in Hw as (_ & _ & Hw). apply Hw. left. now rewrite E.
Qed.

Lemma filter_seen_complete (seen : list string) (all_videos : list VideoInfo.t)
      (video : VideoInfo.t) :
  In video all_videos -> 100000 <= VideoInfo.view_count video ->
  In (VideoInfo.video_id video) seen \/
  In (VideoInfo.video_id video)
     (map VideoInfo.video_id (YouTubeAPIClient.filter_seen seen all_videos)).
Proof.
  revert seen. induction all_videos as [|v rest IH]; intros seen; [intros [] |].
  cbn [YouTubeAPIClient.filter_seen]. intros [-> | Hin] Hviews.
  - destruct (mem (VideoInfo.video_id video) seen) eqn:M;
      [left; now apply mem_In |].
    cbn [negb andb].
    destruct (Z.leb_spec config.MIN_VIEW_COUNT (VideoInfo.view_count video)) as [_ | Hv];
      [right; now left |].
    unfold config.MIN_VIEW_COUNT in Hv. lia.
  - destruct (negb (mem (VideoInfo.video_id v) seen)
              && (config.MIN_VIEW_COUNT <=? VideoInfo.view_count v)).
    + destruct (IH (VideoInfo.video_id v :: seen) Hin Hviews) as [[E | H] | H].
      * right. left. exact E.
      * now left.
      * right. now right.
    + apply IH; assumption.
Qed.

Lemma filter_seen_length (seen : list string) (all_videos : list VideoInfo.t) :
  (List.length (YouTubeAPIClient.filter_seen seen all_videos)
   <= List.length all_videos)%nat.
Proof.
  revert seen. induction all_videos as [|v rest IH]; intros seen;
    cbn [YouTubeAPIClient.filter_seen List.length]; [lia |].
  destruct (negb _ && _); cbn [List.length];
    [specialize (IH (VideoInfo.video_id v :: seen)) | specialize (IH seen)]; lia.
Qed.

(** X23. [get_trending_ai_videos] asks each of the ten keyword searches for
    a tenth of [max_results], rounded down, and returns videos that the
    details requests delivered, each with at least 100000 views, no video
    id twice, in descending order of views, and at most [max_results] of
    them when that is not negative.  When the searches bring in no more
    than [max_results] videos nothing is cut off: every video id that
    came in with at least 100000 views is returned. *)
Theorem trending_videos_distinct_and_ranked
        (search_list : string -> Z -> option string ->
                       YouTubeAPIClient.response (list string))
        (videos_list : list string -> YouTubeAPIClient.response (list VideoInfo.t))
        (request_count max_results : Z) :
  let result :=
    fst (YouTubeAPIClient.get_trending_ai_videos search_list videos_list
                                                 request_count max_results) in
  let all_videos := searched_videos search_list videos_list request_count max_results in
  NoDup (map VideoInfo.video_id result) /\
  Forall (fun video => 100000 <= VideoInfo.view_count video /\
                       In video all_videos /\ delivered videos_list video) result /\
  StronglySorted (fun a b => VideoInfo.view_count b <= VideoInfo.view_count a) result /\
  (0 <= max_results -> Z.of_nat (List.length result) <= max_results) /\
  (Z.of_nat (List.length all_videos) <= max_results ->
   forall video, In video all_videos -> 100000 <= VideoInfo.view_count video ->
                 In (VideoInfo.video_id video) (map VideoInfo.video_id result)).
Proof.
  cbn zeta. unfold searched_videos, YouTubeAPIClient.get_trending_ai_videos.
  pose proof (search_keywords_delivered
                search_list videos_list config.AI_KEYWORDS
                (max_results / Z.of_nat (List.length config.AI_KEYWORDS))
                request_count) as Hdel.
  destruct (YouTubeAPIClient.search_keywords _ _ _ _ _) as [all_videos c].
  cbn [fst] in *.
  set (filtered := YouTubeAPIClient.filter_seen [] all_videos).
  pose proof (sort_desc_perm Z.ltb VideoInfo.view_count filtered) as P.
  pose proof (sorted_by_Zltb VideoInfo.view_count _
                (sort_desc_sorted Z.ltb VideoInfo.view_count Zltb_asym Zltb_negtrans
                                  filtered)) as S.
  set (sorted := sort_desc Z.ltb VideoInfo.view_count filtered) in *.
  pose proof (filter_seen_length [] all_videos) as Hlen. fold filtered in Hlen.
  split; [| split; [| split; [| split]]].
  - assert (ND : NoDup (map VideoInfo.video_id sorted)).
    { eapply Permutation_NoDup; [apply Permutation_map; symmetry; exact P |].
      apply filter_seen_NoDup. }
    unfold slice_to. destruct (max_results <? 0); rewrite <- firstn_map;
      now apply NoDup_firstn.
  - apply Forall_forall. intros video Hin. apply In_slice_to in Hin.
    apply (Permutation_in _ P), filter_seen_In in Hin as (H1 & H2 & _).
    repeat split; auto.
  - unfold slice_to. destruct (max_results <? 0); now apply StronglySorted_firstn.
  - intros H. unfold slice_to. destruct (Z.ltb_spec max_results 0); [lia |].
    rewrite length_firstn. lia.
  - intros Hfit video Hin Hviews.
    assert (E : slice_to sorted max_results = sorted).
    { unfold slice_to. destruct (Z.ltb_spec max_results 0); [lia |].
      apply firstn_all2. rewrite (Permutation_length P). lia. }
    rewrite E.
    destruct (filter_seen_complete [] all_videos video Hin Hviews) as [[] | H].
    eapply Permutation_in; [apply Permutation_map; symmetry; exact P | exact H].
Qed.

Lemma trending_videos_distinct_and_ranked_witness :
  0 <= 100 /\
  Z.of_nat (List.length
              (fst (YouTubeAPIClient.get_trending_ai_videos
                      FurtherExample.search_list FurtherExample.videos_list 0 100)))
  <= 100.
Proof.
  assert (H : 0 <= 100) by lia.
  split; [exact H |].
  exact (proj1 (proj2 (proj2 (proj2
           (trending_videos_distinct_and_ranked
              FurtherExample.search_list FurtherExample.videos_list 0 100)))) H).
Defined.
